(** * Fraud dashboard: the transaction aggregation engine of [app.py]

    A shallow embedding of the loader ([safe_float], [load_data]), of the
    six query functions and of the two JSON endpoints ([alerts_count],
    [stats]) of [app.py], followed by the properties proved about them.
    The page [PAGE_HTML] and its script run in the browser and are not
    modelled.

    Conventions of the model.
    - A Python call that can raise returns a [result]; [try ... except
      Exception] is [try_except].  [load_data] raises what the conversion of
      the [is_fraud] column raises (lines 38-39 stand outside the [try]);
      [get_fraud_count] and [get_fraud_ratio_5min] raise when their window
      leaves the range of a [Timedelta] or of a [Timestamp].
    - A [float] is an IEEE binary64 value ([spec_float], precision 53): the
      numbers [safe_float] returns, and the ratio of
      [get_fraud_ratio_5min], whose quotient, product and rounding are the
      binary64 operations.
    - An instant is a number of nanoseconds in [Z]; [NaT] and [None] are
      [None].  The clock [now] is an instant pandas represents.
    - What [app.py] leaves to pandas and numpy and the code does not fix is
      a parameter of the model ([Pandas.Library]): the parser of
      timestamps, the conversion of a column of digit runs to integers, and
      the sort of a table by its counts.  The theorems hold for every
      library with the stated laws; [sample] is one, used to evaluate the
      model on concrete files.

    Domain of the model.
    - Text is ASCII ([string]); a cell of the CSV file is a [string]
      ([dtype=str, keep_default_na=False]: no cell is a missing value).
    - The timestamps of the file carry no time zone.
    - The distance from a date of birth to the clock is a [Timedelta]
      (below 292 years): the age is the exact quotient, and the error
      pandas raises on a longer distance is not modelled.
    - [hours] is an integer, as [alerts_count], the one caller, passes it
      ([hours=2]). *)

From Stdlib Require Import List String Ascii Bool Arith ZArith QArith Lia.
From Stdlib Require Import QArith.Qpower.
From Stdlib Require Import Floats.SpecFloat.
From Stdlib Require Import Sorting.Sorted Sorting.Permutation.
Import ListNotations.

Local Open Scope string_scope.
Local Open Scope Z_scope.
Local Open Scope list_scope.

(** ** Exceptions *)

Inductive exn : Type :=
| KeyError (key : string)
| TypeError
| ValueError
| OSError
| IntCastingNaNError
| OutOfBoundsTimedelta
| OutOfBoundsDatetime.

Inductive result (A : Type) : Type :=
| Ok (a : A)
| Raise (e : exn).

Arguments Ok {A} a.
Arguments Raise {A} e.

Definition bind {A B : Type} (r : result A) (k : A -> result B) : result B :=
  match r with
  | Ok a => k a
  | Raise e => Raise e
  end.

Notation "x <- r ;; k" := (bind r (fun x => k))
  (at level 61, r at next level, right associativity).

(** [try: body except Exception: handler] *)
Definition try_except {A : Type} (body : result A) (handler : exn -> result A)
  : result A :=
  match body with
  | Ok a => Ok a
  | Raise e => handler e
  end.

Fixpoint mapM {A B : Type} (f : A -> result B) (l : list A) : result (list B) :=
  match l with
  | [] => Ok []
  | a :: l' => b <- f a ;; bs <- mapM f l' ;; Ok (b :: bs)
  end.

(** ** Python text primitives *)

Module Py.

Definition chars (s : string) : list ascii := list_ascii_of_string s.
Definition text (l : list ascii) : string := string_of_list_ascii l.

Definition code (c : ascii) : nat := nat_of_ascii c.

(** [str.isspace] on an ASCII character: TAB, LF, VT, FF, CR, FS, GS, RS,
    US and the space. *)
Definition isspace (c : ascii) : bool :=
  ((9 <=? code c) && (code c <=? 13) || (28 <=? code c) && (code c <=? 32))%nat.

(** C's [Py_ISSPACE], which [float()] strips with: TAB..CR and the space. *)
Definition c_isspace (c : ascii) : bool :=
  ((9 <=? code c) && (code c <=? 13) || (code c =? 32))%nat.

Definition isdigit (c : ascii) : bool :=
  ((48 <=? code c) && (code c <=? 57))%nat.

Fixpoint dropwhile (p : ascii -> bool) (l : list ascii) : list ascii :=
  match l with
  | [] => []
  | c :: l' => if p c then dropwhile p l' else l
  end.

Fixpoint takewhile (p : ascii -> bool) (l : list ascii) : list ascii :=
  match l with
  | [] => []
  | c :: l' => if p c then c :: takewhile p l' else []
  end.

Definition strip_with (p : ascii -> bool) (l : list ascii) : list ascii :=
  rev (dropwhile p (rev (dropwhile p l))).

(** [s.strip()] *)
Definition strip (s : string) : string := text (strip_with isspace (chars s)).

(** [s.replace(a, b)] for one-character [a] and [b]. *)
Definition replace (a b : ascii) (s : string) : string :=
  text (map (fun c => if Ascii.eqb c a then b else c) (chars s)).

(** The value of a run of decimal digits, most significant first. *)
Definition digit_val (c : ascii) : Z := Z.of_nat (code c) - 48.

Definition digits_value (ds : list ascii) : Z :=
  fold_left (fun acc c => 10 * acc + digit_val c) ds 0.

(** *** [float(s)] on a [str]

    CPython's [float_from_string]: underscores are removed when each stands
    between two digits, white space is stripped, then the whole text must
    read as [[sign] digits [. digits] [e [sign] digits]] with at least one
    digit in the mantissa, or as [[sign] inf], [[sign] infinity] or
    [[sign] nan] in any letter case.  The decimal is rounded to the nearest
    binary64, ties to even; too large a value gives an infinity. *)

(** [_Py_string_to_number_with_underscores]: [prev] is the previous
    character, [None] at the start. *)
Fixpoint drop_underscores (prev : option ascii) (l : list ascii)
  : option (list ascii) :=
  match l with
  | [] =>
      match prev with
      | Some "_"%char => None
      | _ => Some []
      end
  | c :: l' =>
      if Ascii.eqb c "_" then
        match prev with
        | Some p => if isdigit p then drop_underscores (Some c) l' else None
        | None => None
        end
      else
        match prev with
        | Some "_"%char =>
            if isdigit c
            then option_map (cons c) (drop_underscores (Some c) l')
            else None
        | _ => option_map (cons c) (drop_underscores (Some c) l')
        end
  end.

Definition lower (c : ascii) : ascii :=
  if ((65 <=? code c) && (code c <=? 90))%nat
  then ascii_of_nat (code c + 32) else c.

(** The sign the text starts with, and the rest. *)
Definition split_sign (l : list ascii) : bool * list ascii :=
  match l with
  | "-"%char :: l' => (true, l')
  | "+"%char :: l' => (false, l')
  | _ => (false, l)
  end.

Definition prec : Z := 53.
Definition emax : Z := 1024.

(** The binary64 nearest to [m * 10 ^ e], of the sign [neg]. *)
Definition binary64_of_decimal (neg : bool) (m : Z) (e : Z) : spec_float :=
  match m with
  | Zpos p =>
      let '(n, d) :=
        if 0 <=? e then (Z.pos p * 10 ^ e, 1) else (Z.pos p, 10 ^ (- e)) in
      match n, d with
      | Zpos n', Zpos d' =>
          SFdiv prec emax (S754_finite neg n' 0) (S754_finite false d' 0)
      | _, _ => S754_nan
      end
  | _ => S754_zero neg
  end.

(** The exponent part: [e [sign] digits], consumed only when it has a
    digit; the exponent and what is left of the text. *)
Definition parse_exponent (l : list ascii) : Z * list ascii :=
  match l with
  | c :: l' =>
      if Ascii.eqb (lower c) "e" then
        let '(eneg, l'') := split_sign l' in
        match takewhile isdigit l'' with
        | [] => (0, l)
        | ds => ((if eneg then - digits_value ds else digits_value ds),
                 dropwhile isdigit l'')
        end
      else (0, l)
  | [] => (0, l)
  end.

(** [_Py_dg_strtod] after the sign: the mantissa as an integer, the decimal
    exponent, and what is left; [None] when there is no digit. *)
Definition parse_decimal (l : list ascii) : option (Z * Z * list ascii) :=
  let ip := takewhile isdigit l in
  let r1 := dropwhile isdigit l in
  let '(fp, r2) :=
    match r1 with
    | "."%char :: r => (takewhile isdigit r, dropwhile isdigit r)
    | _ => ([], r1)
    end in
  match ip ++ fp with
  | [] => None
  | ds =>
      let '(ex, r3) := parse_exponent r2 in
      Some (digits_value ds, ex - Z.of_nat (List.length fp), r3)
  end.

(** [_Py_parse_inf_or_nan] after the sign. *)
Definition parse_inf_or_nan (neg : bool) (l : list ascii)
  : option (spec_float * list ascii) :=
  match map lower l with
  | "i" :: "n" :: "f" :: r =>
      match r with
      | "i" :: "n" :: "i" :: "t" :: "y" :: _ =>
          Some (S754_infinity neg, skipn 8 l)
      | _ => Some (S754_infinity neg, skipn 3 l)
      end
  | "n" :: "a" :: "n" :: _ => Some (S754_nan, skipn 3 l)
  | _ => None
  end%char.

(** [PyOS_string_to_double]: the value and the unread rest. *)
Definition string_to_double (l : list ascii) : option (spec_float * list ascii) :=
  let '(neg, body) := split_sign l in
  match parse_decimal body with
  | Some (m, e, rest) => Some (binary64_of_decimal neg m e, rest)
  | None => parse_inf_or_nan neg body
  end.

(** [float(s)] *)
Definition float (s : string) : result spec_float :=
  match drop_underscores None (chars s) with
  | None => Raise ValueError
  | Some l =>
      match string_to_double (strip_with c_isspace l) with
      | Some (x, []) => Ok x
      | _ => Raise ValueError
      end
  end.

(** [math.isnan] *)
Definition isnan (x : spec_float) : bool :=
  match x with
  | S754_nan => true
  | _ => false
  end.

(** The rational a finite binary64 stands for. *)
Definition float_value (x : spec_float) : option Q :=
  match x with
  | S754_zero _ => Some 0%Q
  | S754_finite s m e =>
      Some (inject_Z (if s then Z.neg m else Z.pos m) * Qpower 2 e)%Q
  | _ => None
  end.

End Py.

(** ** The pandas operations [app.py] calls *)

Module Pandas.

(** *** Sorting

    The stable ascending sort by insertion: [insert] puts [x] before the
    first element that is not below it. *)
Section Sorting.
Context {A : Type} (leb : A -> A -> bool).

Fixpoint insert (x : A) (l : list A) : list A :=
  match l with
  | [] => [x]
  | y :: l' => if leb x y then x :: l else y :: insert x l'
  end.

Definition sort (l : list A) : list A := fold_right insert [] l.
End Sorting.

(** The order of pairs: by the first component, then by the second. *)
Definition lex_leb {A B : Type} (leA : A -> A -> bool) (leB : B -> B -> bool)
  (x y : A * B) : bool :=
  if leA (fst x) (fst y) && leA (fst y) (fst x)
  then leB (snd x) (snd y)
  else leA (fst x) (fst y).

Definition key_leb {A : Type} (key : A -> nat) (x y : A) : bool :=
  (key x <=? key y)%nat.

(** [sort_values(ascending=False)] as [nargsort] does it with a stable
    argsort: it reverses the values, sorts them ascending, and reverses the
    result.  numpy's default sort is stable on a short array, which it
    sorts by insertion, and promises no order of equal keys on a long one:
    this sort is the one of the [sample] library only. *)
Definition stable_sort_desc {A : Type} (key : A -> nat) (l : list A) : list A :=
  rev (sort (key_leb key) (rev l)).

(** [obj.head(n)]: the first [n] rows, all but the last [-n] when [n < 0]. *)
Definition head {A : Type} (n : Z) (l : list A) : list A :=
  if 0 <=? n then firstn (Z.to_nat n) l
  else firstn (List.length l - Z.to_nat (- n)) l.

(** *** Counting

    The hash table behind [value_counts] and [groupby]: one entry per
    distinct key, in the order the keys are first seen. *)
Section Counting.
Context {K : Type} (eqb : K -> K -> bool).

Fixpoint incr (k : K) (t : list (K * nat)) : list (K * nat) :=
  match t with
  | [] => [(k, 1%nat)]
  | (k', c) :: t' =>
      if eqb k k' then (k', S c) :: t' else (k', c) :: incr k t'
  end.

Definition count_keys (l : list K) : list (K * nat) :=
  fold_left (fun t k => incr k t) l [].

Fixpoint lookup (k : K) (t : list (K * nat)) : option nat :=
  match t with
  | [] => None
  | (k', c) :: t' => if eqb k k' then Some c else lookup k t'
  end.
End Counting.

(** [s.reindex(labels, fill_value=fill)] *)
Definition reindex (labels : list string) (fill : nat)
  (s : list (string * nat)) : list (string * nat) :=
  map (fun g => (g, match lookup String.eqb g s with
                    | Some c => c
                    | None => fill
                    end)) labels.

(** [df.groupby(keys).size()]: the distinct keys in ascending order, each
    with the number of its rows.  Two keys are the same group when each is
    below or equal to the other. *)
Definition groupby_size {K : Type} (leb : K -> K -> bool) (keys : list K)
  : list (K * nat) :=
  sort (fun a b => leb (fst a) (fst b))
       (count_keys (fun a b => leb a b && leb b a) keys).

(** [pd.cut(x, bins, labels, right=False)] on one number: the label of the
    bin [[lo, hi)] that holds it, [None] (NaN) outside every bin. *)
Fixpoint cut (bins : list Z) (labels : list string) (x : Z) : option string :=
  match bins, labels with
  | lo :: ((hi :: _) as bins'), lab :: labels' =>
      if (lo <=? x) && (x <? hi) then Some lab else cut bins' labels' x
  | _, _ => None
  end.

(** [s.str.extract(r'(\d+)')[0]] on one cell: the first run of digits. *)
Definition extract_digits (s : string) : option (list ascii) :=
  match Py.dropwhile (fun c => negb (Py.isdigit c)) (Py.chars s) with
  | [] => None
  | l => Some (Py.takewhile Py.isdigit l)
  end.

(** The number a run of digits denotes, 0 for no run. *)
Definition to_int (r : option (list ascii)) : Z :=
  match r with
  | Some ds => Py.digits_value ds
  | None => 0
  end.

(** A cell without a run, or with a run of at most nine digits: the number
    is below [10 ^ 9], which every integer and float type of numpy holds
    exactly. *)
Definition short (r : option (list ascii)) : bool :=
  match r with
  | Some ds => (List.length ds <=? 9)%nat && forallb Py.isdigit ds
  | None => true
  end.

(** The order numpy sorts binary64 values in: by value, a NaN last.  The
    triples are compared lexicographically. *)
Definition float_rank (x : spec_float) : Z * Z * Z :=
  match x with
  | S754_nan => (3, 0, 0)
  | S754_infinity false => (2, 0, 0)
  | S754_finite false m e => (1, e, Z.pos m)
  | S754_zero _ => (0, 0, 0)
  | S754_finite true m e => (-1, - e, Z.neg m)
  | S754_infinity true => (-2, 0, 0)
  end.

Definition float_leb (x y : spec_float) : bool :=
  lex_leb (lex_leb Z.leb Z.leb) Z.leb (float_rank x) (float_rank y).

(** [s.notna()] on a cell of a float column. *)
Definition notna (v : option spec_float) : bool :=
  match v with
  | Some x => negb (Py.isnan x)
  | None => false
  end.

(** *** What the code leaves to the library

    - [to_datetime]: [pd.to_datetime(column, errors='coerce')], one instant
      without time zone or [NaT] per cell.  The layout pandas reads a cell
      in can depend on the other cells of the column, so the parser takes
      the column; entry [i] of the result is the instant of row [i].
    - [to_int64]: [pd.to_numeric(runs, errors='coerce').fillna(0)
      .astype(int)] on the column of the first digit runs.  The type
      pandas gives the column depends on all of its cells, and the
      conversion to 64-bit integers can change a number that is too large
      or raise; on short runs it keeps every number.
    - [nargsort_desc]: the order [sort_values(ascending=False)] leaves a
      table in, by its counts.  It is descending; the order of rows of
      equal count is not fixed (numpy's default sort is not stable). *)
Class Library : Type := {
  to_datetime : list string -> list (option Z);
  to_int64 : list (option (list ascii)) -> result (list Z);
  nargsort_desc : forall A : Type, (A -> nat) -> list A -> list A;
  to_int64_short :
    forall runs,
      (forall r, In r runs -> short r = true) ->
      to_int64 runs = Ok (map to_int runs);
  to_int64_cell :
    forall runs vs,
      to_int64 runs = Ok vs ->
      List.length vs = List.length runs /\
      forall i r,
        nth_error runs i = Some r -> short r = true -> nth i vs 0 = to_int r;
  nargsort_desc_perm :
    forall (A : Type) (key : A -> nat) (l : list A),
      Permutation (nargsort_desc A key l) l;
  nargsort_desc_sorted :
    forall (A : Type) (key : A -> nat) (l : list A),
      StronglySorted (fun x y => (key y <= key x)%nat) (nargsort_desc A key l)
}.

Arguments nargsort_desc {Library} {A} key l.

(** [Series.value_counts()] of a column of text: descending counts. *)
Definition value_counts `{Library} (l : list string) : list (string * nat) :=
  nargsort_desc snd (count_keys String.eqb l).

(** [Series.value_counts()] of a categorical column: every category is
    listed, also with count 0; a missing value ([None]) is not counted. *)
Definition value_counts_categorical `{Library} (categories : list string)
  (l : list (option string)) : list (string * nat) :=
  nargsort_desc snd
    (map (fun c =>
            (c, List.length
                  (filter (fun v => match v with
                                    | Some g => String.eqb g c
                                    | None => false
                                    end) l)))
         categories).

(** *** Binary64 arithmetic of numpy *)

Definition divide : spec_float -> spec_float -> spec_float :=
  SFdiv Py.prec Py.emax.

Definition multiply : spec_float -> spec_float -> spec_float :=
  SFmul Py.prec Py.emax.

(** The binary64 of a count: the count itself below [2 ^ 53], the nearest
    binary64 from there on. *)
Definition of_count (n : nat) : spec_float :=
  match Z.of_nat n with
  | Zpos p =>
      if Z.pos p <? 2 ^ 53 then S754_finite false p 0
      else binary_normalize Py.prec Py.emax (Z.pos p) 0 false
  | _ => S754_zero false
  end.

Definition hundred : spec_float := S754_finite false 100 0.

(** [np.rint]: the nearest integer, ties to even; a binary64 with a
    non-negative exponent is an integer already. *)
Definition rint (x : spec_float) : spec_float :=
  match x with
  | S754_finite s m e =>
      if 0 <=? e then x
      else
        let d := 2 ^ (- e) in
        let q := Z.pos m / d in
        let k :=
          match 2 * (Z.pos m mod d) ?= d with
          | Lt => q
          | Gt => q + 1
          | Eq => if Z.even q then q else q + 1
          end in
        match k with
        | Zpos p =>
            binary_normalize Py.prec Py.emax (if s then Z.neg p else Z.pos p)
              0 false
        | _ => S754_zero s
        end
  | _ => x
  end.

(** [round(x, 2)] on a numpy float: [rint(x * 100) / 100]. *)
Definition round2 (x : spec_float) : spec_float :=
  divide (rint (multiply x hundred)) hundred.

End Pandas.

(** ** [app.py]: the loader *)

Definition EXPECTED_COLS : list string :=
  [ "transaction_id"; "ssn"; "cc_num"; "first_name"; "last_name"; "gender";
    "street"; "city"; "state"; "zip"; "home_lat"; "home_long"; "city_population";
    "job"; "dob"; "account_number"; "trans_num"; "trans_date"; "trans_time";
    "unix_time"; "category"; "amt"; "merchant"; "merch_lat"; "merch_long";
    "is_fraud"; "local_timestamp" ].

(** [safe_float(x)]: [None] for [None]; otherwise [float] of the stripped text
    with commas turned into dots, and [None] when that raises. *)
Definition safe_float (x : option string) : result (option spec_float) :=
  match x with
  | None => Ok None
  | Some x =>
      try_except
        (let s := Py.replace "," "." (Py.strip x) in
         v <- Py.float s ;; Ok (Some v))
        (fun _ => Ok None)
  end.


(** One row of the frame [load_data] returns: the text cells of the file, by
    column position, and the columns [load_data] derives. *)
Inductive age_cell : Type :=
| AgeNone               (* the object [None]: the frame has no [dob] column *)
| AgeNaN                (* the date of birth is [NaT] *)
| AgeYears (a : Z).

Record Row : Type := mkRow {
  cells : list string;
  is_fraud : Z;
  local_timestamp : option Z;
  age : age_cell;
  merch_lat_f : option spec_float;
  merch_long_f : option spec_float
}.

Record DataFrame : Type := mkDataFrame {
  columns : list string;
  rows : list Row
}.

(** [pd.DataFrame()] *)
Definition empty_frame : DataFrame := mkDataFrame [] [].

(** [df.empty]: no column or no row. *)
Definition df_empty (df : DataFrame) : bool :=
  match columns df, rows df with
  | [], _ => true
  | _, [] => true
  | _, _ => false
  end.

(** [name in df.columns] *)
Definition has_column (name : string) (cols : list string) : bool :=
  existsb (String.eqb name) cols.

Fixpoint index_of (name : string) (cols : list string) : option nat :=
  match cols with
  | [] => None
  | c :: cols' =>
      if String.eqb name c then Some 0%nat
      else option_map S (index_of name cols')
  end.

(** [df[name]] for a text column of the file. *)
Definition getitem (df : DataFrame) (name : string) : result (list string) :=
  match index_of name (columns df) with
  | Some i => Ok (map (fun r => nth i (cells r) "") (rows df))
  | None => Raise (KeyError name)
  end.

(** [df[mask]] *)
Definition select (p : Row -> bool) (df : DataFrame) : DataFrame :=
  mkDataFrame (columns df) (filter p (rows df)).

(** [df[name] = ...] on the column names: a new name goes last. *)
Definition add_column (name : string) (cols : list string) : list string :=
  if has_column name cols then cols else cols ++ [name].

(** The dataset file. *)
Inductive csv_file : Type :=
| Missing                          (* [os.path.isfile] is false *)
| Unreadable                       (* [pd.read_csv] raises *)
| Table (header : list string) (body : list (list string)).

Definition isfile (f : csv_file) : bool :=
  match f with
  | Missing => false
  | _ => true
  end.

Definition read_csv (f : csv_file) : result (list string * list (list string)) :=
  match f with
  | Table header body => Ok (header, body)
  | Unreadable => Raise ValueError
  | Missing => Raise OSError
  end.

Definition NS_PER_SECOND : Z := 1000000000.
Definition NS_PER_MINUTE : Z := 60 * NS_PER_SECOND.
Definition NS_PER_HOUR : Z := 60 * NS_PER_MINUTE.
Definition NS_PER_DAY : Z := 24 * NS_PER_HOUR.

Fixpoint mapi_from {A B : Type} (i : nat) (f : nat -> A -> B) (l : list A)
  : list B :=
  match l with
  | [] => []
  | a :: l' => f i a :: mapi_from (S i) f l'
  end.

Definition derived_columns : list string :=
  ["is_fraud"; "local_timestamp"; "age"; "merch_lat_f"; "merch_long_f"].

(** Lines 34-35: a header of 27 names without [local_timestamp] is replaced
    by the expected names. *)
Definition repair_header (header : list string) : list string :=
  if negb (has_column "local_timestamp" header)
     && (List.length header =? List.length EXPECTED_COLS)%nat
  then EXPECTED_COLS else header.

(** The text of a column of the file, [None] when the header lacks it.  In a
    file that [read_csv] parsed the names of the header are distinct and
    every row has one cell per name. *)
Definition column (header : list string) (body : list (list string))
  (name : string) : option (list string) :=
  match index_of name header with
  | Some i => Some (map (fun r => nth i r "") body)
  | None => None
  end.

(** The number the first run of digits of a cell denotes, 0 when the cell
    has no digit. *)
Definition fraud_flag (s : string) : Z :=
  Pandas.to_int (Pandas.extract_digits s).

(** The first run of digits of a cell is short: the cell has no digit, or
    the run has at most nine digits. *)
Definition short_flag (s : string) : bool :=
  Pandas.short (Pandas.extract_digits s).

(** Lines 51-52: [df[name].apply(safe_float)], a column of [None] when the
    header lacks [name]. *)
Definition float_column (header : list string) (body : list (list string))
  (name : string) : result (list (option spec_float)) :=
  match column header body name with
  | Some c => mapM (fun s => safe_float (Some s)) c
  | None => Ok (map (fun _ => None) body)
  end.

(** The rows of the frame: row [i] of the file with entry [i] of each
    derived column. *)
Definition assemble (body : list (list string)) (fraud : list Z)
  (stamp : list (option Z)) (ages : list age_cell)
  (lat lon : list (option spec_float)) : list Row :=
  mapi_from 0
    (fun i r =>
       mkRow r (nth i fraud 0) (nth i stamp None) (nth i ages AgeNaN)
         (nth i lat None) (nth i lon None))
    body.

(** ** [app.py]: the queries on a loaded frame *)

(** [df['is_fraud'] == 1] *)
Definition fraud (r : Row) : bool := is_fraud r =? 1.

(** [df['local_timestamp'] >= cutoff]: false on [NaT] and on [None]. *)
Definition since (cutoff : Z) (r : Row) : bool :=
  match local_timestamp r with
  | Some t => cutoff <=? t
  | None => false
  end.

(** A number of nanoseconds that a [Timedelta] or a [Timestamp] holds:
    strictly between [- 2 ^ 63] and [2 ^ 63]. *)
Definition in_range (t : Z) : bool := (- 2 ^ 63 <? t) && (t <? 2 ^ 63).

(** [pd.Timedelta(hours=hours)] for an integer [hours]. *)
Definition timedelta_hours (hours : Z) : result Z :=
  if in_range (hours * NS_PER_HOUR) then Ok (hours * NS_PER_HOUR)
  else Raise OutOfBoundsTimedelta.

(** [t - delta] on a [Timestamp] and a [Timedelta]. *)
Definition timestamp_sub (t delta : Z) : result Z :=
  if in_range (t - delta) then Ok (t - delta) else Raise OutOfBoundsDatetime.

(** Lines 58-62 of [get_fraud_count], reading the clock as [now]. *)
Definition fraud_count (df : DataFrame) (now hours : Z) : result nat :=
  if df_empty df then Ok 0%nat
  else
    delta <- timedelta_hours hours ;;
    cutoff <- timestamp_sub now delta ;;
    Ok (List.length (filter (fun r => fraud r && since cutoff r) (rows df))).

(** Lines 66-74 of [get_fraud_ratio_5min]: [frauds / total] and the product
    with 100 in binary64, then [round(_, 2)]. *)
Definition fraud_ratio_5min (df : DataFrame) (now : Z) : result spec_float :=
  if df_empty df then Ok (S754_zero false)
  else
    cutoff <- timestamp_sub now (5 * NS_PER_MINUTE) ;;
    let recent := select (since cutoff) df in
    if df_empty recent then Ok (S754_zero false)
    else
      let total := List.length (rows recent) in
      let frauds := List.length (filter fraud (rows recent)) in
      Ok (Pandas.round2
            (Pandas.multiply
               (Pandas.divide (Pandas.of_count frauds) (Pandas.of_count total))
               Pandas.hundred)).

Definition age_bins : list Z := [0; 25; 35; 45; 55; 120].
Definition age_labels : list string := ["<25"; "25-34"; "35-44"; "45-54"; "55+"].

(** [pd.cut] on a cell of the [age] column: comparing the object [None]
    with a bin edge raises [TypeError]. *)
Definition cut_age (a : age_cell) : result (option string) :=
  match a with
  | AgeNone => Raise TypeError
  | AgeNaN => Ok None
  | AgeYears y => Ok (Pandas.cut age_bins age_labels y)
  end.

(** The key of a row in [groupby(['merchant', 'merch_lat_f',
    'merch_long_f'])], and the order of the keys. *)
Definition location : Type := string * spec_float * spec_float.

Definition location_leb : location -> location -> bool :=
  Pandas.lex_leb (Pandas.lex_leb String.leb Pandas.float_leb)
    Pandas.float_leb.

Definition coordinate (v : option spec_float) : spec_float :=
  match v with
  | Some x => x
  | None => S754_nan
  end.

Section Engine.

Context {library : Pandas.Library}.

(** Lines 78-81 of [get_top_categories]. *)
Definition top_categories (df : DataFrame) (n : Z)
  : result (list (string * nat)) :=
  if df_empty df || negb (has_column "category" (columns df)) then Ok []
  else
    col <- getitem (select fraud df) "category" ;;
    Ok (Pandas.head n (Pandas.value_counts col)).

(** Lines 85-94 of [get_age_distribution]. *)
Definition age_distribution (df : DataFrame) : result (list (string * nat)) :=
  if df_empty df || negb (has_column "age" (columns df)) then Ok []
  else
    let df_fraud := select fraud df in
    if df_empty df_fraud then Ok []
    else
      age_group <- mapM cut_age (map age (rows df_fraud)) ;;
      Ok (Pandas.reindex age_labels 0
            (Pandas.value_counts_categorical age_labels age_group)).

(** Lines 98-112 of [get_top_merchant_locations]; [groupby] reads the
    [merchant] column.  An entry of the result is the key (merchant,
    latitude, longitude) of a group with its count. *)
Definition top_merchant_locations (df : DataFrame) (n : Z)
  : result (list (location * nat)) :=
  if df_empty df then Ok []
  else
    let df_fraud := select fraud df in
    if df_empty df_fraud then Ok []
    else
      let df_coords :=
        select (fun r => Pandas.notna (merch_lat_f r)
                         && Pandas.notna (merch_long_f r)) df_fraud in
      if df_empty df_coords then Ok []
      else
        merchant <- getitem df_coords "merchant" ;;
        let keys :=
          map (fun '(m, r) =>
                 (m, coordinate (merch_lat_f r), coordinate (merch_long_f r)))
              (combine merchant (rows df_coords)) in
        let grouped := Pandas.groupby_size location_leb keys in
        Ok (Pandas.head n (Pandas.nargsort_desc snd grouped)).

(** Lines 116-120 of [get_top_states]. *)
Definition top_states (df : DataFrame) (n : Z)
  : result (list (string * nat)) :=
  if df_empty df || negb (has_column "state" (columns df)) then Ok []
  else
    col <- getitem (select fraud df) "state" ;;
    Ok (Pandas.head n (Pandas.value_counts col)).

(** Lines 37-41: the [is_fraud] column, the integers of the first digit
    runs, or a column of 0 when the header lacks [is_fraud]. *)
Definition fraud_column (header : list string) (body : list (list string))
  : result (list Z) :=
  match column header body "is_fraud" with
  | Some c => Pandas.to_int64 (map Pandas.extract_digits c)
  | None => Ok (map (fun _ => 0) body)
  end.

(** Line 43: [pd.to_datetime(df.get('local_timestamp'), errors='coerce')];
    without the column, [to_datetime(None)] is [None]. *)
Definition stamp_column (header : list string) (body : list (list string))
  : list (option Z) :=
  match column header body "local_timestamp" with
  | Some c => Pandas.to_datetime c
  | None => map (fun _ => None) body
  end.

(** Lines 45-49: the whole days from the date of birth to [now], floor
    divided by 365. *)
Definition age_column (header : list string) (body : list (list string))
  (now : Z) : list age_cell :=
  match column header body "dob" with
  | Some c =>
      map (fun d => match d with
                    | Some t => AgeYears ((now - t) / NS_PER_DAY / 365)
                    | None => AgeNaN
                    end) (Pandas.to_datetime c)
  | None => map (fun _ => AgeNone) body
  end.

(** [load_data()], reading the clock as [now]. *)
Definition load_data (file : csv_file) (now : Z) : result DataFrame :=
  if negb (isfile file) then Ok empty_frame
  else
    match read_csv file with
    | Raise _ => Ok empty_frame
    | Ok (header, body) =>
        let header := repair_header header in
        flags <- fraud_column header body ;;
        lat <- float_column header body "merch_lat" ;;
        lon <- float_column header body "merch_long" ;;
        Ok (mkDataFrame
              (fold_left (fun cols name => add_column name cols)
                 derived_columns header)
              (assemble body flags (stamp_column header body)
                 (age_column header body now) lat lon))
    end.

(** The six queries.  Each loads the file, then aggregates the frame; the
    aggregation is the function named after the query without [get_]. *)

Definition get_fraud_count (file : csv_file) (now : Z) (hours : Z)
  : result nat :=
  df <- load_data file now ;; fraud_count df now hours.

Definition get_fraud_ratio_5min (file : csv_file) (now : Z)
  : result spec_float :=
  df <- load_data file now ;; fraud_ratio_5min df now.

Definition get_top_categories (file : csv_file) (now : Z) (n : Z)
  : result (list (string * nat)) :=
  df <- load_data file now ;; top_categories df n.

Definition get_age_distribution (file : csv_file) (now : Z)
  : result (list (string * nat)) :=
  df <- load_data file now ;; age_distribution df.

Definition get_top_merchant_locations (file : csv_file) (now : Z) (n : Z)
  : result (list (location * nat)) :=
  df <- load_data file now ;; top_merchant_locations df n.

Definition get_top_states (file : csv_file) (now : Z) (n : Z)
  : result (list (string * nat)) :=
  df <- load_data file now ;; top_states df n.

End Engine.

(** ** A library for evaluation

    The theorems below hold for every library; [sample] evaluates the
    engine on concrete files.

    [Iso.to_datetime] is [pd.to_datetime] on a column written in an ISO
    8601 layout, [YYYY-MM-DD] or [YYYY-MM-DD HH:MM:SS]: the nanoseconds
    since 1970-01-01 00:00:00, [NaT] for any other text. *)
Module Iso.

Definition num2 (a b : ascii) : option Z :=
  if Py.isdigit a && Py.isdigit b
  then Some (10 * Py.digit_val a + Py.digit_val b) else None.

Definition num4 (a b c d : ascii) : option Z :=
  match num2 a b, num2 c d with
  | Some x, Some y => Some (100 * x + y)
  | _, _ => None
  end.

Definition is_leap (y : Z) : bool :=
  (y mod 4 =? 0) && (negb (y mod 100 =? 0) || (y mod 400 =? 0)).

Definition days_in_month (y m : Z) : Z :=
  if m =? 2 then (if is_leap y then 29 else 28)
  else if (m =? 4) || (m =? 6) || (m =? 9) || (m =? 11) then 30
  else 31.

(** Days from 1970-01-01 to the civil date, in the proleptic Gregorian
    calendar; the year starts in March so that the leap day comes last. *)
Definition days_from_civil (y m d : Z) : Z :=
  let y' := if m <=? 2 then y - 1 else y in
  let era := y' / 400 in
  let yoe := y' - era * 400 in
  let mp := (m + 9) mod 12 in
  let doy := (153 * mp + 2) / 5 + d - 1 in
  let doe := yoe * 365 + yoe / 4 - yoe / 100 + doy in
  era * 146097 + doe - 719468.

Definition date (y m d : option Z) : option Z :=
  match y, m, d with
  | Some y, Some m, Some d =>
      if (1 <=? m) && (m <=? 12) && (1 <=? d) && (d <=? days_in_month y m)
      then Some (days_from_civil y m d * NS_PER_DAY) else None
  | _, _, _ => None
  end.

Definition clock (h mi sec : option Z) : option Z :=
  match h, mi, sec with
  | Some h, Some mi, Some sec =>
      if (h <? 24) && (mi <? 60) && (sec <? 60)
      then Some (h * NS_PER_HOUR + mi * NS_PER_MINUTE + sec * NS_PER_SECOND)
      else None
  | _, _, _ => None
  end.

(** The instant a text in one of the two layouts denotes. *)
Definition civil (s : string) : option Z :=
  match Py.chars s with
  | [y1; y2; y3; y4; "-"; m1; m2; "-"; d1; d2] =>
      date (num4 y1 y2 y3 y4) (num2 m1 m2) (num2 d1 d2)
  | [y1; y2; y3; y4; "-"; m1; m2; "-"; d1; d2; " ";
     h1; h2; ":"; mi1; mi2; ":"; s1; s2] =>
      match date (num4 y1 y2 y3 y4) (num2 m1 m2) (num2 d1 d2),
            clock (num2 h1 h2) (num2 mi1 mi2) (num2 s1 s2) with
      | Some d, Some c => Some (d + c)
      | _, _ => None
      end
  | _ => None
  end%char.

(** One cell under [errors='coerce']: [NaT] for an instant out of the range
    of a [Timestamp]. *)
Definition parse (s : string) : option Z :=
  match civil s with
  | Some t => if in_range t then Some t else None
  | None => None
  end.

(** The column: the layout is the one of the first cell, and a cell in the
    other layout is [NaT]; when the first cell has no layout every cell is
    read on its own. *)
Definition to_datetime (column : list string) : list (option Z) :=
  match column with
  | [] => []
  | first :: _ =>
      match civil first with
      | Some _ =>
          map (fun s =>
                 if (String.length s =? String.length first)%nat
                 then parse s else None) column
      | None => map parse column
      end
  end.

End Iso.


(** [Sample.to_int64] follows pandas on Linux: a column without a missing
    value whose numbers fit is a column of 64-bit integers, signed or, when
    a number is [2 ^ 63] or more, unsigned (the cast to [int] then wraps);
    any other column is a column of binary64, whose cast to [int] raises on
    an infinity and gives [- 2 ^ 63] out of range. *)
Module Sample.

Definition is_null (r : option (list ascii)) : bool :=
  match r with
  | None => true
  | Some _ => false
  end.

(** The cast of a binary64 to a 64-bit integer, [None] when it is not
    finite. *)
Definition int64_of_float (x : spec_float) : option Z :=
  match x with
  | S754_zero _ => Some 0
  | S754_finite s m e =>
      let v := if 0 <=? e then Z.pos m * 2 ^ e else Z.pos m / 2 ^ (- e) in
      let v := if s then - v else v in
      Some (if in_range v then v else - 2 ^ 63)
  | _ => None
  end.

Definition float_cell (r : option (list ascii)) : result Z :=
  if Pandas.short r then Ok (Pandas.to_int r)
  else
    match int64_of_float (Py.binary64_of_decimal false (Pandas.to_int r) 0) with
    | Some v => Ok v
    | None => Raise IntCastingNaNError
    end.

Definition unsigned_cell (r : option (list ascii)) : Z :=
  if Pandas.short r then Pandas.to_int r
  else if 2 ^ 63 <=? Pandas.to_int r then Pandas.to_int r - 2 ^ 64
  else Pandas.to_int r.

Definition to_int64 (runs : list (option (list ascii))) : result (list Z) :=
  if existsb is_null runs
     || existsb (fun r => 2 ^ 64 <=? Pandas.to_int r) runs
  then mapM float_cell runs
  else if existsb (fun r => 2 ^ 63 <=? Pandas.to_int r) runs
  then Ok (map unsigned_cell runs)
  else Ok (map Pandas.to_int runs).

End Sample.

(** The sample library: the ISO parser, the conversion above and the
    stable sort. *)
Definition sample : Pandas.Library.
Proof.
  refine {| Pandas.to_datetime := Iso.to_datetime;
            Pandas.to_int64 := Sample.to_int64;
            Pandas.nargsort_desc := @Pandas.stable_sort_desc |}.
  - intros runs Hshort. unfold Sample.to_int64.
    assert (Hf : mapM Sample.float_cell runs = Ok (map Pandas.to_int runs)).
    { induction runs as [|r runs IH]; [reflexivity|].
      cbn [mapM map]. unfold Sample.float_cell at 1.
      rewrite (Hshort r (or_introl eq_refl)). cbn [bind].
      rewrite IH by (intros r' Hr'; apply Hshort; now right). reflexivity. }
    assert (Hu : map Sample.unsigned_cell runs = map Pandas.to_int runs).
    { apply map_ext_in. intros r Hr. unfold Sample.unsigned_cell.
      now rewrite (Hshort r Hr). }
    destruct (_ || _); [exact Hf|].
    destruct (existsb _ runs); [now rewrite Hu|reflexivity].
  - intros runs vs. unfold Sample.to_int64.
    assert (Hf : forall l ws,
               mapM Sample.float_cell l = Ok ws ->
               List.length ws = List.length l /\
               forall i r, nth_error l i = Some r -> Pandas.short r = true ->
                           nth i ws 0 = Pandas.to_int r).
    { induction l as [|r l IH]; intros ws H.
      - injection H as <-. split; [reflexivity|]. intros [|i] r'; discriminate.
      - cbn [mapM] in H.
        destruct (Sample.float_cell r) as [v|e] eqn:Ev; [|discriminate H].
        cbn [bind] in H.
        destruct (mapM Sample.float_cell l) as [ws'|e]; [|discriminate H].
        cbn [bind] in H. injection H as <-.
        destruct (IH ws' eq_refl) as [Hl Hn].
        split; [cbn [List.length]; now rewrite Hl|].
        intros [|i] r' Hr' Hs; cbn [nth_error nth] in *.
        + injection Hr' as <-. unfold Sample.float_cell in Ev.
          rewrite Hs in Ev. now injection Ev as <-.
        + now apply Hn. }
    assert (Hm : forall (g : option (list ascii) -> Z) l,
               (forall r, Pandas.short r = true -> g r = Pandas.to_int r) ->
               List.length (map g l) = List.length l /\
               forall i r, nth_error l i = Some r -> Pandas.short r = true ->
                           nth i (map g l) 0 = Pandas.to_int r).
    { intros g l Hg. split; [apply length_map|].
      intros i r Hr Hs. rewrite <- (Hg r Hs).
      apply nth_error_nth. now rewrite nth_error_map, Hr. }
    destruct (_ || _); [apply Hf|].
    destruct (existsb _ runs); intros [= <-]; apply Hm.
    + intros r Hs. unfold Sample.unsigned_cell. now rewrite Hs.
    + reflexivity.
  - intros A key l. unfold Pandas.stable_sort_desc.
    assert (Hi : forall x s, Permutation
                               (Pandas.insert (Pandas.key_leb key) x s)
                               (x :: s)).
    { intros x s. induction s as [|y s IH]; cbn [Pandas.insert]; [reflexivity|].
      destruct (Pandas.key_leb key x y); [reflexivity|].
      rewrite IH. apply perm_swap. }
    assert (Hs : forall s, Permutation (Pandas.sort (Pandas.key_leb key) s) s).
    { induction s as [|x s IH]; cbn [Pandas.sort fold_right]; [reflexivity|].
      rewrite Hi. now constructor. }
    rewrite <- Permutation_rev, Hs, <- Permutation_rev. reflexivity.
  - intros A key l. unfold Pandas.stable_sort_desc.
    assert (Hi : forall x s,
               StronglySorted (fun a b => (key a <= key b)%nat) s ->
               StronglySorted (fun a b => (key a <= key b)%nat)
                 (Pandas.insert (Pandas.key_leb key) x s)).
    { intros x s Hs. induction Hs as [|y s Hs IH Hall]; cbn [Pandas.insert].
      - constructor; constructor.
      - unfold Pandas.key_leb at 1. destruct (Nat.leb_spec (key x) (key y)).
        + constructor; [now constructor|]. constructor; [assumption|].
          eapply Forall_impl; [|exact Hall]. cbv beta. intros; lia.
        + constructor; [exact IH|].
          assert (Hp : forall z,
                     In z (Pandas.insert (Pandas.key_leb key) x s) ->
                     z = x \/ In z s).
          { clear. induction s as [|w s IH]; cbn [Pandas.insert]; intros z.
            - intros [<-|[]]. now left.
            - destruct (Pandas.key_leb key x w); cbn [In].
              + intuition auto.
              + intros [<-|Hz]; [auto|]. destruct (IH z Hz); auto. }
          apply Forall_forall. intros z Hz.
          destruct (Hp z Hz) as [->|Hin]; [lia|].
          rewrite Forall_forall in Hall. now apply Hall. }
    assert (Hs : forall s,
               StronglySorted (fun a b => (key a <= key b)%nat)
                 (Pandas.sort (Pandas.key_leb key) s)).
    { induction s as [|x s IH]; cbn [Pandas.sort fold_right];
        [constructor|]. now apply Hi. }
    assert (Hr : forall s,
               StronglySorted (fun a b => (key a <= key b)%nat) s ->
               StronglySorted (fun a b => (key b <= key a)%nat) (rev s)).
    { intros s H. induction H as [|y s H IH Hall]; cbn [rev]; [constructor|].
      assert (Ha : forall t u,
                 StronglySorted (fun a b => (key b <= key a)%nat) t ->
                 Forall (fun z => (key u <= key z)%nat) t ->
                 StronglySorted (fun a b => (key b <= key a)%nat) (t ++ [u])).
      { intros t u Ht. induction Ht as [|z t Ht IHt Hz]; cbn [app]; intros Hu.
        - constructor; constructor.
        - inversion Hu as [|? ? Hzu Hu']; subst.
          constructor; [now apply IHt|].
          apply Forall_app. split; [exact Hz|]. now constructor. }
      apply Ha; [exact IH|]. apply Forall_rev. exact Hall. }
    apply Hr, Hs.
Defined.

(** ** Vocabulary of the statements *)

(** [x] stands at an earlier position of [l] than [y]. *)
Fixpoint before {A : Type} (l : list A) (x y : A) : Prop :=
  match l with
  | [] => False
  | a :: l' => (a = x /\ In y l') \/ before l' x y
  end.

(** The number of elements of [l] that satisfy [p]. *)
Definition count {A : Type} (p : A -> bool) (l : list A) : nat :=
  List.length (filter p l).

(** The age of the row is a number in [[lo, hi)]. *)
Definition in_bin (lo hi : Z) (r : Row) : bool :=
  match age r with
  | AgeYears y => (lo <=? y) && (y <? hi)
  | _ => false
  end.

(** The text of column [name] in a row of a file with the header [header],
    [None] when the header lacks the column. *)
Definition cell (header : list string) (name : string) (raw : list string)
  : option string :=
  match index_of name header with
  | Some i => Some (nth i raw "")
  | None => None
  end.

(** [run] is the first run of digits of [s]: what precedes it has no digit,
    and it does not go on. *)
Definition first_digit_run (s run : list ascii) : Prop :=
  exists pre post,
    s = pre ++ run ++ post /\
    forallb (fun c => negb (Py.isdigit c)) pre = true /\
    run <> [] /\
    forallb Py.isdigit run = true /\
    match post with
    | [] => True
    | c :: _ => Py.isdigit c = false
    end.

(** [pd.cut] on a numeric cell of the [age] column. *)
Definition bin_of (a : age_cell) : option string :=
  match a with
  | AgeYears y => Pandas.cut age_bins age_labels y
  | _ => None
  end.

(** The keys of the counting table after one more key [k]. *)
Definition add_key {K : Type} (eqb : K -> K -> bool) (k : K) (ks : list K)
  : list K :=
  if existsb (eqb k) ks then ks else ks ++ [k].

(** [out] lists its counts in descending order: an entry has at most the
    count of every entry before it. *)
Definition descending {K : Type} (out : list (K * nat)) : Prop :=
  forall i j k1 c1 k2 c2,
    (i < j)%nat ->
    nth_error out i = Some (k1, c1) ->
    nth_error out j = Some (k2, c2) ->
    (c2 <= c1)%nat.

(** Every entry of [out] gives its key the number of times the key occurs in
    [src]. *)
Definition counts_of (src : list string) (out : list (string * nat)) : Prop :=
  forall k c, In (k, c) out -> c = count (String.eqb k) src.

(** The row without its age, the one column that depends on the clock. *)
Definition forget_age (r : Row) : Row :=
  mkRow (cells r) (is_fraud r) (local_timestamp r) AgeNaN (merch_lat_f r)
    (merch_long_f r).

(** A comma or a dot. *)
Definition is_separator (c : ascii) : bool :=
  Ascii.eqb c "," || Ascii.eqb c ".".

(** The decimal point of [float]. *)
Definition is_dot (c : ascii) : bool := Ascii.eqb c ".".

(** The sum of the counts of a table. *)
Definition total {K : Type} (t : list (K * nat)) : nat :=
  list_sum (map snd t).

(** The row is a fraud row with both coordinates. *)
Definition located (r : Row) : bool :=
  fraud r && (Pandas.notna (merch_lat_f r) && Pandas.notna (merch_long_f r)).





(** A binary64 above zero. *)
Definition positive_float (x : spec_float) : bool :=
  match x with
  | S754_finite false _ _ => true
  | S754_infinity false => true
  | _ => false
  end.

(** The largest integer [k] with [k * 2 ^ e] at most [M * 2 ^ E]. *)
Definition bound_at (M E e : Z) : Z :=
  if e <=? E then M * 2 ^ (E - e) else M / 2 ^ (e - E).

(** A binary64 that is zero, or positive and at most [M * 2 ^ E]. *)
Definition at_most (M E : Z) (x : spec_float) : Prop :=
  match x with
  | S754_zero false => True
  | S754_finite false m e => Z.pos m <= bound_at M E e
  | _ => False
  end.

(** The integer just above the number a shift record stands for, the
    integer itself when the record is exact. *)
Definition upper (mrs : shr_record) : Z :=
  if shr_r mrs || shr_s mrs then shr_m mrs + 1 else shr_m mrs.

(** ** [app.py]: the endpoints

    [alerts_count] and [stats] call the queries one after the other and put
    the results in a dictionary with the clock formatted by
    [strftime("%Y-%m-%d %H:%M:%S")].  Every call reads the clock anew: the
    readings are the parameters [t1], [t2], ... in the order of the calls.
    An exception of a query is not caught. *)

Module Datetime.

(** The civil date (year, month, day) of a number of days from 1970-01-01,
    in the proleptic Gregorian calendar. *)
Definition civil_from_days (z : Z) : Z * Z * Z :=
  let z := z + 719468 in
  let era := z / 146097 in
  let doe := z - era * 146097 in
  let yoe := (doe - doe / 1460 + doe / 36524 - doe / 146096) / 365 in
  let doy := doe - (365 * yoe + yoe / 4 - yoe / 100) in
  let mp := (5 * doy + 2) / 153 in
  let d := doy - (153 * mp + 2) / 5 + 1 in
  let m := if mp <? 10 then mp + 3 else mp - 9 in
  (yoe + era * 400 + (if m <=? 2 then 1 else 0), m, d).

Definition digit (n : Z) : ascii := ascii_of_nat (48 + Z.to_nat n).

Definition pad2 (n : Z) : list ascii := [digit (n / 10); digit (n mod 10)].

Definition pad4 (n : Z) : list ascii := pad2 (n / 100) ++ pad2 (n mod 100).

(** [t.strftime("%Y-%m-%d %H:%M:%S")] for an instant of the years 1000 to
    9999; the fraction of the second is dropped. *)
Definition strftime (t : Z) : string :=
  let '(y, m, d) := civil_from_days (t / NS_PER_DAY) in
  let ns := t mod NS_PER_DAY in
  Py.text
    (pad4 y ++ ["-"%char] ++ pad2 m ++ ["-"%char] ++ pad2 d ++ [" "%char]
     ++ pad2 (ns / NS_PER_HOUR) ++ [":"%char]
     ++ pad2 (ns mod NS_PER_HOUR / NS_PER_MINUTE) ++ [":"%char]
     ++ pad2 (ns mod NS_PER_MINUTE / NS_PER_SECOND)).

End Datetime.

(** The dictionary of [alerts_count]. *)
Record AlertsCount : Type := mkAlertsCount {
  alerts_fraud_count : nat;
  alerts_fraud_ratio_5min : spec_float;
  alerts_timestamp : string
}.

(** The dictionary of [stats]. *)
Record Stats : Type := mkStats {
  stats_top_categories : list (string * nat);
  stats_age_distribution : list (string * nat);
  stats_top_merchant_locations : list (location * nat);
  stats_top_states : list (string * nat);
  stats_timestamp : string
}.

Section Endpoints.

Context {library : Pandas.Library}.

(** Lines 124-131. *)
Definition alerts_count (file : csv_file) (t1 t2 t3 : Z) : result AlertsCount :=
  count <- get_fraud_count file t1 2 ;;
  ratio <- get_fraud_ratio_5min file t2 ;;
  Ok (mkAlertsCount count ratio (Datetime.strftime t3)).

(** Lines 134-141; the queries take their default [n = 5]. *)
Definition stats (file : csv_file) (t1 t2 t3 t4 t5 : Z) : result Stats :=
  categories <- get_top_categories file t1 5 ;;
  ages <- get_age_distribution file t2 ;;
  locations <- get_top_merchant_locations file t3 5 ;;
  states <- get_top_states file t4 5 ;;
  Ok (mkStats categories ages locations states (Datetime.strftime t5)).

End Endpoints.

(** ** Sample files

    The clock of the samples reads 2026-11-03 12:00:00; they are evaluated
    with the [sample] library. *)

Definition noon : Z :=
  Eval vm_compute in
    match Iso.parse "2026-11-03 12:00:00" with
    | Some t => t
    | None => 0
    end.

(** Four fraud rows aged 20, 30, 30 and 60, and a row that is not fraud. *)
Definition ages_file : csv_file :=
  Table ["is_fraud"; "dob"]
    [ ["1"; "2006-01-01"];
      ["1"; "1996-01-01"];
      ["0"; "1986-01-01"];
      ["1"; "1996-06-30"];
      ["1"; "1966-01-01"] ].

Definition ages_frame : DataFrame :=
  Eval vm_compute in
    match load_data (library := sample) ages_file noon with
    | Ok df => df
    | Raise _ => empty_frame
    end.

(** A file with rows, none of them fraud. *)
Definition no_fraud_file : csv_file :=
  Table ["is_fraud"; "dob"] [ ["0"; "1990-01-01"]; ["no"; "1980-05-17"] ].

(** A file whose fraud flag is neither 0 nor 1. *)
Definition flag_two_file : csv_file := Table ["is_fraud"] [ ["2"] ].

(** The fraud flags of the specification, and a flag of 2. *)
Definition flags_header : list string := ["is_fraud"].

Definition flags_body : list (list string) :=
  [ ["1.0"]; ["yes"]; ["0"]; ["2"] ].

Definition flags_frame : DataFrame :=
  Eval vm_compute in
    match load_data (library := sample) (Table flags_header flags_body) noon with
    | Ok df => df
    | Raise _ => empty_frame
    end.



(** One fraud row, stamped more than three years after the clock. *)
Definition future_file : csv_file :=
  Table ["is_fraud"; "local_timestamp"] [ ["1"; "2030-01-01 00:00:00"] ].

(** A fraud row with coordinates in a file without a [merchant] column. *)
Definition no_merchant_file : csv_file :=
  Table ["is_fraud"; "category"; "merch_lat"; "merch_long"]
    [ ["1"; "travel"; "1.0"; "2.0"] ].

Definition no_merchant_frame : DataFrame :=
  Eval vm_compute in
    match load_data (library := sample) no_merchant_file noon with
    | Ok df => df
    | Raise _ => empty_frame
    end.

(** Ten rows: three fraud rows within the last two hours, one fraud row
    three hours old, six rows that are not fraud. *)
Definition ten_rows_file : csv_file :=
  Table ["is_fraud"; "local_timestamp"]
    [ ["1"; "2026-11-03 11:30:00"];
      ["0"; "2026-11-03 11:45:00"];
      ["1"; "2026-11-03 10:00:00"];
      ["0"; "2026-11-03 09:00:00"];
      ["1"; "2026-11-03 09:00:00"];
      ["0"; "2026-11-03 11:59:00"];
      ["1"; "2026-11-03 11:59:59"];
      ["0"; "2026-11-02 12:00:00"];
      ["0"; "not a date"];
      ["0"; "2026-11-03 10:30:00"] ].

Definition ten_rows_frame : DataFrame :=
  Eval vm_compute in
    match load_data (library := sample) ten_rows_file noon with
    | Ok df => df
    | Raise _ => empty_frame
    end.

(** Four rows in the last five minutes, one of them fraud, and an older
    fraud row. *)
Definition five_minutes_file : csv_file :=
  Table ["is_fraud"; "local_timestamp"]
    [ ["1"; "2026-11-03 11:56:00"];
      ["0"; "2026-11-03 11:57:00"];
      ["0"; "2026-11-03 11:58:00"];
      ["0"; "2026-11-03 11:59:00"];
      ["1"; "2026-11-03 11:00:00"] ].

Definition five_minutes_frame : DataFrame :=
  Eval vm_compute in
    match load_data (library := sample) five_minutes_file noon with
    | Ok df => df
    | Raise _ => empty_frame
    end.

(** A row with a bad timestamp, a bad number and a bad fraud flag. *)
Definition malformed_header : list string :=
  ["is_fraud"; "local_timestamp"; "merch_lat"; "merch_long"].

Definition malformed_body : list (list string) :=
  [ ["maybe"; "yesterday"; "north"; "12,5"] ].

Definition malformed_file : csv_file := Table malformed_header malformed_body.

Definition malformed_frame : DataFrame :=
  Eval vm_compute in
    match load_data (library := sample) malformed_file noon with
    | Ok df => df
    | Raise _ => empty_frame
    end.




(** A fraud row in a file without a [local_timestamp] column. *)
Definition no_stamp_header : list string := ["is_fraud"; "category"].

Definition no_stamp_body : list (list string) := [ ["1"; "travel"] ].

Definition no_stamp_frame : DataFrame :=
  Eval vm_compute in
    match load_data (library := sample) (Table no_stamp_header no_stamp_body) noon with
    | Ok df => df
    | Raise _ => empty_frame
    end.

(** A header of 27 names, none of them [local_timestamp], and a row whose
    26th cell is the fraud flag. *)
Definition unnamed_header : list string :=
  [ "c01"; "c02"; "c03"; "c04"; "c05"; "c06"; "c07"; "c08"; "c09"; "c10";
    "c11"; "c12"; "c13"; "c14"; "c15"; "c16"; "c17"; "c18"; "c19"; "c20";
    "c21"; "c22"; "c23"; "c24"; "c25"; "c26"; "c27" ].

Definition unnamed_body : list (list string) :=
  [ [ "t1"; "123-45-6789"; "4000123412341234"; "Ana"; "Pop"; "F";
      "1 Main St"; "Cluj"; "CJ"; "400001"; "46.77"; "23.59"; "300000";
      "teacher"; "1990-01-01"; "RO01"; "n1"; "2026-11-03"; "11:59:00";
      "1793707140"; "travel"; "12.50"; "A"; "46,8"; "23.6"; "1";
      "2026-11-03 11:59:00" ] ].

Definition unnamed_frame : DataFrame :=
  Eval vm_compute in
    match load_data (library := sample) (Table unnamed_header unnamed_body) noon with
    | Ok df => df
    | Raise _ => empty_frame
    end.

(** A file with every column the queries read: five fraud rows and one
    that is not. *)
Definition dashboard_header : list string :=
  ["is_fraud"; "category"; "state"; "merchant"; "merch_lat"; "merch_long";
   "dob"; "local_timestamp"].

Definition dashboard_body : list (list string) :=
    [ ["1"; "travel"; "CJ"; "A"; "46.8"; "23.6"; "1990-01-01";
       "2026-11-03 11:59:00"];
      ["1"; "food"; "CJ"; "B"; "44,4"; "26,1"; "1970-06-15";
       "2026-11-03 11:58:00"];
      ["1"; "travel"; "B"; "A"; "46.80"; " 23.6 "; "2004-03-01";
       "2026-11-03 10:30:00"];
      ["0"; "food"; "B"; "C"; "45.0"; "25.0"; "1985-12-31";
       "2026-11-03 11:57:00"];
      ["1"; "fuel"; "IS"; "D"; ""; "27.6"; "1960-07-07";
       "2026-11-02 11:59:00"];
      ["1"; "travel"; "CJ"; "E"; "1,234.5"; "23.6"; "not a date";
       "2026-11-03 11:59:30"] ].

Definition dashboard_file : csv_file := Table dashboard_header dashboard_body.

Definition dashboard_frame : DataFrame :=
  Eval vm_compute in
    match load_data (library := sample) dashboard_file noon with
    | Ok df => df
    | Raise _ => empty_frame
    end.


Definition no_fraud_sample_frame : DataFrame :=
  Eval vm_compute in
    match load_data (library := sample) no_fraud_file noon with
    | Ok df => df
    | Raise _ => empty_frame
    end.

(** The number [safe_float] reads in ["12,5"]. *)
Definition twelve_and_a_half : spec_float :=
  Eval vm_compute in
    match safe_float (Some "12,5") with
    | Ok (Some x) => x
    | _ => S754_nan
    end.

(** A fraud row with coordinates and a date of birth in a file without a
    [merchant] column. *)
Definition no_merchant_dob_file : csv_file :=
  Table ["is_fraud"; "category"; "state"; "merch_lat"; "merch_long"; "dob"]
    [ ["1"; "travel"; "CJ"; "46.8"; "23.6"; "1990-01-01"] ].

Definition no_merchant_dob_frame : DataFrame :=
  Eval vm_compute in
    match load_data (library := sample) no_merchant_dob_file noon with
    | Ok df => df
    | Raise _ => empty_frame
    end.

(** A fraud flag of 309 digits, above every finite binary64. *)
Definition huge_flag : string := Py.text (repeat "9"%char 309).

Definition huge_flag_file : csv_file :=
  Table ["is_fraud"; "category"] [ ["1"; "travel"]; [huge_flag; "food"] ].

(** A fraud flag of [2 ^ 63]. *)
Definition wrapped_flag_file : csv_file :=
  Table ["is_fraud"] [ ["9223372036854775808"] ].

(** 160 rows of the last five minutes, 23 of them fraud. *)
Definition ratio_file : csv_file :=
  Table ["is_fraud"; "local_timestamp"]
    (repeat ["1"; "2026-11-03 11:58:00"] 23
     ++ repeat ["0"; "2026-11-03 11:58:00"] 137).

(** The binary64 numbers that [float] reads in ["14.37"], ["14.38"],
    ["25.0"], ["75.0"] and ["100.0"]. *)
Definition float_literal (s : string) : spec_float :=
  match Py.float s with
  | Ok x => x
  | Raise _ => S754_nan
  end.

(** * Properties *)

(** ** The error monad *)

Lemma mapM_returns {A B : Type} (f : A -> result B) (l : list A) :
  (forall a, exists b, f a = Ok b) ->
  exists bs, mapM f l = Ok bs /\ List.length bs = List.length l.
Proof.
  intros Hf. induction l as [|a l IH]; simpl.
  - exists []. split; reflexivity.
  - destruct (Hf a) as [b Hb]. destruct IH as [bs [Hbs Hlen]].
    rewrite Hb, Hbs. simpl. exists (b :: bs). split; [reflexivity|].
    simpl. now rewrite Hlen.
Qed.

(** ** [safe_float] *)

Lemma safe_float_returns (x : option string) : exists v, safe_float x = Ok v.
Proof.
  destruct x as [s|]; simpl.
  - destruct (Py.float _); simpl; eauto.
  - eauto.
Qed.

Lemma chars_app (a b : string) :
  Py.chars (a ++ b)%string = Py.chars a ++ Py.chars b.
Proof.
  unfold Py.chars. induction a as [|c a IH]; simpl; [reflexivity|].
  now rewrite IH.
Qed.

Lemma chars_text (l : list ascii) : Py.chars (Py.text l) = l.
Proof. apply list_ascii_of_string_of_list_ascii. Qed.

Lemma dropwhile_app_all (p : ascii -> bool) (pre l : list ascii) :
  forallb p pre = true -> Py.dropwhile p (pre ++ l) = Py.dropwhile p l.
Proof.
  induction pre as [|c pre IH]; simpl; intros H; [reflexivity|].
  apply andb_prop in H. destruct H as [Hc Hpre]. rewrite Hc. now apply IH.
Qed.

Lemma dropwhile_pad (p : ascii -> bool) (l post : list ascii) :
  forallb p post = true ->
  Py.dropwhile p (l ++ post) =
  match Py.dropwhile p l with
  | [] => []
  | d => d ++ post
  end.
Proof.
  intros H. induction l as [|c l IH]; simpl.
  - rewrite <- (app_nil_r post). rewrite dropwhile_app_all by exact H.
    reflexivity.
  - destruct (p c); [exact IH|reflexivity].
Qed.

Lemma forallb_rev (p : ascii -> bool) (l : list ascii) :
  forallb p l = true -> forallb p (rev l) = true.
Proof.
  rewrite !forallb_forall. intros H x Hx. apply H. now apply in_rev.
Qed.

(** Stripping ignores padding that it strips. *)
Lemma strip_with_pad (p : ascii -> bool) (pre l post : list ascii) :
  forallb p pre = true -> forallb p post = true ->
  Py.strip_with p (pre ++ l ++ post) = Py.strip_with p l.
Proof.
  intros Hpre Hpost. unfold Py.strip_with.
  rewrite dropwhile_app_all by exact Hpre.
  rewrite dropwhile_pad by exact Hpost.
  destruct (Py.dropwhile p l) as [|c d]; [reflexivity|].
  rewrite rev_app_distr.
  rewrite dropwhile_app_all by (apply forallb_rev; exact Hpost).
  reflexivity.
Qed.

Lemma dropwhile_map (p : ascii -> bool) (f : ascii -> ascii)
  (l : list ascii) :
  (forall c, p (f c) = p c) ->
  Py.dropwhile p (map f l) = map f (Py.dropwhile p l).
Proof.
  intros H. induction l as [|c l IH]; simpl; [reflexivity|].
  rewrite H. destruct (p c); [exact IH|reflexivity].
Qed.

Lemma strip_with_map (p : ascii -> bool) (f : ascii -> ascii)
  (l : list ascii) :
  (forall c, p (f c) = p c) ->
  Py.strip_with p (map f l) = map f (Py.strip_with p l).
Proof.
  intros H. unfold Py.strip_with.
  now rewrite dropwhile_map, <- map_rev, dropwhile_map, map_rev.
Qed.

Lemma comma_to_dot_space (c : ascii) :
  Py.isspace (if Ascii.eqb c "," then "."%char else c) = Py.isspace c.
Proof. destruct (Ascii.eqb_spec c ","); [subst; reflexivity|reflexivity]. Qed.

Lemma comma_to_dot_twice (c : ascii) :
  (if Ascii.eqb (if Ascii.eqb c "," then "."%char else c) ","
   then "."%char else (if Ascii.eqb c "," then "."%char else c)) =
  (if Ascii.eqb c "," then "."%char else c).
Proof.
  destruct (Ascii.eqb_spec c ",") as [->|H]; [reflexivity|].
  destruct (Ascii.eqb_spec c ","); [contradiction|reflexivity].
Qed.

(** C9. [safe_float] never raises; on a text it is [float] of the text
    stripped of white space with its commas turned into dots, and [None] when
    that parse fails, so that white space around the text and the choice of
    comma or dot do not change the result; ["12,5"] gives the binary64 of
    value 12.5, ["abc"] and the empty text give [None]. *)
Theorem safe_float_coercion :
  (forall x, exists v, safe_float x = Ok v) /\
  safe_float None = Ok None /\
  (forall s,
      safe_float (Some s) =
      Ok (match Py.float (Py.replace "," "." (Py.strip s)) with
          | Ok v => Some v
          | Raise _ => None
          end)) /\
  (forall pre s post,
      forallb Py.isspace (Py.chars pre) = true ->
      forallb Py.isspace (Py.chars post) = true ->
      safe_float (Some (pre ++ s ++ post)%string) = safe_float (Some s)) /\
  (forall s, safe_float (Some (Py.replace "," "." s)) = safe_float (Some s)) /\
  (exists f q, safe_float (Some "12,5") = Ok (Some f) /\
               Py.float_value f = Some q /\ (q == 125 # 10)%Q) /\
  safe_float (Some "abc") = Ok None /\
  safe_float (Some "") = Ok None.
Proof.
  split; [exact safe_float_returns|].
  split; [reflexivity|].
  split; [intros s; simpl; destruct (Py.float _); reflexivity|].
  split.
  { intros pre s post Hpre Hpost. unfold safe_float, Py.strip.
    rewrite !chars_app. now rewrite strip_with_pad. }
  split.
  { intros s. unfold safe_float, Py.strip, Py.replace.
    rewrite !chars_text.
    rewrite strip_with_map by (intros c; apply comma_to_dot_space).
    rewrite map_map.
    rewrite (map_ext _ _ comma_to_dot_twice). reflexivity. }
  split; [|split; reflexivity].
  eexists; eexists.
  split; [vm_compute; reflexivity|].
  split; [reflexivity|].
  vm_compute. reflexivity.
Qed.

(** ** The loader *)

Lemma add_column_not_nil (name : string) (cols : list string) :
  add_column name cols <> [].
Proof.
  unfold add_column. destruct (has_column name cols) eqn:H.
  - destruct cols; [discriminate H|discriminate].
  - destruct cols; discriminate.
Qed.

Lemma index_of_has_column (name : string) (cols : list string) :
  has_column name cols = true <-> index_of name cols <> None.
Proof.
  unfold has_column. induction cols as [|c cols IH]; simpl.
  - split; [discriminate|congruence].
  - destruct (String.eqb name c); simpl.
    + split; [discriminate|reflexivity].
    + rewrite IH. destruct (index_of name cols); simpl; split; congruence.
Qed.

Lemma has_column_add_other (name extra : string) (cols : list string) :
  String.eqb name extra = false ->
  has_column name (add_column extra cols) = has_column name cols.
Proof.
  intros Hne. unfold add_column. destruct (has_column extra cols); [reflexivity|].
  unfold has_column. rewrite existsb_app. simpl. rewrite Hne.
  now rewrite !orb_false_r.
Qed.

Lemma has_column_add_same (name : string) (cols : list string) :
  has_column name (add_column name cols) = true.
Proof.
  unfold add_column. destruct (has_column name cols) eqn:H; [exact H|].
  unfold has_column. rewrite existsb_app. simpl. rewrite String.eqb_refl.
  now rewrite orb_true_r.
Qed.

Lemma has_column_add_mono (name extra : string) (cols : list string) :
  has_column name cols = true -> has_column name (add_column extra cols) = true.
Proof.
  intros H. unfold add_column. destruct (has_column extra cols); [exact H|].
  unfold has_column in *. rewrite existsb_app, H. reflexivity.
Qed.

Lemma mapi_from_nth_error {A B : Type} (f : nat -> A -> B) (l : list A)
  (i k : nat) :
  nth_error (mapi_from i f l) k = option_map (f (i + k)%nat) (nth_error l k).
Proof.
  revert i k. induction l as [|a l IH]; intros i k.
  - destruct k; reflexivity.
  - destruct k as [|k]; simpl.
    + now rewrite Nat.add_0_r.
    + rewrite IH. now rewrite Nat.add_succ_r.
Qed.

Lemma mapi_from_map {A B C : Type} (f : nat -> A -> B) (g : B -> C)
  (h : A -> C) (l : list A) (i : nat) :
  (forall k a, g (f k a) = h a) ->
  map g (mapi_from i f l) = map h l.
Proof.
  intros Hg. revert i. induction l as [|a l IH]; simpl; intros i; [reflexivity|].
  now rewrite Hg, IH.
Qed.

Lemma assemble_cells body fr st ag la lo :
  map cells (assemble body fr st ag la lo) = body.
Proof.
  unfold assemble. rewrite mapi_from_map with (h := fun r => r).
  - apply map_id.
  - reflexivity.
Qed.

Lemma assemble_In body fr st ag la lo (r : Row) :
  In r (assemble body fr st ag la lo) ->
  exists i raw,
    nth_error body i = Some raw /\
    r = mkRow raw (nth i fr 0) (nth i st None) (nth i ag AgeNaN)
          (nth i la None) (nth i lo None).
Proof.
  intros H. apply In_nth_error in H. destruct H as [i Hi].
  unfold assemble in Hi. rewrite mapi_from_nth_error in Hi. simpl in Hi.
  destruct (nth_error body i) as [raw|] eqn:E; [|discriminate].
  exists i, raw. split; [exact E|]. now inversion Hi.
Qed.

Lemma float_column_returns header body name :
  exists l, float_column header body name = Ok l.
Proof.
  unfold float_column. destruct (column header body name) as [c|]; [|eauto].
  destruct (mapM_returns (fun s => safe_float (Some s)) c) as [bs [H _]];
    [intros a; apply safe_float_returns | eauto].
Qed.

Section Loader.

Context {library : Pandas.Library}.

(** The frame of a file that parses, once the [is_fraud] column is
    converted: its columns and rows; the two float columns do not depend on
    the clock. *)
Lemma load_data_table header body :
  exists lat lon,
    forall now,
      load_data (Table header body) now =
      (flags <- fraud_column (repair_header header) body ;;
       Ok (mkDataFrame
             (fold_left (fun cols name => add_column name cols)
                derived_columns (repair_header header))
             (assemble body flags
                (stamp_column (repair_header header) body)
                (age_column (repair_header header) body now)
                lat lon))).
Proof.
  destruct (float_column_returns (repair_header header) body "merch_lat")
    as [lat Hlat].
  destruct (float_column_returns (repair_header header) body "merch_long")
    as [lon Hlon].
  exists lat, lon. intros now. unfold load_data. simpl.
  destruct (fraud_column (repair_header header) body); [|reflexivity].
  cbn [bind]. rewrite Hlat, Hlon. reflexivity.
Qed.

(** The frame of a file that parses, when [load_data] returns. *)
Lemma load_data_frame header body now df :
  load_data (Table header body) now = Ok df ->
  exists flags lat lon,
    fraud_column (repair_header header) body = Ok flags /\
    (forall now', exists df', load_data (Table header body) now' = Ok df') /\
    df = mkDataFrame
           (fold_left (fun cols name => add_column name cols)
              derived_columns (repair_header header))
           (assemble body flags
              (stamp_column (repair_header header) body)
              (age_column (repair_header header) body now)
              lat lon).
Proof.
  destruct (load_data_table header body) as [lat [lon Heq]]. intros H.
  rewrite Heq in H.
  destruct (fraud_column (repair_header header) body) as [flags|e] eqn:Ef;
    [|discriminate H].
  cbn [bind] in H. injection H as <-. exists flags, lat, lon.
  split; [reflexivity|]. split; [|reflexivity].
  intros now'. rewrite Heq. cbn [bind]. eauto.
Qed.


(** A loaded frame is empty exactly when it has no row. *)
Lemma load_data_empty file now df :
  load_data file now = Ok df ->
  df_empty df = match rows df with [] => true | _ => false end.
Proof.
  destruct file as [| |header body]; intros H.
  - inversion H. reflexivity.
  - inversion H. reflexivity.
  - destruct (load_data_frame _ _ _ _ H) as [flags [lat [lon [_ [_ ->]]]]].
    unfold df_empty. simpl.
    destruct (add_column _ _) eqn:E; [now apply add_column_not_nil in E|].
    reflexivity.
Qed.

End Loader.

(** ** Counting *)

Lemma count_le {A : Type} (p q : A -> bool) (l : list A) :
  (forall x, In x l -> p x = true -> q x = true) ->
  (count p l <= count q l)%nat.
Proof.
  unfold count. induction l as [|a l IH]; simpl; intros H; [lia|].
  assert (IH' := IH (fun x Hx => H x (or_intror Hx))).
  destruct (p a) eqn:Hp.
  - rewrite (H a (or_introl eq_refl) Hp). simpl. lia.
  - destruct (q a); simpl; lia.
Qed.

Lemma count_ext {A : Type} (p q : A -> bool) (l : list A) :
  (forall x, In x l -> p x = q x) -> count p l = count q l.
Proof.
  intros H. apply Nat.le_antisymm; apply count_le; intros x Hx Hp.
  - now rewrite <- (H x Hx).
  - now rewrite (H x Hx).
Qed.

Lemma count_le_length {A : Type} (p : A -> bool) (l : list A) :
  (count p l <= List.length l)%nat.
Proof. apply filter_length_le. Qed.

(** ** Binary64 *)

Lemma digits2_size (p : positive) : digits2_pos p = Pos.size p.
Proof. induction p; simpl; congruence. Qed.

Lemma digits2_upper (p : positive) : Z.pos p < 2 ^ Z.pos (digits2_pos p).
Proof.
  rewrite digits2_size. pose proof (Pos.size_gt p) as H.
  apply Pos2Z.pos_lt_pos in H. now rewrite Pos2Z.inj_pow in H.
Qed.

Lemma digits2_lower (p : positive) : 2 ^ (Z.pos (digits2_pos p) - 1) <= Z.pos p.
Proof.
  rewrite digits2_size. pose proof (Pos.size_le p) as H.
  apply Pos2Z.pos_le_pos in H. rewrite Pos2Z.inj_pow, (Pos2Z.inj_xO p) in H.
  assert (E : 2 ^ Z.pos (Pos.size p) = 2 ^ (Z.pos (Pos.size p) - 1) * 2).
  { rewrite <- (Z.pow_1_r 2) at 3. rewrite <- Z.pow_add_r by lia.
    f_equal. lia. }
  rewrite E in H. lia.
Qed.

(** The digits of a number below a power of two. *)
Lemma digits2_le (p : positive) (k : Z) :
  Z.pos p < 2 ^ k -> Z.pos (digits2_pos p) <= k.
Proof.
  intros H. destruct (Z.le_gt_cases (Z.pos (digits2_pos p)) k) as [|Hgt];
    [assumption|].
  pose proof (digits2_lower p) as Hl.
  assert (0 <= k) by (destruct k; try lia; simpl in H; lia).
  assert (2 ^ k <= 2 ^ (Z.pos (digits2_pos p) - 1))
    by (apply Z.pow_le_mono_r; lia).
  lia.
Qed.

Lemma pow2_double (k : Z) : 0 <= k -> 2 ^ (2 * k) = 2 ^ k * 2 ^ k.
Proof.
  intros H. replace (2 * k) with (k + k) by lia. now apply Z.pow_add_r.
Qed.

Lemma pow2_succ (k : Z) : 0 <= k -> 2 ^ (k + 1) = 2 * 2 ^ k.
Proof.
  intros H. rewrite Z.pow_add_r by lia. change (2 ^ 1) with 2. lia.
Qed.

Lemma pow2_pos (k : Z) : 0 <= k -> 0 < 2 ^ k.
Proof. intros H. apply Z.pow_pos_nonneg; lia. Qed.

Lemma shr_1_facts (mrs : shr_record) :
  0 <= shr_m mrs ->
  shr_m (shr_1 mrs) = shr_m mrs / 2 /\
  forall K, upper mrs <= 2 * K -> upper (shr_1 mrs) <= K.
Proof.
  destruct mrs as [m r s]. cbn [shr_m]. intros Hm.
  destruct m as [|[p|p|]|p]; try lia; unfold upper; cbn [shr_1 shr_m shr_r shr_s].
  - split; [reflexivity|]. destruct r, s; cbn [orb]; intros K; lia.
  - split.
    + rewrite Pos2Z.inj_xI. apply Z.div_unique with (r := 1); lia.
    + rewrite Pos2Z.inj_xI. destruct r, s; cbn [orb]; intros K; lia.
  - split.
    + rewrite (Pos2Z.inj_xO p). apply Z.div_unique with (r := 0); lia.
    + rewrite (Pos2Z.inj_xO p). destruct r, s; cbn [orb]; intros K; lia.
  - split; [reflexivity|]. destruct r, s; cbn [orb]; intros K; lia.
Qed.

Lemma iter_shr_1_facts (n : positive) :
  forall mrs,
    0 <= shr_m mrs ->
    shr_m (iter_pos shr_1 n mrs) = shr_m mrs / 2 ^ Z.pos n /\
    forall K, upper mrs <= 2 ^ Z.pos n * K ->
              upper (iter_pos shr_1 n mrs) <= K.
Proof.
  assert (Hdiv : forall m a b, 0 <= m -> 0 < a -> 0 < b ->
                               m / a / b = m / (a * b))
    by (intros; apply Z.div_div; lia).
  assert (Hpos : forall k, 0 < 2 ^ Z.pos k) by (intros; apply Z.pow_pos_nonneg; lia).
  assert (Hnn : forall m k, 0 <= m -> 0 <= m / 2 ^ Z.pos k)
    by (intros; apply Z.div_pos; auto).
  induction n as [n IH|n IH|]; intros mrs Hm; cbn [iter_pos].
  - destruct (shr_1_facts mrs Hm) as [E1 U1].
    assert (H1 : 0 <= shr_m (shr_1 mrs)) by (rewrite E1; apply Z.div_pos; lia).
    destruct (IH _ H1) as [E2 U2].
    assert (H2 : 0 <= shr_m (iter_pos shr_1 n (shr_1 mrs)))
      by (rewrite E2; auto).
    destruct (IH _ H2) as [E3 U3].
    rewrite (Pos2Z.inj_xI n), pow2_succ, pow2_double by lia.
    split.
    + rewrite E3, E2, E1, !Hdiv; auto; try lia.
    + intros K HK. apply U3, U2, U1. lia.
  - destruct (IH _ Hm) as [E2 U2].
    assert (H2 : 0 <= shr_m (iter_pos shr_1 n mrs)) by (rewrite E2; auto).
    destruct (IH _ H2) as [E3 U3].
    rewrite (Pos2Z.inj_xO n), pow2_double by lia.
    split.
    + rewrite E3, E2, Hdiv; auto.
    + intros K HK. apply U3, U2. lia.
  - destruct (shr_1_facts mrs Hm) as [E1 U1]. change (2 ^ 1) with 2.
    split; [exact E1|exact U1].
Qed.

Lemma bound_at_shift (M E e n : Z) :
  0 <= n -> e + n <= E -> bound_at M E e = 2 ^ n * bound_at M E (e + n).
Proof.
  intros Hn He. unfold bound_at.
  destruct (Z.leb_spec e E); [|lia]. destruct (Z.leb_spec (e + n) E); [|lia].
  replace (E - e) with (n + (E - (e + n))) by lia.
  rewrite Z.pow_add_r by lia. lia.
Qed.

(** A positive mantissa under a bound below [2 ^ X] has few digits. *)
Lemma bound_at_digits (N X F e : Z) (p : positive) :
  0 < N < 2 ^ X -> 0 <= X ->
  Z.pos p <= bound_at N F e ->
  Z.pos (digits2_pos p) + e - X <= F.
Proof.
  intros HN HX Hp. unfold bound_at in Hp. destruct (Z.leb_spec e F).
  - assert (Z.pos (digits2_pos p) <= X + (F - e)); [|lia].
    apply digits2_le. rewrite Z.pow_add_r by lia.
    pose proof (pow2_pos (F - e)). nia.
  - pose proof (digits2_lower p) as Hl.
    pose proof (pow2_pos (e - F) ltac:(lia)) as Hpos.
    assert (Hmul : Z.pos p * 2 ^ (e - F) <= N).
    { pose proof (Z.mul_div_le N (2 ^ (e - F)) Hpos). nia. }
    assert (Hlt : 2 ^ (Z.pos (digits2_pos p) - 1 + (e - F)) < 2 ^ X).
    { rewrite Z.pow_add_r by lia. nia. }
    apply Z.pow_lt_mono_r_iff in Hlt; lia.
Qed.

Lemma upper_of_loc (m : Z) (l : SpecFloat.location) :
  upper (shr_record_of_loc m l) =
  match l with loc_Exact => m | _ => m + 1 end.
Proof. destruct l as [|[| |]]; reflexivity. Qed.

Lemma shr_m_of_loc (m : Z) (l : SpecFloat.location) : shr_m (shr_record_of_loc m l) = m.
Proof. destruct l as [|[| |]]; reflexivity. Qed.

Lemma shr_fexp_le (m e : Z) (l : SpecFloat.location) (M E : Z) :
  0 <= m ->
  0 < M < 2 ^ 53 ->
  emin Py.prec Py.emax <= E ->
  upper (shr_record_of_loc m l) <= bound_at M E e ->
  0 <= shr_m (fst (shr_fexp Py.prec Py.emax m e l)) /\
  upper (fst (shr_fexp Py.prec Py.emax m e l))
  <= bound_at M E (snd (shr_fexp Py.prec Py.emax m e l)).
Proof.
  intros Hm HM HE Hu. unfold shr_fexp, shr.
  assert (Hn : fexp Py.prec Py.emax (Zdigits2 m + e) - e =
               Z.max (Zdigits2 m + e - 53) (emin Py.prec Py.emax) - e)
    by reflexivity.
  destruct (fexp Py.prec Py.emax (Zdigits2 m + e) - e) as [|n|n];
    cbn [fst snd];
    try (rewrite shr_m_of_loc; split; [exact Hm|exact Hu]).
  assert (Hshift : e + Z.pos n <= E).
  { destruct m as [|p|p]; [cbn [Zdigits2] in Hn; lia| |lia].
    assert (Hp : Z.pos p <= bound_at M E e).
    { rewrite upper_of_loc in Hu. destruct l; lia. }
    pose proof (bound_at_digits M 53 E e p HM ltac:(lia) Hp) as Hd.
    cbn [Zdigits2] in Hn. lia. }
  destruct (iter_shr_1_facts n (shr_record_of_loc m l)) as [Em Up];
    [now rewrite shr_m_of_loc|].
  split.
  - rewrite Em. apply Z.div_pos; [now rewrite shr_m_of_loc|].
    apply pow2_pos; lia.
  - apply Up. rewrite <- bound_at_shift by lia. exact Hu.
Qed.

Lemma round_nearest_even_le (mrs : shr_record) :
  0 <= shr_m mrs ->
  0 <= round_nearest_even (shr_m mrs) (loc_of_shr_record mrs) <= upper mrs.
Proof.
  destruct mrs as [m r s]. unfold upper. cbn [shr_m shr_r shr_s]. intros Hm.
  destruct r, s; cbn [loc_of_shr_record round_nearest_even orb];
    try destruct (Z.even m); lia.
Qed.

(** Rounding to nearest does not cross a binary64: a number at most
    [M * 2 ^ E] rounds to a binary64 at most [M * 2 ^ E]. *)
Lemma binary_round_aux_le (mx ex : Z) (lx : SpecFloat.location) (M E : Z) :
  0 <= mx ->
  0 < M < 2 ^ 53 ->
  emin Py.prec Py.emax <= E <= 900 ->
  upper (shr_record_of_loc mx lx) <= bound_at M E ex ->
  at_most M E (binary_round_aux Py.prec Py.emax false mx ex lx).
Proof.
  intros Hm HM HE Hu. unfold binary_round_aux.
  destruct (shr_fexp_le mx ex lx M E Hm HM (proj1 HE) Hu) as [H1 U1].
  destruct (shr_fexp Py.prec Py.emax mx ex lx) as [mrs1 e1].
  cbn [fst snd] in H1, U1.
  pose proof (round_nearest_even_le mrs1 H1) as Hr.
  set (m1 := round_nearest_even (shr_m mrs1) (loc_of_shr_record mrs1)) in *.
  destruct (shr_fexp_le m1 e1 loc_Exact M E (proj1 Hr) HM (proj1 HE))
    as [H2 U2]; [cbn [shr_record_of_loc upper shr_r shr_s shr_m orb]; lia|].
  destruct (shr_fexp Py.prec Py.emax m1 e1 loc_Exact) as [mrs2 e2].
  cbn [fst snd] in H2, U2.
  assert (Hle : shr_m mrs2 <= bound_at M E e2).
  { unfold upper in U2. destruct (shr_r mrs2 || shr_s mrs2); lia. }
  destruct (shr_m mrs2) as [|m2|m2] eqn:E2; [exact I| |lia].
  assert (He2 : e2 <= Py.emax - Py.prec).
  { change (Py.emax - Py.prec) with 971.
    destruct (Z.le_gt_cases e2 971) as [|Hgt]; [assumption|exfalso].
    unfold bound_at in Hle. destruct (Z.leb_spec e2 E); [lia|].
    assert (M / 2 ^ (e2 - E) = 0); [|lia].
    apply Z.div_small. split; [lia|].
    assert (2 ^ 53 <= 2 ^ (e2 - E)) by (apply Z.pow_le_mono_r; lia). lia. }
  apply Z.leb_le in He2. rewrite He2. exact Hle.
Qed.

Lemma bound_at_scale (c M E e m : Z) :
  0 < c -> 0 <= M -> m <= bound_at M E e -> c * m <= bound_at (c * M) E e.
Proof.
  intros Hc HM Hm. unfold bound_at in *. destruct (Z.leb_spec e E).
  - pose proof (pow2_pos (E - e)). nia.
  - pose proof (pow2_pos (e - E) ltac:(lia)) as Hpos.
    apply Z.div_le_lower_bound; [exact Hpos|].
    pose proof (Z.mul_div_le M (2 ^ (e - E)) Hpos).
    assert (2 ^ (e - E) * m <= M) by nia. nia.
Qed.

Lemma multiply_hundred_le (x : spec_float) (M E : Z) :
  0 < M -> 100 * M < 2 ^ 53 ->
  emin Py.prec Py.emax <= E <= 900 ->
  at_most M E x ->
  at_most (100 * M) E (Pandas.multiply x Pandas.hundred).
Proof.
  intros HM HM' HE Hx. destruct x as [[|]| | |[|] m e]; try contradiction.
  - exact I.
  - unfold Pandas.multiply, Pandas.hundred, SFmul. cbn [xorb].
    apply binary_round_aux_le; try lia.
    cbn [shr_record_of_loc upper shr_m shr_r shr_s orb].
    rewrite Z.add_0_r, Pos2Z.inj_mul, Z.mul_comm.
    apply bound_at_scale; [lia|lia|exact Hx].
Qed.

Lemma new_location_cases (nb r : Z) :
  (r = 0 /\ new_location nb r = loc_Exact) \/
  (r <> 0 /\ exists c, new_location nb r = loc_Inexact c).
Proof.
  unfold new_location.
  destruct (Z.even nb); unfold new_location_even, new_location_odd;
    destruct (Z.eqb_spec r 0) as [->|Hr]; eauto.
Qed.

(** The quotient of two positive binary64 whose ratio is at most
    [M * 2 ^ E]. *)
Lemma divide_le (m1 : positive) (e1 : Z) (m2 : positive) (e2 : Z) (M E : Z) :
  0 < M < 2 ^ 53 ->
  emin Py.prec Py.emax <= E <= 900 ->
  Z.pos m1 <= bound_at (M * Z.pos m2) (E + e2) e1 ->
  at_most M E
    (Pandas.divide (S754_finite false m1 e1) (S754_finite false m2 e2)).
Proof.
  intros HM HE Hb. unfold Pandas.divide, SFdiv, SFdiv_core_binary.
  cbn [xorb Zdigits2].
  set (d1 := Z.pos (digits2_pos m1)). set (d2 := Z.pos (digits2_pos m2)).
  set (e' := Z.min (fexp Py.prec Py.emax (d1 + e1 - (d2 + e2))) (e1 - e2)).
  set (s := e1 - e2 - e').
  assert (Hs : 0 <= s) by (unfold s, e'; lia).
  assert (He' : e' <= E).
  { assert (HN : 0 < M * Z.pos m2 < 2 ^ (53 + d2)).
    { pose proof (digits2_upper m2) as Hu. fold d2 in Hu.
      rewrite Z.pow_add_r by (unfold d2; lia). nia. }
    pose proof (bound_at_digits _ _ _ _ _ HN ltac:(unfold d2; lia) Hb) as Hd.
    fold d1 in Hd.
    assert (fexp Py.prec Py.emax (d1 + e1 - (d2 + e2)) <= E); [|unfold e'; lia].
    change (fexp Py.prec Py.emax (d1 + e1 - (d2 + e2)))
      with (Z.max (d1 + e1 - (d2 + e2) - 53) (emin Py.prec Py.emax)).
    lia. }
  set (m' := match s with
             | 0 => Z.pos m1
             | Z.pos _ => Z.shiftl (Z.pos m1) s
             | Z.neg _ => 0
             end).
  assert (Hm' : m' = Z.pos m1 * 2 ^ s).
  { unfold m'. destruct s as [|s'|s'] eqn:Es; [simpl; lia| |lia].
    apply Z.shiftl_mul_pow2. lia. }
  assert (HB : m' <= M * 2 ^ (E - e') * Z.pos m2).
  { rewrite Hm'. unfold bound_at in Hb. destruct (Z.leb_spec e1 (E + e2)).
    - replace (E - e') with (E + e2 - e1 + s) by (unfold s; lia).
      rewrite Z.pow_add_r by lia. pose proof (pow2_pos s Hs). nia.
    - pose proof (pow2_pos (e1 - (E + e2)) ltac:(lia)) as Hpos.
      pose proof (Z.mul_div_le (M * Z.pos m2) (2 ^ (e1 - (E + e2))) Hpos).
      replace s with (e1 - (E + e2) + (E - e')) by (unfold s; lia).
      rewrite Z.pow_add_r by lia. pose proof (pow2_pos (E - e') ltac:(lia)).
      assert (Z.pos m1 * 2 ^ (e1 - (E + e2)) <= M * Z.pos m2) by nia.
      nia. }
  pose proof (Z_div_mod m' (Z.pos m2) ltac:(lia)) as Hdm.
  destruct (Z.div_eucl m' (Z.pos m2)) as [q r]. destruct Hdm as [Hq Hr].
  assert (Hq0 : 0 <= q) by nia.
  apply binary_round_aux_le; [exact Hq0|exact HM|exact HE|].
  rewrite upper_of_loc. unfold bound_at.
  destruct (Z.leb_spec e' E); [|lia].
  destruct (new_location_cases (Z.pos m2) r) as [[-> ->]|[Hne [c ->]]]; nia.
Qed.

Lemma iter_xO (p d : positive) : Z.pos (Pos.iter xO p d) = Z.pos p * 2 ^ Z.pos d.
Proof.
  induction d as [|d IH] using Pos.peano_ind.
  - cbn [Pos.iter]. rewrite (Pos2Z.inj_xO p). change (2 ^ 1) with 2. lia.
  - rewrite Pos.iter_succ, Pos2Z.inj_xO, IH, Pos2Z.inj_succ.
    unfold Z.succ. rewrite pow2_succ by lia. lia.
Qed.

(** The binary64 of a positive integer at most [M]. *)
Lemma binary_normalize_le (p : positive) (M : Z) :
  Z.pos p <= M < 2 ^ 53 ->
  at_most M 0 (binary_normalize Py.prec Py.emax (Z.pos p) 0 false).
Proof.
  intros HM. unfold binary_normalize, binary_round, shl_align.
  set (ex' := fexp Py.prec Py.emax (Z.pos (digits2_pos p) + 0)).
  assert (Hex : emin Py.prec Py.emax <= ex') by (unfold ex', fexp; lia).
  assert (H0 : emin Py.prec Py.emax <= 0 <= 900) by (unfold emin; cbn; lia).
  destruct (ex' - 0) as [|k|k] eqn:Ek.
  - apply binary_round_aux_le; try lia.
    cbn [shr_record_of_loc upper shr_m shr_r shr_s orb]. unfold bound_at.
    cbn. lia.
  - apply binary_round_aux_le; try lia.
    cbn [shr_record_of_loc upper shr_m shr_r shr_s orb]. unfold bound_at.
    cbn. lia.
  - apply binary_round_aux_le; try lia.
    cbn [shr_record_of_loc upper shr_m shr_r shr_s orb]. rewrite iter_xO.
    unfold bound_at. destruct (Z.leb_spec ex' 0); [|lia].
    replace (0 - ex') with (Z.pos k) by lia.
    pose proof (pow2_pos (Z.pos k) ltac:(lia)). nia.
Qed.

Lemma rint_le (x : spec_float) (M : Z) :
  0 < M < 2 ^ 53 -> at_most M 0 x -> at_most M 0 (Pandas.rint x).
Proof.
  intros HM Hx. destruct x as [[|]| | |[|] m e]; try contradiction.
  - exact I.
  - unfold Pandas.rint. destruct (Z.leb_spec 0 e) as [He|He]; [exact Hx|].
    cbn [at_most] in Hx. unfold bound_at in Hx.
    destruct (Z.leb_spec e 0); [|lia]. rewrite Z.sub_0_l in Hx.
    pose proof (pow2_pos (- e) ltac:(lia)) as Hd.
    set (d := 2 ^ (- e)) in *.
    pose proof (Z.div_mod (Z.pos m) d ltac:(lia)) as Hdm.
    pose proof (Z.mod_pos_bound (Z.pos m) d Hd) as Hr.
    set (q := Z.pos m / d) in *. set (r := Z.pos m mod d) in *.
    assert (Hq : 0 <= q) by (apply Z.div_pos; lia).
    assert (Hk : 0 <= match 2 * r ?= d with
                      | Eq => if Z.even q then q else q + 1
                      | Lt => q
                      | Gt => q + 1
                      end <= M).
    { assert (q <= M) by nia. assert (r <> 0 -> q < M) by nia.
      destruct (Z.compare_spec (2 * r) d); [destruct (Z.even q)|..]; lia. }
    destruct (match 2 * r ?= d with
              | Eq => if Z.even q then q else q + 1
              | Lt => q
              | Gt => q + 1
              end) as [|k|k]; [exact I| |lia].
    apply binary_normalize_le. lia.
Qed.

(** A positive number above the least exponent does not round to zero. *)
Lemma shr_fexp_pos (m e : Z) (l : SpecFloat.location) :
  0 < m -> emin Py.prec Py.emax <= e ->
  0 < shr_m (fst (shr_fexp Py.prec Py.emax m e l)) /\
  emin Py.prec Py.emax <= snd (shr_fexp Py.prec Py.emax m e l).
Proof.
  intros Hm He. unfold shr_fexp, shr.
  destruct m as [|p|p]; try lia. cbn [Zdigits2].
  assert (Hn : fexp Py.prec Py.emax (Z.pos (digits2_pos p) + e) - e =
               Z.max (Z.pos (digits2_pos p) + e - 53) (emin Py.prec Py.emax)
               - e) by reflexivity.
  destruct (fexp Py.prec Py.emax (Z.pos (digits2_pos p) + e) - e) as [|n|n];
    cbn [fst snd]; try (rewrite shr_m_of_loc; split; lia).
  destruct (iter_shr_1_facts n (shr_record_of_loc (Z.pos p) l)) as [Em _];
    [rewrite shr_m_of_loc; lia|].
  rewrite Em, shr_m_of_loc. split; [|lia].
  assert (Hn' : Z.pos n = Z.pos (digits2_pos p) - 53) by lia.
  pose proof (digits2_lower p) as Hl.
  pose proof (pow2_pos (Z.pos n) ltac:(lia)) as Hpos.
  assert (2 ^ 52 <= Z.pos p / 2 ^ Z.pos n); [|lia].
  apply Z.div_le_lower_bound; [exact Hpos|].
  rewrite <- Z.pow_add_r by lia.
  replace (Z.pos n + 52) with (Z.pos (digits2_pos p) - 1) by lia. exact Hl.
Qed.

Lemma binary_round_aux_pos (mx ex : Z) (lx : SpecFloat.location) :
  0 < mx -> emin Py.prec Py.emax <= ex ->
  positive_float (binary_round_aux Py.prec Py.emax false mx ex lx) = true.
Proof.
  intros Hm He. unfold binary_round_aux.
  destruct (shr_fexp_pos mx ex lx Hm He) as [H1 E1].
  destruct (shr_fexp Py.prec Py.emax mx ex lx) as [mrs1 e1].
  cbn [fst snd] in H1, E1.
  assert (Hr' : shr_m mrs1
                <= round_nearest_even (shr_m mrs1) (loc_of_shr_record mrs1)).
  { destruct mrs1 as [m r s]. cbn [shr_m].
    destruct r, s; cbn [loc_of_shr_record round_nearest_even];
      try destruct (Z.even m); lia. }
  set (m1 := round_nearest_even (shr_m mrs1) (loc_of_shr_record mrs1)) in *.
  destruct (shr_fexp_pos m1 e1 loc_Exact ltac:(lia) E1) as [H2 _].
  destruct (shr_fexp Py.prec Py.emax m1 e1 loc_Exact) as [mrs2 e2].
  cbn [fst snd] in H2.
  destruct (shr_m mrs2) as [|m2|m2]; [lia| |lia].
  now destruct (e2 <=? Py.emax - Py.prec).
Qed.

(** The binary64 of a positive count is positive. *)
Lemma of_count_pos (n : nat) :
  (0 < n)%nat -> positive_float (Pandas.of_count n) = true.
Proof.
  intros Hn. unfold Pandas.of_count.
  destruct (Z.of_nat n) as [|p|p] eqn:E; [lia| |lia].
  destruct (Z.pos p <? 2 ^ 53); [reflexivity|].
  unfold binary_normalize, binary_round, shl_align.
  set (ex' := fexp Py.prec Py.emax (Z.pos (digits2_pos p) + 0)).
  assert (Hex : emin Py.prec Py.emax <= ex') by (unfold ex', fexp; lia).
  assert (H0 : emin Py.prec Py.emax <= 0) by (unfold emin; cbn; lia).
  destruct (ex' - 0) as [|k|k] eqn:Ek; apply binary_round_aux_pos; lia.
Qed.

Lemma of_count_small (n : nat) :
  (0 < n)%nat -> Z.of_nat n < 2 ^ 53 ->
  Pandas.of_count n = S754_finite false (Pos.of_nat n) 0.
Proof.
  intros Hn Hb. unfold Pandas.of_count.
  destruct (Z.of_nat n) as [|p|p] eqn:E; [lia| |lia].
  replace (Z.pos p <? 2 ^ 53) with true by (symmetry; apply Z.ltb_lt; lia).
  f_equal. lia.
Qed.

(** The ratio of no fraud row is [+0.0]. *)
Lemma ratio_of_zero (x : spec_float) :
  positive_float x = true ->
  Pandas.round2
    (Pandas.multiply (Pandas.divide (S754_zero false) x) Pandas.hundred)
  = S754_zero false.
Proof. destruct x as [[|]|[|]| |[|] m e]; try discriminate; reflexivity. Qed.

(** A positive binary64 divided by itself is 1, and the ratio is 100. *)
Lemma divide_self (m : positive) (e : Z) :
  Pandas.divide (S754_finite false m e) (S754_finite false m e)
  = S754_finite false 4503599627370496 (-52).
Proof.
  unfold Pandas.divide, SFdiv, SFdiv_core_binary. cbn [xorb Zdigits2].
  replace (Z.pos (digits2_pos m) + e - (Z.pos (digits2_pos m) + e)) with 0
    by lia.
  rewrite Z.sub_diag.
  change (Z.min (fexp Py.prec Py.emax 0) 0) with (-53).
  change (0 - -53) with 53. cbv iota.
  rewrite Z.shiftl_mul_pow2 by lia.
  pose proof (Z_div_mod (Z.pos m * 2 ^ 53) (Z.pos m) ltac:(lia)) as Hdm.
  destruct (Z.div_eucl (Z.pos m * 2 ^ 53) (Z.pos m)) as [q r].
  destruct Hdm as [Hq Hr].
  assert (Hq' : q = 2 ^ 53).
  { destruct (Z.lt_trichotomy q (2 ^ 53)) as [Hlt|[Heq|Hgt]];
      [exfalso|exact Heq|exfalso]; nia. }
  assert (Hr' : r = 0) by (subst q; lia). subst q r.
  destruct (new_location_cases (Z.pos m) 0) as [[_ ->]|[Hne _]];
    [|now contradiction Hne].
  reflexivity.
Qed.

Lemma ratio_of_all (m : positive) (e : Z) :
  Pandas.round2
    (Pandas.multiply
       (Pandas.divide (S754_finite false m e) (S754_finite false m e))
       Pandas.hundred)
  = S754_finite false 7036874417766400 (-46).
Proof. rewrite divide_self. reflexivity. Qed.

(** The ratio of [frauds] rows among [total], fewer than [2 ^ 53], is at
    most 100. *)
Lemma ratio_le (frauds total : nat) :
  (frauds <= total)%nat -> (0 < total)%nat -> Z.of_nat total < 2 ^ 53 ->
  at_most 100 0
    (Pandas.round2
       (Pandas.multiply
          (Pandas.divide (Pandas.of_count frauds) (Pandas.of_count total))
          Pandas.hundred)).
Proof.
  intros Hle Ht Hb.
  assert (HE : emin Py.prec Py.emax <= 0 <= 900) by (unfold emin; cbn; lia).
  assert (H1 : at_most 1 0
                 (Pandas.divide (Pandas.of_count frauds)
                    (Pandas.of_count total))).
  { rewrite (of_count_small total Ht Hb).
    destruct frauds as [|f]; [exact I|].
    rewrite (of_count_small (S f)) by lia.
    apply divide_le; [lia|exact HE|]. unfold bound_at.
    change (0 <=? 0 + 0) with true. change (2 ^ (0 + 0 - 0)) with 1.
    cbv iota. lia. }
  apply (multiply_hundred_le _ 1 0 ltac:(lia) ltac:(lia) HE) in H1.
  apply (multiply_hundred_le _ (100 * 1) 0 ltac:(lia) ltac:(lia) HE) in H1.
  apply (rint_le _ (100 * (100 * 1)) ltac:(lia)) in H1.
  unfold Pandas.round2.
  destruct (Pandas.rint _) as [[|]| | |[|] m e]; try contradiction.
  - exact I.
  - apply divide_le; [lia|exact HE|]. exact H1.
Qed.

(** The number a binary64 at most [M] denotes. *)
Lemma at_most_value (M : Z) (x : spec_float) :
  0 <= M ->
  at_most M 0 x ->
  exists q,
    Py.float_value x = Some q /\ (0 <= q)%Q /\ (q <= inject_Z M)%Q.
Proof.
  intros HM. destruct x as [[|]| | |[|] m e]; try contradiction.
  - intros _. exists 0%Q. split; [reflexivity|]. split.
    + apply Qle_refl.
    + unfold Qle. cbn. lia.
  - cbn [at_most Py.float_value]. unfold bound_at. intros Hb.
    eexists. split; [reflexivity|].
    assert (H2 : (0 < 2)%Q) by reflexivity.
    split.
    + apply Qmult_le_0_compat; [unfold Qle; cbn; lia|].
      apply Qpower_0_le. discriminate.
    + destruct (Z.leb_spec 0 e) as [He|He].
      * assert (Hv : Z.pos m * 2 ^ e <= M).
        { destruct (Z.leb_spec e 0).
          - replace e with 0 in * by lia. cbn in Hb. lia.
          - rewrite Z.sub_0_r in Hb.
            pose proof (pow2_pos e He) as Hpos.
            pose proof (Z.mul_div_le M (2 ^ e) Hpos). nia. }
        change 2%Q with (inject_Z 2).
        rewrite <- Zpower_Qpower, <- inject_Z_mult by exact He.
        now rewrite <- Zle_Qle.
      * destruct (Z.leb_spec e 0); [|lia]. rewrite Z.sub_0_l in Hb.
        apply (Qmult_lt_0_le_reg_r _ _ (2 ^ (- e))%Q);
          [now apply Qpower_0_lt|].
        rewrite <- Qmult_assoc, <- Qpower_plus by discriminate.
        replace (e + - e) with 0 by lia.
        change (2 ^ 0)%Q with 1%Q. rewrite Qmult_1_r.
        change 2%Q with (inject_Z 2).
        rewrite <- Zpower_Qpower, <- inject_Z_mult by lia.
        now rewrite <- Zle_Qle.
Qed.

(** ** The windows *)

Lemma in_range_bounds (t : Z) : in_range t = true <-> - 2 ^ 63 < t < 2 ^ 63.
Proof. unfold in_range. rewrite andb_true_iff, !Z.ltb_lt. tauto. Qed.

Lemma timedelta_hours_in_range (hours : Z) :
  - 2 ^ 63 < hours * 3600000000000 < 2 ^ 63 ->
  timedelta_hours hours = Ok (hours * 3600000000000).
Proof.
  intros H. unfold timedelta_hours.
  change NS_PER_HOUR with 3600000000000.
  now rewrite (proj2 (in_range_bounds _) H).
Qed.

Lemma timestamp_sub_in_range (t delta : Z) :
  - 2 ^ 63 < t - delta < 2 ^ 63 -> timestamp_sub t delta = Ok (t - delta).
Proof.
  intros H. unfold timestamp_sub. now rewrite (proj2 (in_range_bounds _) H).
Qed.

Lemma timedelta_hours_returns (hours delta : Z) :
  timedelta_hours hours = Ok delta ->
  delta = hours * 3600000000000 /\ - 2 ^ 63 < delta < 2 ^ 63.
Proof.
  unfold timedelta_hours. change NS_PER_HOUR with 3600000000000.
  destruct (in_range _) eqn:E; [|discriminate].
  intros [= <-]. split; [reflexivity|]. now apply in_range_bounds.
Qed.

Lemma timestamp_sub_returns (t delta cutoff : Z) :
  timestamp_sub t delta = Ok cutoff ->
  cutoff = t - delta /\ - 2 ^ 63 < cutoff < 2 ^ 63.
Proof.
  unfold timestamp_sub. destruct (in_range _) eqn:E; [|discriminate].
  intros [= <-]. split; [reflexivity|]. now apply in_range_bounds.
Qed.

Section Windows.

Context {library : Pandas.Library}.

Lemma load_data_rows (header : list string) (body : list (list string))
  (now : Z) (df : DataFrame) :
  load_data (Table header body) now = Ok df ->
  map cells (rows df) = body.
Proof.
  intros H.
  destruct (load_data_frame _ _ _ _ H) as [flags [lat [lon [_ [_ ->]]]]].
  apply assemble_cells.
Qed.

(** [get_fraud_count] on a loaded frame. *)
Lemma get_fraud_count_eq (file : csv_file) (now hours : Z) (df : DataFrame) :
  load_data file now = Ok df ->
  get_fraud_count file now hours =
  match rows df with
  | [] => Ok 0%nat
  | _ =>
      delta <- timedelta_hours hours ;;
      cutoff <- timestamp_sub now delta ;;
      Ok (count (fun r => fraud r && since cutoff r) (rows df))
  end.
Proof.
  intros H. unfold get_fraud_count, fraud_count. rewrite H. cbn [bind].
  rewrite (load_data_empty file now df H).
  destruct (rows df); reflexivity.
Qed.

(** [get_fraud_count] on a loaded frame, for a window in the range of
    pandas. *)
Lemma get_fraud_count_in_range (file : csv_file) (now hours : Z)
  (df : DataFrame) :
  load_data file now = Ok df ->
  - 2 ^ 63 < hours * 3600000000000 < 2 ^ 63 ->
  - 2 ^ 63 < now - hours * 3600000000000 < 2 ^ 63 ->
  get_fraud_count file now hours =
  Ok (count (fun r => fraud r && since (now - hours * 3600000000000) r)
        (rows df)).
Proof.
  intros H Hd Hc. rewrite (get_fraud_count_eq file now hours df H).
  rewrite (timedelta_hours_in_range hours Hd). cbn [bind].
  rewrite (timestamp_sub_in_range _ _ Hc). cbn [bind].
  destruct (rows df); reflexivity.
Qed.

(** What [get_fraud_count] returned. *)
Lemma get_fraud_count_returns (file : csv_file) (now hours : Z) (c : nat) :
  get_fraud_count file now hours = Ok c ->
  exists df,
    load_data file now = Ok df /\
    ((rows df = [] /\ c = 0%nat) \/
     (- 2 ^ 63 < hours * 3600000000000 < 2 ^ 63 /\
      - 2 ^ 63 < now - hours * 3600000000000 < 2 ^ 63 /\
      c = count (fun r => fraud r && since (now - hours * 3600000000000) r)
            (rows df))).
Proof.
  intros H. unfold get_fraud_count in H.
  destruct (load_data file now) as [df|e] eqn:Hdf; [|discriminate H].
  exists df. split; [reflexivity|].
  fold (get_fraud_count file now hours) in H.
  assert (Hq := get_fraud_count_eq file now hours df Hdf).
  unfold get_fraud_count in Hq. rewrite Hdf in Hq. cbn [bind] in *.
  rewrite Hq in H. clear Hq.
  destruct (rows df) as [|r rs] eqn:Er.
  - left. split; [reflexivity|]. now injection H.
  - right.
    destruct (timedelta_hours hours) as [delta|] eqn:Ed; [|discriminate H].
    cbn [bind] in H.
    destruct (timestamp_sub now delta) as [cutoff|] eqn:Ec; [|discriminate H].
    cbn [bind] in H. injection H as <-.
    destruct (timedelta_hours_returns _ _ Ed) as [-> Hd].
    destruct (timestamp_sub_returns _ _ _ Ec) as [-> Hc].
    auto.
Qed.

(** C5, as the code has it. On a file that loads and for a window that
    pandas represents ([hours] as a number of nanoseconds and [now - hours]
    both strictly between [- 2 ^ 63] and [2 ^ 63]), [get_fraud_count]
    returns the number of rows with [is_fraud = 1] whose [local_timestamp]
    is not null and is at or after [now - hours]; there is no upper end:
    the count is that of the window from [now - hours] to [now] when no row
    is stamped after [now].  A row with a null timestamp is not counted and
    stays in the frame. *)
Theorem fraud_count_since (file : csv_file) (now hours : Z) (df : DataFrame) :
  load_data file now = Ok df ->
  - 2 ^ 63 < hours * 3600000000000 < 2 ^ 63 ->
  - 2 ^ 63 < now - hours * 3600000000000 < 2 ^ 63 ->
  get_fraud_count file now hours =
  Ok (count (fun r =>
               (is_fraud r =? 1) &&
               match local_timestamp r with
               | Some t => now - hours * 3600000000000 <=? t
               | None => false
               end) (rows df)) /\
  ((forall r t, In r (rows df) -> local_timestamp r = Some t -> t <= now) ->
   get_fraud_count file now hours =
   Ok (count (fun r =>
                (is_fraud r =? 1) &&
                match local_timestamp r with
                | Some t =>
                    (now - hours * 3600000000000 <=? t) && (t <=? now)
                | None => false
                end) (rows df))) /\
  (forall header body,
      file = Table header body -> map cells (rows df) = body).
Proof.
  intros Hdf Hd Hc.
  rewrite (get_fraud_count_in_range file now hours df Hdf Hd Hc).
  split; [reflexivity|]. split.
  - intros Hpast. f_equal. apply count_ext. intros r Hr.
    unfold fraud, since. destruct (local_timestamp r) as [t|] eqn:E;
      [|reflexivity].
    specialize (Hpast r t Hr E).
    replace (t <=? now) with true by (symmetry; apply Z.leb_le; exact Hpast).
    now rewrite andb_true_r.
  - intros header body ->. exact (load_data_rows header body now df Hdf).
Qed.

(** C10. For a fixed file and a clock [now] that pandas represents, when
    the count of the window of [h2] hours is returned, the count of every
    shorter window [0 <= h1 <= h2] is returned too and is at most it. *)
Theorem fraud_count_monotone (file : csv_file) (now h1 h2 : Z) (c2 : nat) :
  0 <= h1 <= h2 ->
  - 2 ^ 63 < now < 2 ^ 63 ->
  get_fraud_count file now h2 = Ok c2 ->
  exists c1,
    get_fraud_count file now h1 = Ok c1 /\ (c1 <= c2)%nat.
Proof.
  intros Hh Hnow H2.
  destruct (get_fraud_count_returns file now h2 c2 H2)
    as [df [Hdf [[Hr ->]|[Hd [Hc ->]]]]].
  - exists 0%nat. split; [|lia].
    rewrite (get_fraud_count_eq file now h1 df Hdf), Hr. reflexivity.
  - eexists. split.
    + apply (get_fraud_count_in_range file now h1 df Hdf); lia.
    + apply count_le. intros r _. unfold since.
      destruct (fraud r); simpl; [|discriminate].
      destruct (local_timestamp r) as [t|]; [|discriminate].
      rewrite !Z.leb_le. lia.
Qed.


(** [get_fraud_ratio_5min] on a loaded frame. *)
Lemma get_fraud_ratio_eq (file : csv_file) (now : Z) (df : DataFrame) :
  load_data file now = Ok df ->
  get_fraud_ratio_5min file now =
  match rows df with
  | [] => Ok (S754_zero false)
  | _ =>
      cutoff <- timestamp_sub now 300000000000 ;;
      match filter (since cutoff) (rows df) with
      | [] => Ok (S754_zero false)
      | recent =>
          Ok (Pandas.round2
                (Pandas.multiply
                   (Pandas.divide (Pandas.of_count (count fraud recent))
                      (Pandas.of_count (List.length recent)))
                   Pandas.hundred))
      end
  end.
Proof.
  intros H. unfold get_fraud_ratio_5min, fraud_ratio_5min. rewrite H.
  cbn [bind].
  pose proof (load_data_empty file now df H) as He. rewrite He.
  destruct (rows df) as [|r rs] eqn:Er; [reflexivity|].
  change (5 * NS_PER_MINUTE) with 300000000000.
  destruct (timestamp_sub now 300000000000) as [cutoff|]; [|reflexivity].
  cbn [bind]. unfold df_empty, select. cbn [rows columns]. rewrite Er.
  unfold df_empty in He. rewrite Er in He.
  destruct (columns df) as [|c cs]; [discriminate He|].
  destruct (filter _ (r :: rs)); reflexivity.
Qed.

(** [get_fraud_ratio_5min] on a loaded frame, for a clock at least five
    minutes into the range of pandas. *)
Lemma get_fraud_ratio_in_range (file : csv_file) (now : Z) (df : DataFrame) :
  load_data file now = Ok df ->
  - 2 ^ 63 < now - 300000000000 < 2 ^ 63 ->
  get_fraud_ratio_5min file now =
  match filter (since (now - 300000000000)) (rows df) with
  | [] => Ok (S754_zero false)
  | recent =>
      Ok (Pandas.round2
            (Pandas.multiply
               (Pandas.divide (Pandas.of_count (count fraud recent))
                  (Pandas.of_count (List.length recent)))
               Pandas.hundred))
  end.
Proof.
  intros H Hc. rewrite (get_fraud_ratio_eq file now df H).
  rewrite (timestamp_sub_in_range _ _ Hc). cbn [bind].
  destruct (rows df); reflexivity.
Qed.

End Windows.

Section Ratio.

Context {library : Pandas.Library}.

(** C7, as the code has it. On a file that loads, with a clock at least
    five minutes into the range of pandas, let [total] be the number of
    rows stamped at or after [now - 5 minutes] and [frauds] the number of
    those with [is_fraud = 1].  The ratio is [+0.0] when [total] is 0.
    Otherwise it is computed in binary64: the quotient [frauds / total],
    its product with 100, and the rounding of numpy to two decimals (the
    product with 100, the nearest integer, the quotient by 100).  It is
    [+0.0] when [frauds] is 0; for fewer than [2 ^ 53] rows it is 100.0
    ([7036874417766400 * 2 ^ -46]) when [frauds = total], and always a
    finite number between 0 and 100. *)
Theorem fraud_ratio_rounded (file : csv_file) (now : Z) (df : DataFrame) :
  load_data file now = Ok df ->
  - 2 ^ 63 < now - 300000000000 < 2 ^ 63 ->
  let recent :=
    filter (fun r => match local_timestamp r with
                     | Some t => now - 300000000000 <=? t
                     | None => false
                     end) (rows df) in
  let total := List.length recent in
  let frauds := count (fun r => is_fraud r =? 1) recent in
  (total = 0%nat -> get_fraud_ratio_5min file now = Ok (S754_zero false)) /\
  (total <> 0%nat ->
   get_fraud_ratio_5min file now =
   Ok (Pandas.divide
         (Pandas.rint
            (Pandas.multiply
               (Pandas.multiply
                  (Pandas.divide (Pandas.of_count frauds)
                     (Pandas.of_count total))
                  Pandas.hundred)
               Pandas.hundred))
         Pandas.hundred) /\
   (frauds = 0%nat ->
    get_fraud_ratio_5min file now = Ok (S754_zero false)) /\
   (Z.of_nat total < 2 ^ 53 ->
    (frauds = total ->
     get_fraud_ratio_5min file now =
     Ok (S754_finite false 7036874417766400 (-46))) /\
    exists x q,
      get_fraud_ratio_5min file now = Ok x /\
      Py.float_value x = Some q /\ (0 <= q)%Q /\ (q <= 100)%Q)).
Proof.
  intros Hdf Hnow recent total frauds.
  rewrite (get_fraud_ratio_in_range file now df Hdf Hnow).
  change (filter (since (now - 300000000000)) (rows df)) with recent.
  destruct recent as [|r0 rs] eqn:Er.
  - split; [reflexivity|]. intros Hne. now contradiction Hne.
  - split; [intros H0; discriminate H0|]. intros _. cbv zeta.
    change (count fraud (r0 :: rs)) with frauds.
    change (List.length (r0 :: rs)) with total.
    assert (Ht : (0 < total)%nat) by (unfold total; cbn [List.length]; lia).
    assert (Hle : (frauds <= total)%nat) by apply count_le_length.
    split; [reflexivity|]. split.
    + intros Hf. rewrite Hf. change (Pandas.of_count 0) with (S754_zero false).
      now rewrite ratio_of_zero by now apply of_count_pos.
    + intros Hb. split.
      * intros Hf. rewrite Hf, (of_count_small total Ht Hb).
        now rewrite ratio_of_all.
      * destruct (at_most_value 100 _ ltac:(lia)
                    (ratio_le frauds total Hle Ht Hb)) as [q [Hq [H0 H100]]].
        eexists. exists q. split; [reflexivity|]. auto.
Qed.

End Ratio.

(** ** The fraud flag *)

Lemma dropwhile_all (p : ascii -> bool) (l : list ascii) :
  forallb p l = true -> Py.dropwhile p l = [].
Proof.
  intros H. rewrite <- (app_nil_r l). rewrite dropwhile_app_all by exact H.
  reflexivity.
Qed.

Lemma takewhile_run (p : ascii -> bool) (run post : list ascii) :
  forallb p run = true ->
  match post with [] => True | c :: _ => p c = false end ->
  Py.takewhile p (run ++ post) = run.
Proof.
  intros Hrun Hpost. induction run as [|c run IH]; simpl.
  - destruct post as [|c post]; [reflexivity|]. simpl. now rewrite Hpost.
  - simpl in Hrun. apply andb_prop in Hrun. destruct Hrun as [Hc Hrun].
    rewrite Hc. now rewrite IH.
Qed.

Lemma takewhile_all (p : ascii -> bool) (l : list ascii) :
  forallb p (Py.takewhile p l) = true.
Proof.
  induction l as [|c l IH]; simpl; [reflexivity|].
  destruct (p c) eqn:E; simpl; [|reflexivity]. now rewrite E.
Qed.

Lemma digit_val_bounds (c : ascii) :
  Py.isdigit c = true -> 0 <= Py.digit_val c <= 9.
Proof.
  unfold Py.isdigit, Py.digit_val. intros H.
  apply andb_prop in H. destruct H as [H1 H2].
  apply Nat.leb_le in H1, H2. lia.
Qed.

Lemma digits_value_nonneg (ds : list ascii) :
  forallb Py.isdigit ds = true -> 0 <= Py.digits_value ds.
Proof.
  unfold Py.digits_value.
  assert (H : forall acc, 0 <= acc -> forallb Py.isdigit ds = true ->
                          0 <= fold_left (fun a c => 10 * a + Py.digit_val c) ds acc).
  { induction ds as [|c ds IH]; cbn [fold_left forallb]; intros a Ha Hd;
      [exact Ha|].
    apply andb_prop in Hd. destruct Hd as [Hc Hd]. apply IH; [|exact Hd].
    pose proof (digit_val_bounds c Hc). lia. }
  apply H. lia.
Qed.

Lemma fraud_flag_run (s : string) (run : list ascii) :
  first_digit_run (Py.chars s) run -> fraud_flag s = Py.digits_value run.
Proof.
  intros [pre [post [Hs [Hpre [Hne [Hrun Hpost]]]]]].
  unfold fraud_flag, Pandas.extract_digits. rewrite Hs.
  rewrite dropwhile_app_all by exact Hpre.
  destruct run as [|c run]; [contradiction|].
  simpl in Hrun. apply andb_prop in Hrun. destruct Hrun as [Hc Hrun].
  cbn [app Py.dropwhile]. rewrite Hc. cbn [negb Pandas.to_int].
  change (c :: run ++ post) with ((c :: run) ++ post).
  rewrite takewhile_run; [reflexivity| |exact Hpost].
  simpl. now rewrite Hc, Hrun.
Qed.

Lemma fraud_flag_no_digit (s : string) :
  forallb (fun c => negb (Py.isdigit c)) (Py.chars s) = true ->
  fraud_flag s = 0.
Proof.
  intros H. unfold fraud_flag, Pandas.extract_digits.
  now rewrite dropwhile_all.
Qed.

(** Every text has no digit or has a first run of digits. *)
Lemma first_digit_run_exists (l : list ascii) :
  forallb (fun c => negb (Py.isdigit c)) l = true \/
  exists run, first_digit_run l run.
Proof.
  induction l as [|c l IH]; [now left|].
  simpl. destruct (Py.isdigit c) eqn:Hc; simpl.
  - right. exists (c :: Py.takewhile Py.isdigit l).
    exists [], (Py.dropwhile Py.isdigit l). repeat split.
    + simpl. f_equal. clear. induction l as [|a l IH]; simpl; [reflexivity|].
      destruct (Py.isdigit a); simpl; [now f_equal|reflexivity].
    + discriminate.
    + simpl. rewrite Hc. apply takewhile_all.
    + clear. induction l as [|a l IH]; simpl; [exact I|].
      destruct (Py.isdigit a) eqn:E; [exact IH|exact E].
  - destruct IH as [IH|[run [pre [post [Hs [Hpre H]]]]]]; [now left|].
    right. exists run, (c :: pre), post. split; [simpl; now rewrite Hs|].
    split; [simpl; now rewrite Hc|exact H].
Qed.

Lemma nth_map_nth_error {A B : Type} (f : A -> B) (l : list A) (i : nat)
  (a : A) (d : B) :
  nth_error l i = Some a -> nth i (map f l) d = f a.
Proof.
  revert i. induction l as [|x l IH]; intros [|i]; simpl; try discriminate.
  - now intros [= ->].
  - apply IH.
Qed.

Lemma extract_digits_run (s : string) (run : list ascii) :
  first_digit_run (Py.chars s) run -> Pandas.extract_digits s = Some run.
Proof.
  intros [pre [post [Hs [Hpre [Hne [Hrun Hpost]]]]]].
  unfold Pandas.extract_digits. rewrite Hs.
  rewrite dropwhile_app_all by exact Hpre.
  destruct run as [|c run]; [contradiction|].
  simpl in Hrun. apply andb_prop in Hrun. destruct Hrun as [Hc Hrun].
  cbn [app Py.dropwhile]. rewrite Hc. cbn [negb].
  change (c :: run ++ post) with ((c :: run) ++ post).
  rewrite takewhile_run; [reflexivity| |exact Hpost].
  simpl. now rewrite Hc, Hrun.
Qed.

Lemma extract_digits_no_digit (s : string) :
  forallb (fun c => negb (Py.isdigit c)) (Py.chars s) = true ->
  Pandas.extract_digits s = None.
Proof.
  intros H. unfold Pandas.extract_digits. now rewrite dropwhile_all.
Qed.

(** A cell without a digit, or with a first run of at most nine digits, has
    a short run. *)
Lemma short_flag_no_digit (s : string) :
  forallb (fun c => negb (Py.isdigit c)) (Py.chars s) = true ->
  short_flag s = true.
Proof.
  intros H. unfold short_flag. now rewrite extract_digits_no_digit.
Qed.

Lemma short_flag_run (s : string) (run : list ascii) :
  first_digit_run (Py.chars s) run ->
  (List.length run <= 9)%nat ->
  short_flag s = true.
Proof.
  intros Hrun Hlen. unfold short_flag.
  rewrite (extract_digits_run s run Hrun). unfold Pandas.short.
  destruct Hrun as [pre [post [_ [_ [_ [Hd _]]]]]].
  rewrite Hd, andb_true_r. now apply Nat.leb_le.
Qed.

Section Flag.

Context {library : Pandas.Library}.

(** The entries of the converted [is_fraud] column, where the run of the
    cell is short. *)
Lemma fraud_column_cell (header : list string) (body : list (list string))
  (flags : list Z) (i : nat) (raw : list string) :
  fraud_column header body = Ok flags ->
  nth_error body i = Some raw ->
  match cell header "is_fraud" raw with
  | Some s => short_flag s = true -> nth i flags 0 = fraud_flag s
  | None => nth i flags 0 = 0
  end.
Proof.
  unfold fraud_column, column, cell. intros Hf Hraw.
  destruct (index_of "is_fraud" header) as [j|].
  - intros Hs. destruct (Pandas.to_int64_cell _ _ Hf) as [_ Hc].
    apply (Hc i (Pandas.extract_digits (nth j raw ""))); [|exact Hs].
    rewrite map_map, nth_error_map, Hraw. reflexivity.
  - injection Hf as <-. exact (nth_map_nth_error _ body i raw 0 Hraw).
Qed.

(** The flag of a row of a loaded frame. *)
Lemma load_data_flag (header : list string) (body : list (list string))
  (now : Z) (df : DataFrame) (r : Row) :
  load_data (Table header body) now = Ok df ->
  In r (rows df) ->
  match cell (repair_header header) "is_fraud" (cells r) with
  | Some s => short_flag s = true -> is_fraud r = fraud_flag s
  | None => is_fraud r = 0
  end.
Proof.
  intros H Hr.
  destruct (load_data_frame _ _ _ _ H) as [flags [lat [lon [Hf [_ ->]]]]].
  cbn [rows] in Hr. apply assemble_In in Hr.
  destruct Hr as [i [raw [Hraw ->]]]. cbn [is_fraud cells].
  exact (fraud_column_cell _ _ _ _ _ Hf Hraw).
Qed.

(** C3, as the code has it. On a file that loads, the normalized
    [is_fraud] of a row is 0 when the raw cell has no digit or the file has
    no [is_fraud] column, and is the number the first run of digits
    denotes, a non-negative integer, when the run has at most nine digits.
    So ["1.0"] gives 1, ["yes"] gives 0 and ["0"] gives 0; the value is not
    confined to 0 and 1 (["2"] gives 2).  Every cell has no digit or has a
    first run of digits. *)
Theorem is_fraud_first_digit_run (header : list string)
  (body : list (list string)) (now : Z) (df : DataFrame) :
  load_data (Table header body) now = Ok df ->
  (forall r, In r (rows df) ->
     match cell (repair_header header) "is_fraud" (cells r) with
     | Some s =>
         (forallb (fun c => negb (Py.isdigit c)) (Py.chars s) = true ->
          is_fraud r = 0) /\
         (forall run,
             first_digit_run (Py.chars s) run ->
             (List.length run <= 9)%nat ->
             is_fraud r = Py.digits_value run /\ 0 <= is_fraud r) /\
         (s = "1.0" -> is_fraud r = 1) /\
         (s = "yes" -> is_fraud r = 0) /\
         (s = "0" -> is_fraud r = 0) /\
         (s = "2" -> is_fraud r = 2)
     | None => is_fraud r = 0
     end) /\
  (forall s,
      forallb (fun c => negb (Py.isdigit c)) (Py.chars s) = true \/
      exists run, first_digit_run (Py.chars s) run).
Proof.
  intros H. split; [|intros s; apply first_digit_run_exists].
  intros r Hr. pose proof (load_data_flag header body now df r H Hr) as Hflag.
  destruct (cell (repair_header header) "is_fraud" (cells r)) as [s|];
    [|exact Hflag].
  split; [|split; [|repeat split; intros ->; now rewrite Hflag]].
  - intros Hno. rewrite Hflag by now apply short_flag_no_digit.
    now apply fraud_flag_no_digit.
  - intros run Hrun Hlen.
    rewrite Hflag by exact (short_flag_run s run Hrun Hlen).
    rewrite (fraud_flag_run s run Hrun). split; [reflexivity|].
    apply digits_value_nonneg.
    now destruct Hrun as [pre [post [_ [_ [_ [Hd _]]]]]].
Qed.

End Flag.

(** ** Positions in a list *)

Lemma In_firstn {A : Type} (n : nat) (l : list A) (x : A) :
  In x (firstn n l) -> In x l.
Proof.
  revert n. induction l as [|a l IH]; intros [|n]; simpl; try tauto.
  intros [H|H]; [now left|right; eauto].
Qed.

Section Before.

Context {A : Type}.
Implicit Types (l : list A) (x y : A).


Lemma before_nth_error l i j x y :
  (i < j)%nat -> nth_error l i = Some x -> nth_error l j = Some y ->
  before l x y.
Proof.
  revert i j. induction l as [|a l IH]; intros i j Hij Hi Hj.
  - destruct i; discriminate.
  - destruct j as [|j]; [lia|]. destruct i as [|i]; simpl in *.
    + left. split; [now inversion Hi|]. eapply nth_error_In; eauto.
    + right. apply (IH i j); [lia|assumption..].
Qed.

Lemma before_firstn l n x y : before (firstn n l) x y -> before l x y.
Proof.
  revert n. induction l as [|a l IH]; intros [|n]; simpl; try tauto.
  intros [[-> Hy]|H].
  - left. split; [reflexivity|]. eapply In_firstn; eauto.
  - right. eapply IH; eauto.
Qed.

Lemma before_sorted (R : A -> A -> Prop) l x y :
  StronglySorted R l -> before l x y -> R x y.
Proof.
  induction 1 as [|a l Hs IH Hall]; simpl; [tauto|].
  intros [[-> Hy]|H]; [|auto].
  rewrite Forall_forall in Hall. auto.
Qed.

Lemma before_head l (n : Z) x y : before (Pandas.head n l) x y -> before l x y.
Proof. unfold Pandas.head. destruct (0 <=? n); apply before_firstn. Qed.

End Before.

(** ** The sort *)

Section SortFacts.

Context {A : Type} (leb : A -> A -> bool).



End SortFacts.

(** ** Tables of counts *)

Lemma lookup_In (t : list (string * nat)) (k : string) (c : nat) :
  NoDup (map fst t) -> In (k, c) t -> Pandas.lookup String.eqb k t = Some c.
Proof.
  induction t as [|[k' c'] t IH]; simpl; intros Hnd Hin; [contradiction|].
  inversion Hnd as [|? ? Hnotin Hnd']; subst.
  destruct (String.eqb_spec k k') as [->|Hne].
  - destruct Hin as [[= ->]|Hin]; [reflexivity|].
    exfalso. apply Hnotin. now apply (in_map fst) in Hin.
  - destruct Hin as [[= -> ->]|Hin]; [contradiction|]. now apply IH.
Qed.

Lemma reindex_sorted_table {library : Pandas.Library} (labels : list string)
  (f : string -> nat) :
  NoDup labels ->
  Pandas.reindex labels 0
    (Pandas.nargsort_desc snd (map (fun c => (c, f c)) labels)) =
  map (fun c => (c, f c)) labels.
Proof.
  intros Hnd. unfold Pandas.reindex. apply map_ext_in. intros g Hg.
  rewrite (lookup_In _ g (f g)); [reflexivity| |].
  - apply (Permutation_NoDup
             (Permutation_sym
                (Permutation_map fst (Pandas.nargsort_desc_perm _ snd _)))).
    rewrite map_map. simpl. now rewrite map_id.
  - apply (Permutation_in _ (Permutation_sym (Pandas.nargsort_desc_perm _ snd _))).
    apply in_map_iff. now exists g.
Qed.

Lemma filter_map_length {A B : Type} (p : B -> bool) (h : A -> B) (l : list A) :
  List.length (filter p (map h l)) = count (fun a => p (h a)) l.
Proof.
  unfold count. induction l as [|a l IH]; simpl; [reflexivity|].
  destruct (p (h a)); simpl; now rewrite IH.
Qed.

(** ** The age distribution *)

Ltac split_comparisons :=
  repeat match goal with
         | |- context [?a <=? ?b] =>
             destruct (Z.leb_spec a b); cbn [andb]; try lia
         | |- context [?a <? ?b] =>
             destruct (Z.ltb_spec a b); cbn [andb]; try lia
         end.

Lemma bin_of_label (r : Row) (lab : string) (lo hi : Z) :
  In (lab, lo, hi)
     [("<25", 0, 25); ("25-34", 25, 35); ("35-44", 35, 45);
      ("45-54", 45, 55); ("55+", 55, 120)] ->
  match bin_of (age r) with
  | Some g => String.eqb g lab
  | None => false
  end = in_bin lo hi r.
Proof.
  intros H. unfold in_bin, bin_of.
  destruct (age r) as [| |y]; try reflexivity.
  unfold age_bins, age_labels. cbn [Pandas.cut].
  simpl in H.
  repeat (destruct H as [[= <- <- <-]|H]; [split_comparisons; reflexivity|]).
  contradiction.
Qed.

Lemma count_cons {A : Type} (p : A -> bool) (a : A) (l : list A) :
  count p (a :: l) = ((if p a then 1 else 0) + count p l)%nat.
Proof. unfold count. simpl. now destruct (p a). Qed.

Lemma bins_disjoint (r : Row) :
  ((if in_bin 0 25 r then 1 else 0) + (if in_bin 25 35 r then 1 else 0)
   + (if in_bin 35 45 r then 1 else 0) + (if in_bin 45 55 r then 1 else 0)
   + (if in_bin 55 120 r then 1 else 0))%nat
  = (if in_bin 0 120 r then 1 else 0)%nat.
Proof.
  unfold in_bin. destruct (age r) as [| |y]; try reflexivity.
  split_comparisons; reflexivity.
Qed.

Lemma bins_partition (l : list Row) :
  (count (in_bin 0 25) l + count (in_bin 25 35) l + count (in_bin 35 45) l
   + count (in_bin 45 55) l + count (in_bin 55 120) l)%nat
  = count (in_bin 0 120) l.
Proof.
  induction l as [|r l IH]; [reflexivity|].
  rewrite !count_cons. pose proof (bins_disjoint r). lia.
Qed.

Lemma mapM_cut_age (ages : list age_cell) :
  (forall a, In a ages -> a <> AgeNone) ->
  mapM cut_age ages = Ok (map bin_of ages).
Proof.
  induction ages as [|a ages IH]; intros H; [reflexivity|].
  cbn [mapM map]. rewrite IH by (intros b Hb; apply H; now right).
  assert (Ha : a <> AgeNone) by (apply H; now left).
  destruct a; [contradiction|reflexivity..].
Qed.

Lemma nth_map_not_none {A : Type} (g : A -> age_cell) (l : list A) (i : nat) :
  (forall x, g x <> AgeNone) -> nth i (map g l) AgeNaN <> AgeNone.
Proof.
  intros Hg. destruct (nth_in_or_default i (map g l) AgeNaN) as [H|H].
  - apply in_map_iff in H. destruct H as [x [<- _]]. apply Hg.
  - rewrite H. discriminate.
Qed.

Section Ages.

Context {library : Pandas.Library}.

Lemma derived_has_age (header : list string) :
  has_column "age"
    (fold_left (fun cols name => add_column name cols) derived_columns header)
  = true.
Proof.
  cbn [fold_left derived_columns].
  do 2 apply has_column_add_mono. apply has_column_add_same.
Qed.

(** In a frame with a [dob] column no age is the object [None]. *)
Lemma load_data_ages (file : csv_file) (now : Z) (df : DataFrame) :
  load_data file now = Ok df ->
  has_column "dob" (columns df) = true ->
  forall r, In r (rows df) -> age r <> AgeNone.
Proof.
  destruct file as [| |header body]; intros H Hdob r Hr.
  - inversion H; subst. contradiction.
  - inversion H; subst. contradiction.
  - destruct (load_data_frame _ _ _ _ H) as [flags [lat [lon [_ [_ ->]]]]].
    cbn [columns rows fold_left derived_columns] in *.
    rewrite !has_column_add_other in Hdob by reflexivity.
    apply index_of_has_column in Hdob.
    apply assemble_In in Hr. destruct Hr as [i [raw [_ ->]]]. cbn [age].
    unfold age_column, column.
    destruct (index_of "dob" (repair_header header)); [|contradiction].
    apply nth_map_not_none. intros [t|]; discriminate.
Qed.

Lemma load_data_has_age (file : csv_file) (now : Z) (df : DataFrame) :
  load_data file now = Ok df -> rows df <> [] ->
  has_column "age" (columns df) = true.
Proof.
  destruct file as [| |header body]; intros H Hne.
  - inversion H; subst. contradiction.
  - inversion H; subst. contradiction.
  - destruct (load_data_frame _ _ _ _ H) as [flags [lat [lon [_ [_ ->]]]]].
    apply derived_has_age.
Qed.

Lemma load_data_columns (file : csv_file) (now : Z) (df : DataFrame) :
  load_data file now = Ok df -> rows df <> [] ->
  columns df <> [].
Proof.
  intros H Hne Hc. pose proof (load_data_has_age file now df H Hne) as Ha.
  rewrite Hc in Ha. discriminate Ha.
Qed.

(** C1, as the code has it. When no row of the frame has [is_fraud = 1]
    (an absent or empty dataset included) [get_age_distribution] returns
    the empty sequence.  When some row has, and the file has a [dob]
    column, it returns exactly five entries, labelled [<25], [25-34],
    [35-44], [45-54], [55+] in this order, each with the number of fraud
    rows whose age is a number in the bin (0 when there is none); the
    counts add up to the number of fraud rows whose age is a number in
    [[0, 120)]. *)
Theorem age_distribution_bins (file : csv_file) (now : Z) (df : DataFrame) :
  load_data file now = Ok df ->
  let frauds := filter (fun r => is_fraud r =? 1) (rows df) in
  (frauds = [] -> get_age_distribution file now = Ok []) /\
  (frauds <> [] -> has_column "dob" (columns df) = true ->
   get_age_distribution file now =
   Ok [("<25", count (in_bin 0 25) frauds);
       ("25-34", count (in_bin 25 35) frauds);
       ("35-44", count (in_bin 35 45) frauds);
       ("45-54", count (in_bin 45 55) frauds);
       ("55+", count (in_bin 55 120) frauds)] /\
   (count (in_bin 0 25) frauds + count (in_bin 25 35) frauds
    + count (in_bin 35 45) frauds + count (in_bin 45 55) frauds
    + count (in_bin 55 120) frauds)%nat
   = count (in_bin 0 120) frauds).
Proof.
  intros Hdf frauds. subst frauds.
  change (fun r : Row => is_fraud r =? 1) with fraud.
  unfold get_age_distribution, age_distribution. rewrite Hdf. unfold bind.
  rewrite (load_data_empty file now df Hdf).
  split.
  - intros Hnil. destruct (rows df) as [|r0 rs] eqn:Er; [reflexivity|].
    cbn [orb]. destruct (negb _); [reflexivity|].
    unfold df_empty, select. cbn [rows columns]. rewrite Er, Hnil.
    now destruct (columns df).
  - intros Hne Hdob.
    destruct (rows df) as [|r0 rs] eqn:Er; [now contradiction Hne|].
    rewrite <- Er in *.
    assert (Hrows : rows df <> []) by (rewrite Er; discriminate).
    rewrite (load_data_has_age file now df Hdf Hrows). cbn [orb negb].
    pose proof (load_data_columns file now df Hdf Hrows) as Hcols.
    unfold df_empty, select. cbn [rows columns].
    destruct (columns df) as [|c cs] eqn:Ec; [contradiction|].
    destruct (filter fraud (rows df)) as [|f fs] eqn:Ef; [contradiction|].
    rewrite <- Ef in *.
    rewrite mapM_cut_age.
    2:{ intros a Ha. apply in_map_iff in Ha. destruct Ha as [r [<- Hr]].
        apply filter_In in Hr. destruct Hr as [Hr _].
        apply (load_data_ages file now df Hdf); [|exact Hr].
        rewrite Ec. exact Hdob. }
    split; [|apply bins_partition].
    f_equal. unfold Pandas.value_counts_categorical.
    rewrite (reindex_sorted_table age_labels).
    2:{ unfold age_labels. repeat constructor; simpl; intuition discriminate. }
    unfold age_labels. cbn [map].
    rewrite !map_map, !filter_map_length.
    repeat (apply f_equal2;
            [apply f_equal; apply count_ext; intros r _;
             apply bin_of_label; simpl; tauto|]).
    reflexivity.
Qed.

End Ages.

(** ** The counting table *)

Section CountFacts.

Context {K : Type} (eqb : K -> K -> bool).

Lemma keys_incr (k : K) (t : list (K * nat)) :
  map fst (Pandas.incr eqb k t) = add_key eqb k (map fst t).
Proof.
  unfold add_key. induction t as [|[k' c] t IH]; [reflexivity|].
  cbn [Pandas.incr map fst existsb].
  destruct (eqb k k'); cbn [orb map fst]; [reflexivity|].
  rewrite IH. now destruct (existsb (eqb k) (map fst t)).
Qed.

Lemma keys_fold (l : list K) (t : list (K * nat)) :
  map fst (fold_left (fun t k => Pandas.incr eqb k t) l t) =
  fold_left (fun ks k => add_key eqb k ks) l (map fst t).
Proof.
  revert t. induction l as [|k l IH]; intros t; [reflexivity|].
  cbn [fold_left]. now rewrite IH, keys_incr.
Qed.

Hypothesis eqb_sym : forall x y, eqb x y = eqb y x.


End CountFacts.

Lemma existsb_eqb_In (k : string) (ks : list string) :
  existsb (String.eqb k) ks = true <-> In k ks.
Proof.
  rewrite existsb_exists. split.
  - intros [x [Hx E]]. apply String.eqb_eq in E. now subst.
  - intros H. exists k. split; [exact H|apply String.eqb_refl].
Qed.
(** The count of a key in the table. *)
Lemma lookup_incr (k k' : string) (t : list (string * nat)) :
  Pandas.lookup String.eqb k' (Pandas.incr String.eqb k t) =
  if String.eqb k' k
  then Some (S (match Pandas.lookup String.eqb k t with
                | Some c => c
                | None => 0%nat
                end))
  else Pandas.lookup String.eqb k' t.
Proof.
  induction t as [|[k0 c] t IH]; [reflexivity|].
  cbn [Pandas.incr Pandas.lookup].
  destruct (String.eqb_spec k k0) as [->|Hk]; cbn [Pandas.lookup].
  - destruct (String.eqb_spec k' k0); reflexivity.
  - rewrite IH.
    destruct (String.eqb_spec k' k0) as [E0|N0];
      destruct (String.eqb_spec k' k) as [E1|N1]; try reflexivity.
    congruence.
Qed.

Lemma lookup_fold (l : list string) (t : list (string * nat)) (k : string) :
  match Pandas.lookup String.eqb k
          (fold_left (fun t k => Pandas.incr String.eqb k t) l t) with
  | Some c => c
  | None => 0%nat
  end =
  (match Pandas.lookup String.eqb k t with
   | Some c => c
   | None => 0%nat
   end + count (String.eqb k) l)%nat.
Proof.
  revert t. induction l as [|a l IH]; intros t.
  - cbn [fold_left]. unfold count. simpl. lia.
  - cbn [fold_left]. rewrite IH, lookup_incr, count_cons.
    destruct (String.eqb_spec k a) as [->|Hne]; lia.
Qed.

Lemma add_key_NoDup (k : string) (ks : list string) :
  NoDup ks -> NoDup (add_key String.eqb k ks).
Proof.
  intros H. unfold add_key. destruct (existsb (String.eqb k) ks) eqn:E;
    [exact H|].
  apply (Permutation_NoDup (Permutation_cons_append ks k)).
  constructor; [|exact H]. intros Hin. apply existsb_eqb_In in Hin. congruence.
Qed.

Lemma count_keys_NoDup (l : list string) :
  NoDup (map fst (Pandas.count_keys String.eqb l)).
Proof.
  unfold Pandas.count_keys. rewrite keys_fold. simpl.
  generalize (NoDup_nil string). generalize (@nil string) as ks.
  induction l as [|a l IH]; intros ks H; [exact H|].
  cbn [fold_left]. apply IH. now apply add_key_NoDup.
Qed.

Lemma value_counts_counts {library : Pandas.Library} (src : list string)
  (n : Z) :
  counts_of src (Pandas.head n (Pandas.value_counts src)).
Proof.
  intros k c Hin.
  assert (Hin' : In (k, c) (Pandas.count_keys String.eqb src)).
  { apply (Permutation_in _ (Pandas.nargsort_desc_perm _ snd _)).
    unfold Pandas.head in Hin. destruct (0 <=? n); eapply In_firstn; eauto. }
  pose proof (lookup_In _ k c (count_keys_NoDup src) Hin') as Hl.
  pose proof (lookup_fold src [] k) as Hf.
  unfold Pandas.count_keys in Hl. rewrite Hl in Hf. simpl in Hf. exact Hf.
Qed.

(** ** The orders *)

Section Lex.

Context {A B : Type} (leA : A -> A -> bool) (leB : B -> B -> bool).

Hypothesis totalA : forall x y, leA x y = true \/ leA y x = true.
Hypothesis transA :
  forall x y z, leA x y = true -> leA y z = true -> leA x z = true.
Hypothesis totalB : forall x y, leB x y = true \/ leB y x = true.
Hypothesis transB :
  forall x y z, leB x y = true -> leB y z = true -> leB x z = true.



End Lex.












(** ** The rankings *)

Lemma sorted_descending {A : Type} (l : list (A * nat)) (n : Z) :
  StronglySorted (fun x y => (snd y <= snd x)%nat) l ->
  descending (Pandas.head n l).
Proof.
  intros Hs i j k1 c1 k2 c2 Hij Hi Hj.
  pose proof (before_nth_error _ i j _ _ Hij Hi Hj) as Hb.
  apply before_head in Hb.
  exact (before_sorted _ _ _ _ Hs Hb).
Qed.

Lemma descending_nil {K : Type} : descending (@nil (K * nat)).
Proof. intros [|i] j k1 c1 k2 c2 _ H; discriminate H. Qed.

Lemma combine_map_self {A B C : Type} (g : A -> B) (f : B * A -> C)
  (l : list A) :
  map f (combine (map g l) l) = map (fun a => f (g a, a)) l.
Proof. induction l as [|a l IH]; simpl; [reflexivity|]. now rewrite IH. Qed.


Section Rankings.

Context {library : Pandas.Library}.

Lemma value_counts_descending (src : list string) (n : Z) :
  descending (Pandas.head n (Pandas.value_counts src)).
Proof. apply sorted_descending, Pandas.nargsort_desc_sorted. Qed.

(** The value-count queries: they return, their counts descend and are the
    counts of the keys. *)
Lemma top_column_ranked (df : DataFrame) (name : string) (n : Z) :
  exists out,
    (if df_empty df || negb (has_column name (columns df)) then Ok []
     else col <- getitem (select fraud df) name ;;
          Ok (Pandas.head n (Pandas.value_counts col))) = Ok out /\
    descending out /\
    forall src, getitem (select fraud df) name = Ok src -> counts_of src out.
Proof.
  destruct (df_empty df || negb (has_column name (columns df))) eqn:E.
  - exists []. split; [reflexivity|]. split; [apply descending_nil|].
    intros src _ k c [].
  - apply orb_false_elim in E. destruct E as [_ E].
    apply negb_false_iff, index_of_has_column in E.
    unfold getitem, select. cbn [columns rows].
    destruct (index_of name (columns df)) as [i|]; [|contradiction].
    cbn [bind]. eexists. split; [reflexivity|].
    split; [apply value_counts_descending|].
    intros src [= <-]. apply value_counts_counts.
Qed.


Lemma top_merchant_locations_returns (df : DataFrame) (n : Z) :
  has_column "merchant" (columns df) = true ->
  exists out, top_merchant_locations df n = Ok out.
Proof.
  intros H. apply index_of_has_column in H. unfold top_merchant_locations.
  destruct (df_empty df); [eauto|].
  destruct (df_empty (select fraud df)); [eauto|].
  destruct (df_empty (select _ (select fraud df))); [eauto|].
  unfold getitem, select. cbn [columns rows].
  destruct (index_of "merchant" (columns df)); [|contradiction].
  cbn [bind]. eauto.
Qed.

End Rankings.

(** ** The clock *)

Section Forget.

Variables l l' : list Row.
Hypothesis same : map forget_age l = map forget_age l'.

Lemma forget_filter (p : Row -> bool) :
  (forall r, p (forget_age r) = p r) ->
  map forget_age (filter p l) = map forget_age (filter p l').
Proof.
  intros Hp. revert l' same. induction l as [|a l0 IH]; intros [|a' l0'] E;
    try discriminate; [reflexivity|].
  cbn [map] in E.
  pose proof (f_equal (hd a) E) as Ea. pose proof (f_equal (@tl Row) E) as El.
  cbn [hd tl] in Ea, El. cbn [filter].
  rewrite <- (Hp a), <- (Hp a'), Ea.
  destruct (p (forget_age a')); cbn [map]; [rewrite Ea; f_equal|]; now apply IH.
Qed.



End Forget.





Section Ranking.

Context {library : Pandas.Library}.

Lemma assemble_forget body fr st ag ag' la lo :
  map forget_age (assemble body fr st ag la lo) =
  map forget_age (assemble body fr st ag' la lo).
Proof.
  unfold assemble. generalize 0%nat.
  induction body as [|r body IH]; intros i; [reflexivity|].
  cbn [mapi_from map]. now rewrite IH.
Qed.


(** Two loads of one file raise the same exception, or return frames that
    differ in the ages only. *)
Lemma load_data_clock (file : csv_file) (now now' : Z) :
  match load_data file now, load_data file now' with
  | Ok df, Ok df' =>
      columns df = columns df' /\
      map forget_age (rows df) = map forget_age (rows df')
  | Raise e, Raise e' => e = e'
  | _, _ => False
  end.
Proof.
  destruct file as [| |header body].
  - split; reflexivity.
  - split; reflexivity.
  - destruct (load_data_table header body) as [lat [lon H]].
    rewrite !H.
    destruct (fraud_column (repair_header header) body); [|reflexivity].
    cbn [bind columns rows]. split; [reflexivity|apply assemble_forget].
Qed.

(** The frame of a second load. *)
Lemma load_data_again (file : csv_file) (now now' : Z) (df : DataFrame) :
  load_data file now = Ok df ->
  exists df',
    load_data file now' = Ok df' /\
    columns df = columns df' /\
    map forget_age (rows df) = map forget_age (rows df').
Proof.
  intros H. pose proof (load_data_clock file now now') as Hc.
  rewrite H in Hc. destruct (load_data file now') as [df'|e]; [|contradiction].
  eauto.
Qed.


End Ranking.

(** ** The guarded queries *)

Lemma top_column_length {library : Pandas.Library} (df : DataFrame)
  (name : string) (n : Z) :
  0 <= n ->
  exists out,
    (if df_empty df || negb (has_column name (columns df)) then Ok []
     else col <- getitem (select fraud df) name ;;
          Ok (Pandas.head n (Pandas.value_counts col))) = Ok out /\
    Z.of_nat (List.length out) <= n.
Proof.
  intros Hn.
  destruct (df_empty df || negb (has_column name (columns df))) eqn:E.
  - exists []. split; [reflexivity|]. simpl. lia.
  - apply orb_false_elim in E. destruct E as [_ E].
    apply negb_false_iff, index_of_has_column in E.
    unfold getitem, select. cbn [columns rows].
    destruct (index_of name (columns df)) as [i|]; [|contradiction].
    cbn [bind]. eexists. split; [reflexivity|].
    unfold Pandas.head. replace (0 <=? n) with true
      by (symmetry; apply Z.leb_le; exact Hn).
    pose proof (firstn_le_length (Z.to_nat n)
                  (Pandas.value_counts
                     (map (fun r => nth i (cells r) "")
                        (filter fraud (rows df))))).
    lia.
Qed.

Section Guarded.

Context {library : Pandas.Library}.

(** On a file that loads, [get_top_categories] and [get_top_states] return
    a value, [get_fraud_ratio_5min] returns one for a clock at least five
    minutes into the range of pandas, and [get_fraud_count] for a window
    that pandas represents: none raises. *)
Theorem guarded_queries_return (file : csv_file) (now hours n : Z)
  (df : DataFrame) :
  load_data file now = Ok df ->
  (exists l, get_top_categories file now n = Ok l) /\
  (exists l, get_top_states file now n = Ok l) /\
  (- 2 ^ 63 < now - 300000000000 < 2 ^ 63 ->
   exists x, get_fraud_ratio_5min file now = Ok x) /\
  (- 2 ^ 63 < hours * 3600000000000 < 2 ^ 63 ->
   - 2 ^ 63 < now - hours * 3600000000000 < 2 ^ 63 ->
   exists c, get_fraud_count file now hours = Ok c).
Proof.
  intros Hdf.
  unfold get_top_categories, get_top_states. rewrite Hdf. cbn [bind].
  split; [|split; [|split]].
  - destruct (top_column_ranked df "category" n) as [out [H _]]. eauto.
  - destruct (top_column_ranked df "state" n) as [out [H _]]. eauto.
  - intros Hnow. rewrite (get_fraud_ratio_in_range file now df Hdf Hnow).
    destruct (filter _ (rows df)); eauto.
  - intros Hd Hc.
    rewrite (get_fraud_count_in_range file now hours df Hdf Hd Hc). eauto.
Qed.

(** On a file that loads and for [n >= 0], [get_top_categories] and
    [get_top_states] return at most [n] entries. *)
Theorem top_n_at_most_n (file : csv_file) (now n : Z) (df : DataFrame) :
  load_data file now = Ok df ->
  0 <= n ->
  (exists out,
      get_top_categories file now n = Ok out /\
      Z.of_nat (List.length out) <= n) /\
  (exists out,
      get_top_states file now n = Ok out /\
      Z.of_nat (List.length out) <= n).
Proof.
  intros Hdf Hn.
  unfold get_top_categories, get_top_states. rewrite Hdf. cbn [bind].
  split; apply top_column_length; exact Hn.
Qed.

End Guarded.

(** ** Frames without a fraud row, without timestamps, without rows *)

Lemma filter_none {A : Type} (p : A -> bool) (l : list A) :
  (forall x, In x l -> p x = false) -> filter p l = [].
Proof.
  induction l as [|a l IH]; simpl; intros H; [reflexivity|].
  rewrite (H a) by now left. apply IH. intros x Hx. apply H. now right.
Qed.

Lemma filter_nil_false {A : Type} (p : A -> bool) (l : list A) (x : A) :
  filter p l = [] -> In x l -> p x = false.
Proof.
  intros H Hx. destruct (p x) eqn:E; [|reflexivity].
  assert (Hin : In x (filter p l)) by (apply filter_In; tauto).
  rewrite H in Hin. contradiction.
Qed.

Lemma filter_filter_and {A : Type} (p q : A -> bool) (l : list A) :
  filter p (filter q l) = filter (fun x => q x && p x) l.
Proof.
  induction l as [|a l IH]; simpl; [reflexivity|].
  destruct (q a); simpl; [destruct (p a)|]; now rewrite IH.
Qed.

Lemma nth_map_const {A B : Type} (c : B) (l : list A) (i : nat) :
  nth i (map (fun _ => c) l) c = c.
Proof.
  destruct (nth_in_or_default i (map (fun _ => c) l) c) as [H|H]; [|exact H].
  apply in_map_iff in H. now destruct H as [x [<- _]].
Qed.

Lemma head_nil {A : Type} (n : Z) : Pandas.head n (@nil A) = [].
Proof. unfold Pandas.head. destruct (0 <=? n); apply firstn_nil. Qed.

Lemma select_empty (p : Row -> bool) (df : DataFrame) :
  columns df <> [] ->
  df_empty (select p df) = match filter p (rows df) with
                           | [] => true
                           | _ => false
                           end.
Proof.
  intros H. unfold df_empty, select. cbn [columns rows].
  destruct (columns df); [contradiction|reflexivity].
Qed.

Lemma select_none (p : Row -> bool) (df : DataFrame) :
  filter p (rows df) = [] -> df_empty (select p df) = true.
Proof.
  intros H. unfold df_empty, select. cbn [columns rows]. rewrite H.
  now destruct (columns df).
Qed.
Section NoFraud.

Context {library : Pandas.Library}.

Lemma value_counts_nil : Pandas.value_counts [] = [].
Proof.
  unfold Pandas.value_counts. apply Permutation_nil, Permutation_sym.
  exact (Pandas.nargsort_desc_perm _ snd (Pandas.count_keys String.eqb [])).
Qed.

Lemma top_column_none (df : DataFrame) (name : string) (n : Z) :
  filter fraud (rows df) = [] ->
  (if df_empty df || negb (has_column name (columns df)) then Ok []
   else col <- getitem (select fraud df) name ;;
        Ok (Pandas.head n (Pandas.value_counts col))) = Ok [].
Proof.
  intros H.
  destruct (df_empty df || negb (has_column name (columns df))) eqn:E;
    [reflexivity|].
  apply orb_false_elim in E. destruct E as [_ E].
  apply negb_false_iff, index_of_has_column in E.
  unfold getitem, select. cbn [columns rows].
  destruct (index_of name (columns df)) as [i|]; [|contradiction].
  rewrite H. cbn [bind map]. rewrite value_counts_nil. f_equal. apply head_nil.
Qed.

(** The sequence queries on a frame without a fraud row. *)
Lemma no_fraud_frame (df : DataFrame) (n : Z) :
  filter fraud (rows df) = [] ->
  top_categories df n = Ok [] /\
  age_distribution df = Ok [] /\
  top_merchant_locations df n = Ok [] /\
  top_states df n = Ok [].
Proof.
  intros H. pose proof (select_none fraud df H) as He.
  split; [now apply top_column_none|].
  split; [|split; [|now apply top_column_none]].
  - unfold age_distribution. rewrite He. now destruct (_ || _).
  - unfold top_merchant_locations. rewrite He. now destruct (df_empty df).
Qed.


End NoFraud.

Section Absent.

Context {library : Pandas.Library}.

(** C6, as the code has it. When the dataset file is absent or cannot be
    read, the count is 0, the ratio is [+0.0] and every sequence-returning
    query, [get_age_distribution] included, returns the empty sequence;
    none raises. *)
Theorem absent_dataset_zero_values (file : csv_file) (now hours n : Z) :
  file = Missing \/ file = Unreadable ->
  get_fraud_count file now hours = Ok 0%nat /\
  get_fraud_ratio_5min file now = Ok (S754_zero false) /\
  get_top_categories file now n = Ok [] /\
  get_age_distribution file now = Ok [] /\
  get_top_merchant_locations file now n = Ok [] /\
  get_top_states file now n = Ok [].
Proof.
  intros [H|H]; subst; repeat split; reflexivity.
Qed.

(** The six queries on a file none of whose rows is a fraud row. *)
Lemma no_fraud_results (file : csv_file) (now hours n : Z) (df : DataFrame) :
  load_data file now = Ok df ->
  filter fraud (rows df) = [] ->
  (- 2 ^ 63 < hours * 3600000000000 < 2 ^ 63 ->
   - 2 ^ 63 < now - hours * 3600000000000 < 2 ^ 63 ->
   get_fraud_count file now hours = Ok 0%nat) /\
  (- 2 ^ 63 < now - 300000000000 < 2 ^ 63 ->
   get_fraud_ratio_5min file now = Ok (S754_zero false)) /\
  get_top_categories file now n = Ok [] /\
  get_age_distribution file now = Ok [] /\
  get_top_merchant_locations file now n = Ok [] /\
  get_top_states file now n = Ok [].
Proof.
  intros Hdf Hnone.
  assert (Hf : forall r, In r (rows df) -> fraud r = false)
    by (intros r; now apply filter_nil_false).
  split; [|split].
  - intros Hd Hc.
    rewrite (get_fraud_count_in_range file now hours df Hdf Hd Hc).
    unfold count. rewrite filter_none; [reflexivity|].
    intros r Hr. now rewrite (Hf r Hr).
  - intros Hnow. rewrite (get_fraud_ratio_in_range file now df Hdf Hnow).
    destruct (filter (since _) (rows df)) as [|r0 recent] eqn:Er;
      [reflexivity|].
    unfold count. rewrite filter_none.
    + change (Pandas.of_count (List.length [])) with (S754_zero false).
      rewrite ratio_of_zero; [reflexivity|].
      apply of_count_pos. cbn [List.length]. lia.
    + intros r Hr. apply Hf.
      assert (Hin : In r (filter (since (now - 300000000000)) (rows df)))
        by (rewrite Er; exact Hr).
      apply filter_In in Hin. tauto.
  - unfold get_top_categories, get_age_distribution,
      get_top_merchant_locations, get_top_states.
    rewrite Hdf. cbn [bind].
    destruct (no_fraud_frame df n Hnone) as [H1 [H2 [H3 H4]]]. tauto.
Qed.


(** On a file that loads and none of whose rows has the fraud flag 1, the
    count is 0 for a window that pandas represents, the ratio is [+0.0]
    for a clock at least five minutes into the range of pandas, and every
    sequence query returns the empty sequence, whatever columns the file
    has. *)
Theorem no_fraud_zero_values (file : csv_file) (now hours n : Z)
  (df : DataFrame) :
  load_data file now = Ok df ->
  (forall r, In r (rows df) -> is_fraud r <> 1) ->
  (- 2 ^ 63 < hours * 3600000000000 < 2 ^ 63 ->
   - 2 ^ 63 < now - hours * 3600000000000 < 2 ^ 63 ->
   get_fraud_count file now hours = Ok 0%nat) /\
  (- 2 ^ 63 < now - 300000000000 < 2 ^ 63 ->
   get_fraud_ratio_5min file now = Ok (S754_zero false)) /\
  get_top_categories file now n = Ok [] /\
  get_age_distribution file now = Ok [] /\
  get_top_merchant_locations file now n = Ok [] /\
  get_top_states file now n = Ok [].
Proof.
  intros Hdf Hno. apply (no_fraud_results file now hours n df Hdf).
  apply filter_none. intros r Hr. unfold fraud. apply Z.eqb_neq.
  now apply Hno.
Qed.


(** On a file that loads, without a [local_timestamp] column and whose
    header is not replaced (it has not 27 names), no row is in any window:
    the count is 0 for a window that pandas represents and the ratio is
    [+0.0] for a clock at least five minutes into the range of pandas,
    whatever the fraud flags. *)
Theorem missing_timestamp_column_zero (header : list string)
  (body : list (list string)) (now hours : Z) (df : DataFrame) :
  has_column "local_timestamp" header = false ->
  List.length header <> 27%nat ->
  load_data (Table header body) now = Ok df ->
  (- 2 ^ 63 < hours * 3600000000000 < 2 ^ 63 ->
   - 2 ^ 63 < now - hours * 3600000000000 < 2 ^ 63 ->
   get_fraud_count (Table header body) now hours = Ok 0%nat) /\
  (- 2 ^ 63 < now - 300000000000 < 2 ^ 63 ->
   get_fraud_ratio_5min (Table header body) now = Ok (S754_zero false)).
Proof.
  intros Hno Hlen Hdf.
  assert (Hrep : repair_header header = header).
  { unfold repair_header. rewrite Hno. cbn [negb andb].
    destruct (Nat.eqb_spec (List.length header) (List.length EXPECTED_COLS))
      as [E|E]; [|reflexivity].
    now contradiction Hlen. }
  assert (Hst : forall cutoff r, In r (rows df) -> since cutoff r = false).
  { destruct (load_data_frame _ _ _ _ Hdf) as [flags [lat [lon [_ [_ ->]]]]].
    rewrite Hrep. cbn [rows].
    intros cutoff r Hr. apply assemble_In in Hr.
    destruct Hr as [i [raw [_ ->]]]. unfold since. cbn [local_timestamp].
    unfold stamp_column, column.
    destruct (index_of "local_timestamp" header) eqn:E.
    - assert (has_column "local_timestamp" header = true)
        by (apply index_of_has_column; congruence).
      congruence.
    - now rewrite nth_map_const. }
  split.
  - intros Hd Hc. rewrite (get_fraud_count_in_range _ now hours _ Hdf Hd Hc).
    unfold count. rewrite filter_none; [reflexivity|].
    intros r Hr. rewrite (Hst _ r Hr). apply andb_false_r.
  - intros Hnow. rewrite (get_fraud_ratio_in_range _ now _ Hdf Hnow).
    rewrite filter_none; [reflexivity|]. intros r. apply Hst.
Qed.

(** A file with a header and no data row loads, to a frame without rows. *)
Lemma load_data_header_only (header : list string) (now : Z) :
  exists df, load_data (Table header []) now = Ok df /\ rows df = [].
Proof.
  destruct (load_data_table header []) as [lat [lon Heq]].
  assert (Hf : fraud_column (repair_header header) [] = Ok []).
  { unfold fraud_column, column.
    destruct (index_of "is_fraud" (repair_header header)); [|reflexivity].
    cbn [map]. rewrite Pandas.to_int64_short; [reflexivity|].
    intros r []. }
  eexists. split; [rewrite Heq, Hf; reflexivity|reflexivity].
Qed.

(** A file with a header and no data row gives what an absent file gives:
    the count is 0, the ratio is 0 and the sequences are empty. *)
Theorem header_only_as_absent (header : list string) (now hours n : Z) :
  get_fraud_count (Table header []) now hours =
  get_fraud_count Missing now hours /\
  get_fraud_ratio_5min (Table header []) now =
  get_fraud_ratio_5min Missing now /\
  get_top_categories (Table header []) now n =
  get_top_categories Missing now n /\
  get_age_distribution (Table header []) now =
  get_age_distribution Missing now /\
  get_top_merchant_locations (Table header []) now n =
  get_top_merchant_locations Missing now n /\
  get_top_states (Table header []) now n =
  get_top_states Missing now n.
Proof.
  destruct (load_data_header_only header now) as [df [Hdf Hr]].
  assert (Hnone : filter fraud (rows df) = []) by now rewrite Hr.
  destruct (no_fraud_results (Table header []) now hours n _ Hdf Hnone)
    as [_ [_ [H3 [H4 [H5 H6]]]]].
  rewrite H3, H4, H5, H6.
  rewrite (get_fraud_count_eq _ now hours _ Hdf), Hr.
  rewrite (get_fraud_ratio_eq _ now _ Hdf), Hr.
  repeat split; reflexivity.
Qed.

(** Lines 34-35: when the header has 27 names and none is
    [local_timestamp], the names of the file are ignored: the file loads as
    if its header were the expected names, so every column is read by its
    position (the fraud flag from the 26th cell of a row, where its run of
    digits is short). *)
Theorem unnamed_header_by_position (header : list string)
  (body : list (list string)) (now : Z) :
  List.length header = 27%nat ->
  has_column "local_timestamp" header = false ->
  load_data (Table header body) now =
  load_data (Table EXPECTED_COLS body) now /\
  forall df,
    load_data (Table header body) now = Ok df ->
    (forall r, In r (rows df) ->
               short_flag (nth 25 (cells r) "") = true ->
               is_fraud r = fraud_flag (nth 25 (cells r) "")) /\
    getitem df "state" = Ok (map (fun r => nth 8 (cells r) "") (rows df)) /\
    getitem df "category" = Ok (map (fun r => nth 20 (cells r) "") (rows df)) /\
    getitem df "merchant" = Ok (map (fun r => nth 22 (cells r) "") (rows df)).
Proof.
  intros Hlen Hno.
  assert (Hrep : repair_header header = EXPECTED_COLS).
  { unfold repair_header. rewrite Hno, Hlen. reflexivity. }
  assert (Heq : load_data (Table header body) now =
                load_data (Table EXPECTED_COLS body) now).
  { unfold load_data. cbn [isfile read_csv negb]. now rewrite Hrep. }
  split; [exact Heq|].
  intros df Hdf. split.
  - intros r Hr Hs.
    pose proof (load_data_flag header body now df r Hdf Hr) as Hflag.
    rewrite Hrep in Hflag.
    change (cell EXPECTED_COLS "is_fraud" (cells r))
      with (Some (nth 25 (cells r) "")) in Hflag.
    now apply Hflag.
  - destruct (load_data_frame _ _ _ _ Hdf) as [flags [lat [lon [_ [_ ->]]]]].
    rewrite Hrep. repeat split; reflexivity.
Qed.

End Absent.

(** ** The endpoints *)


Lemma count_forget (p : Row -> bool) (l l' : list Row) :
  map forget_age l = map forget_age l' ->
  (forall r, p (forget_age r) = p r) ->
  count p l = count p l'.
Proof.
  intros H Hp. unfold count.
  rewrite <- (length_map forget_age (filter p l)).
  rewrite <- (length_map forget_age (filter p l')).
  f_equal. now apply forget_filter.
Qed.

Lemma count_pos {A : Type} (p : A -> bool) (l : list A) (x : A) :
  In x l -> p x = true -> (1 <= count p l)%nat.
Proof.
  intros Hx Hp. unfold count.
  assert (Hin : In x (filter p l)) by (apply filter_In; tauto).
  destruct (filter p l); [contradiction|simpl; lia].
Qed.
Lemma head_length {A : Type} (n : Z) (l : list A) :
  0 <= n -> Z.of_nat (List.length (Pandas.head n l)) <= n.
Proof.
  intros Hn. unfold Pandas.head.
  replace (0 <=? n) with true by (symmetry; apply Z.leb_le; exact Hn).
  pose proof (firstn_le_length (Z.to_nat n) l). lia.
Qed.

Lemma top_merchant_locations_length {library : Pandas.Library}
  (df : DataFrame) (n : Z) (out : list (location * nat)) :
  0 <= n -> top_merchant_locations df n = Ok out ->
  Z.of_nat (List.length out) <= n.
Proof.
  intros Hn. unfold top_merchant_locations.
  destruct (df_empty df); [intros [= <-]; simpl; lia|].
  destruct (df_empty (select fraud df)); [intros [= <-]; simpl; lia|].
  destruct (df_empty (select _ (select fraud df)));
    [intros [= <-]; simpl; lia|].
  destruct (getitem _ "merchant") as [merchant|e]; [|discriminate].
  cbn [bind]. intros [= <-]. now apply head_length.
Qed.

Section EndpointFacts.

Context {library : Pandas.Library}.

Lemma age_distribution_returns (file : csv_file) (now : Z) (df : DataFrame) :
  load_data file now = Ok df ->
  has_column "dob" (columns df) = true ->
  exists out,
    age_distribution df = Ok out /\ (out = [] \/ List.length out = 5%nat).
Proof.
  intros Hdf Hdob. unfold age_distribution.
  destruct (df_empty df || negb _); [eauto|].
  destruct (df_empty (select fraud df)); [eauto|].
  rewrite mapM_cut_age.
  - cbn [bind]. eexists. split; [reflexivity|]. right.
    unfold Pandas.reindex. now rewrite length_map.
  - intros a Ha. apply in_map_iff in Ha. destruct Ha as [r [<- Hr]].
    unfold select in Hr. cbn [rows] in Hr. apply filter_In in Hr.
    apply (load_data_ages file now df Hdf Hdob). tauto.
Qed.


(** [stats] returns on a file that has a [merchant] and a [dob] column: at
    most five categories, five locations and five states, and no or five
    age groups. *)
Theorem stats_returns (file : csv_file) (t1 t2 t3 t4 t5 : Z) (df : DataFrame) :
  load_data file t1 = Ok df ->
  has_column "merchant" (columns df) = true ->
  has_column "dob" (columns df) = true ->
  exists s,
    stats file t1 t2 t3 t4 t5 = Ok s /\
    stats_timestamp s = Datetime.strftime t5 /\
    (List.length (stats_top_categories s) <= 5)%nat /\
    (stats_age_distribution s = [] \/
     List.length (stats_age_distribution s) = 5%nat) /\
    (List.length (stats_top_merchant_locations s) <= 5)%nat /\
    (List.length (stats_top_states s) <= 5)%nat.
Proof.
  intros Hdf Hm Hdob.
  destruct (load_data_again file t1 t2 df Hdf) as [df2 [H2 [Hc2 _]]].
  destruct (load_data_again file t1 t3 df Hdf) as [df3 [H3 [Hc3 _]]].
  destruct (load_data_again file t1 t4 df Hdf) as [df4 [H4 _]].
  unfold stats, get_top_categories, get_age_distribution,
    get_top_merchant_locations, get_top_states.
  rewrite Hdf, H2, H3, H4. cbn [bind].
  destruct (top_column_length df "category" 5 ltac:(lia)) as [c [Hc Hlc]].
  destruct (top_column_length df4 "state" 5 ltac:(lia)) as [s [Hs Hls]].
  rewrite Hc2 in Hdob. rewrite Hc3 in Hm.
  destruct (age_distribution_returns file t2 df2 H2 Hdob) as [a [Ha Hla]].
  destruct (top_merchant_locations_returns df3 5 Hm) as [m Hmo].
  pose proof (top_merchant_locations_length df3 5 m ltac:(lia) Hmo) as Hlm.
  unfold top_categories, top_states. rewrite Hc, Ha, Hmo, Hs. cbn [bind].
  eexists. split; [reflexivity|].
  cbn [stats_timestamp stats_top_categories stats_age_distribution
         stats_top_merchant_locations stats_top_states].
  repeat split; try lia. exact Hla.
Qed.

(** The value of [get_top_merchant_locations] on a loaded frame. *)
Lemma load_data_merchants (file : csv_file) (now n : Z) (df : DataFrame) :
  load_data file now = Ok df ->
  get_top_merchant_locations file now n =
  match filter located (rows df) with
  | [] => Ok []
  | coords =>
      match index_of "merchant" (columns df) with
      | None => Raise (KeyError "merchant")
      | Some i =>
          Ok (Pandas.head n
                (Pandas.nargsort_desc snd
                   (Pandas.groupby_size location_leb
                      (map (fun r => (nth i (cells r) "",
                                      coordinate (merch_lat_f r),
                                      coordinate (merch_long_f r)))
                         coords))))
      end
  end.
Proof.
  intros Hdf. unfold get_top_merchant_locations. rewrite Hdf. cbn [bind].
  unfold top_merchant_locations.
  rewrite (load_data_empty file now df Hdf).
  destruct (rows df) as [|r0 rs] eqn:Er; [reflexivity|].
  rewrite <- Er.
  assert (Hcols : columns df <> []).
  { apply (load_data_columns file now df Hdf). rewrite Er.
    discriminate. }
  rewrite (select_empty fraud df Hcols).
  rewrite (select_empty _ (select fraud df) Hcols).
  unfold getitem, select. cbn [columns rows].
  change (filter located (rows df))
    with (filter (fun r => fraud r &&
                           (Pandas.notna (merch_lat_f r)
                            && Pandas.notna (merch_long_f r))) (rows df)).
  rewrite <- (filter_filter_and
                (fun r => Pandas.notna (merch_lat_f r)
                          && Pandas.notna (merch_long_f r)) fraud).
  destruct (filter fraud (rows df)) as [|f fs]; [reflexivity|].
  destruct (filter _ (f :: fs)) as [|c cs]; [reflexivity|].
  destruct (index_of "merchant" (columns df)) as [i|]; [|reflexivity].
  cbn [bind]. now rewrite combine_map_self.
Qed.

(** On a file that loads, [get_top_merchant_locations] raises exactly when
    the frame has no [merchant] column and some fraud row has both
    coordinates; what it raises is [KeyError('merchant')]. *)
Theorem merchant_locations_raise_iff (file : csv_file) (now n : Z)
  (df : DataFrame) :
  load_data file now = Ok df ->
  (get_top_merchant_locations file now n
   = Raise (KeyError "merchant") <->
   has_column "merchant" (columns df) = false /\
   exists r,
     In r (rows df) /\ is_fraud r = 1 /\
     Pandas.notna (merch_lat_f r) = true /\
     Pandas.notna (merch_long_f r) = true) /\
  (forall e,
      get_top_merchant_locations file now n = Raise e ->
      e = KeyError "merchant").
Proof.
  intros Hdf.
  assert (Hloc : forall r,
             located r = true <->
             is_fraud r = 1 /\ Pandas.notna (merch_lat_f r) = true /\
             Pandas.notna (merch_long_f r) = true).
  { intros r. unfold located, fraud.
    now rewrite !andb_true_iff, Z.eqb_eq. }
  rewrite (load_data_merchants file now n df Hdf).
  pose proof (index_of_has_column "merchant" (columns df)) as Hi.
  destruct (filter located (rows df)) as [|c cs] eqn:Ef.
  - split; [|discriminate]. split; [discriminate|].
    intros [_ [r [Hr Hl]]]. apply Hloc in Hl.
    rewrite (filter_nil_false located (rows df) r Ef Hr) in Hl. discriminate.
  - assert (Hc : In c (rows df) /\ located c = true).
    { apply filter_In. rewrite Ef. now left. }
    destruct (index_of "merchant" (columns df)) as [i|].
    + split; [|discriminate]. split; [discriminate|].
      intros [Hno _]. assert (has_column "merchant" (columns df) = true)
        by (apply Hi; discriminate).
      congruence.
    + split; [|now intros e [= <-]]. split; [|reflexivity]. intros _. split.
      * destruct (has_column "merchant" (columns df)); [|reflexivity].
        now destruct (proj1 Hi eq_refl).
      * exists c. split; [tauto|]. apply Hloc. tauto.
Qed.

End EndpointFacts.

(** ** The counts of the groups *)

Lemma total_cons {K : Type} (k : K) (c : nat) (t : list (K * nat)) :
  total ((k, c) :: t) = (c + total t)%nat.
Proof. reflexivity. Qed.

Section CountEquiv.

Context {K : Type} (eqb : K -> K -> bool).

Lemma add_key_In (k a : K) (ks : list K) :
  In k (add_key eqb a ks) -> In k ks \/ k = a.
Proof.
  unfold add_key. destruct (existsb (eqb a) ks); [tauto|].
  rewrite in_app_iff. simpl. intuition auto.
Qed.

(** A key of the table is a key that was counted. *)
Lemma count_keys_In (l : list K) (k : K) (c : nat) :
  In (k, c) (Pandas.count_keys eqb l) -> In k l.
Proof.
  intros H. apply (in_map fst) in H. cbn [fst] in H.
  unfold Pandas.count_keys in H. rewrite keys_fold in H. cbn [map] in H.
  assert (G : forall ks, In k (fold_left (fun ks k => add_key eqb k ks) l ks) ->
                         In k ks \/ In k l).
  { clear H. induction l as [|a l IH]; intros ks H; [now left|].
    cbn [fold_left] in H. apply IH in H. destruct H as [H|H]; [|simpl; tauto].
    apply add_key_In in H. simpl. intuition auto. }
  destruct (G [] H) as [[]|Hl]. exact Hl.
Qed.

Lemma total_incr (k : K) (t : list (K * nat)) :
  total (Pandas.incr eqb k t) = S (total t).
Proof.
  induction t as [|[k' c] t IH]; [reflexivity|].
  cbn [Pandas.incr]. destruct (eqb k k'); rewrite !total_cons;
    [|rewrite IH]; lia.
Qed.

(** Every counted key adds one to the table. *)
Lemma total_count_keys (l : list K) :
  total (Pandas.count_keys eqb l) = List.length l.
Proof.
  unfold Pandas.count_keys.
  assert (G : forall t, total (fold_left (fun t k => Pandas.incr eqb k t) l t)
                        = (total t + List.length l)%nat).
  { induction l as [|a l IH]; intros t; cbn [fold_left List.length]; [lia|].
    rewrite IH, total_incr. lia. }
  now rewrite G.
Qed.

Lemma length_incr (k : K) (t : list (K * nat)) :
  (List.length (Pandas.incr eqb k t) <= S (List.length t))%nat.
Proof.
  induction t as [|[k' c] t IH]; [simpl; lia|].
  cbn [Pandas.incr]. destruct (eqb k k'); cbn [List.length]; lia.
Qed.

Lemma length_count_keys (l : list K) :
  (List.length (Pandas.count_keys eqb l) <= List.length l)%nat.
Proof.
  unfold Pandas.count_keys.
  assert (G : forall t,
             (List.length (fold_left (fun t k => Pandas.incr eqb k t) l t)
              <= List.length t + List.length l)%nat).
  { induction l as [|a l IH]; intros t; cbn [fold_left List.length]; [lia|].
    pose proof (IH (Pandas.incr eqb a t)). pose proof (length_incr a t). lia. }
  apply (G []).
Qed.

Hypothesis eqb_refl : forall x, eqb x x = true.
Hypothesis eqb_sym : forall x y, eqb x y = eqb y x.
Hypothesis eqb_trans :
  forall x y z, eqb x y = true -> eqb y z = true -> eqb x z = true.






End CountEquiv.




Lemma total_perm {K : Type} (t t' : list (K * nat)) :
  Permutation t t' -> total t = total t'.
Proof.
  induction 1 as [|[k c] l l' _ IH|[k c] [k' c'] l|l l' l'' _ IH1 _ IH2];
    rewrite ?total_cons; lia.
Qed.

Lemma total_firstn {K : Type} (n : nat) (t : list (K * nat)) :
  (total (firstn n t) <= total t)%nat.
Proof.
  revert n. induction t as [|[k c] t IH]; intros [|n];
    cbn [firstn]; rewrite ?total_cons; try (unfold total; simpl; lia).
  specialize (IH n). lia.
Qed.

Lemma head_firstn {A : Type} (n : Z) (l : list A) :
  exists k, Pandas.head n l = firstn k l.
Proof. unfold Pandas.head. destruct (0 <=? n); eauto. Qed.

Lemma head_all {A : Type} (n : Z) (l : list A) :
  Z.of_nat (List.length l) <= n -> Pandas.head n l = l.
Proof.
  intros H. unfold Pandas.head.
  replace (0 <=? n) with true by (symmetry; apply Z.leb_le; lia).
  apply firstn_all2. lia.
Qed.

Lemma NoDup_firstn {A : Type} (n : nat) (l : list A) :
  NoDup l -> NoDup (firstn n l).
Proof.
  intros H. revert n. induction H as [|a l Hin Hnd IH]; intros [|n];
    cbn [firstn]; try constructor.
  - intros Hf. apply Hin. eapply In_firstn; eauto.
  - apply IH.
Qed.

Lemma In_head {A : Type} (n : Z) (l : list A) (x : A) :
  In x (Pandas.head n l) -> In x l.
Proof.
  destruct (head_firstn n l) as [k ->]. apply In_firstn.
Qed.

Section ColumnFacts.

Context {library : Pandas.Library}.

(** The value counts of a column: no key twice, no count below 1, and the
    counts add up to at most the length of the column, to the length when
    all of the table is taken. *)
Lemma value_counts_facts (src : list string) (n : Z) :
  let out := Pandas.head n (Pandas.value_counts src) in
  NoDup (map fst out) /\
  (forall k c, In (k, c) out -> In k src /\ (1 <= c)%nat) /\
  (total out <= List.length src)%nat /\
  (Z.of_nat (List.length src) <= n -> total out = List.length src).
Proof.
  cbv zeta. unfold Pandas.value_counts.
  pose proof (Pandas.nargsort_desc_perm _ snd
                (Pandas.count_keys String.eqb src)) as Hp.
  split; [|split; [|split]].
  - destruct (head_firstn n (Pandas.nargsort_desc snd
                               (Pandas.count_keys String.eqb src))) as [k ->].
    rewrite <- firstn_map. apply NoDup_firstn.
    apply (Permutation_NoDup (Permutation_sym (Permutation_map fst Hp))).
    apply count_keys_NoDup.
  - intros k c Hin.
    pose proof (value_counts_counts src n k c Hin) as Hc.
    apply In_head in Hin. apply (Permutation_in _ Hp) in Hin.
    apply count_keys_In in Hin. split; [exact Hin|].
    rewrite Hc. apply (count_pos _ _ k Hin). apply String.eqb_refl.
  - destruct (head_firstn n (Pandas.nargsort_desc snd
                               (Pandas.count_keys String.eqb src))) as [k ->].
    rewrite <- (total_count_keys String.eqb src), <- (total_perm _ _ Hp).
    apply total_firstn.
  - intros Hn. rewrite head_all.
    + now rewrite (total_perm _ _ Hp), total_count_keys.
    + rewrite (Permutation_length Hp).
      pose proof (length_count_keys String.eqb src). lia.
Qed.

Lemma top_column_facts (df : DataFrame) (name : string) (n : Z) :
  df_empty df = match rows df with [] => true | _ => false end ->
  exists out,
    (if df_empty df || negb (has_column name (columns df)) then Ok []
     else col <- getitem (select fraud df) name ;;
          Ok (Pandas.head n (Pandas.value_counts col))) = Ok out /\
    NoDup (map fst out) /\
    (forall k c, In (k, c) out ->
       (1 <= c)%nat /\
       exists r, In r (rows df) /\ fraud r = true /\
                 cell (columns df) name (cells r) = Some k) /\
    (total out <= count fraud (rows df))%nat /\
    (has_column name (columns df) = true ->
     Z.of_nat (count fraud (rows df)) <= n ->
     total out = count fraud (rows df)).
Proof.
  intros He.
  destruct (df_empty df || negb (has_column name (columns df))) eqn:E.
  - exists []. split; [reflexivity|]. split; [constructor|].
    split; [intros k c []|]. split; [unfold total; simpl; lia|].
    intros Hc _. rewrite Hc, orb_false_r in E. rewrite He in E.
    destruct (rows df); [reflexivity|discriminate E].
  - apply orb_false_elim in E. destruct E as [_ E].
    apply negb_false_iff, index_of_has_column in E.
    unfold getitem, select, cell. cbn [columns rows].
    destruct (index_of name (columns df)) as [i|]; [|contradiction].
    cbn [bind]. eexists. split; [reflexivity|].
    destruct (value_counts_facts
                (map (fun r => nth i (cells r) "") (filter fraud (rows df))) n)
      as [H1 [H2 [H3 H4]]].
    rewrite length_map in H3, H4.
    split; [exact H1|]. split; [|split; [exact H3|intros _; exact H4]].
    intros k c Hin. destruct (H2 k c Hin) as [Hk Hc]. split; [exact Hc|].
    apply in_map_iff in Hk. destruct Hk as [r [<- Hr]].
    apply filter_In in Hr. exists r. tauto.
Qed.

End ColumnFacts.

Lemma head_head {A : Type} (n m : Z) (l : list A) :
  0 <= n <= m -> Pandas.head n (Pandas.head m l) = Pandas.head n l.
Proof.
  intros H. unfold Pandas.head.
  replace (0 <=? n) with true by (symmetry; apply Z.leb_le; lia).
  replace (0 <=? m) with true by (symmetry; apply Z.leb_le; lia).
  rewrite firstn_firstn. f_equal. lia.
Qed.

Lemma top_column_prefix {library : Pandas.Library} (df : DataFrame)
  (name : string) (n m : Z) :
  0 <= n <= m ->
  (if df_empty df || negb (has_column name (columns df)) then Ok []
   else col <- getitem (select fraud df) name ;;
        Ok (Pandas.head n (Pandas.value_counts col))) =
  (out <- (if df_empty df || negb (has_column name (columns df)) then Ok []
           else col <- getitem (select fraud df) name ;;
                Ok (Pandas.head m (Pandas.value_counts col))) ;;
   Ok (Pandas.head n out)).
Proof.
  intros H. destruct (df_empty df || negb _).
  - cbn [bind]. now rewrite head_nil.
  - destruct (getitem _ name) as [col|e]; cbn [bind]; [|reflexivity].
    now rewrite head_head.
Qed.

Section GroupFacts.

Context {library : Pandas.Library}.

(** On a file that loads, [get_top_categories] and [get_top_states] list
    no key twice and no count below 1; every key is the text of a fraud
    row; the counts add up to at most the number of fraud rows, and to
    that number when the file has the column and [n] is at least the
    number of fraud rows. *)
Theorem top_n_counts (file : csv_file) (now n : Z) (df : DataFrame) :
  load_data file now = Ok df ->
  exists categories states,
    get_top_categories file now n = Ok categories /\
    get_top_states file now n = Ok states /\
    NoDup (map fst categories) /\ NoDup (map fst states) /\
    (forall k c, In (k, c) categories ->
       (1 <= c)%nat /\
       exists r, In r (rows df) /\ is_fraud r = 1 /\
                 cell (columns df) "category" (cells r) = Some k) /\
    (forall k c, In (k, c) states ->
       (1 <= c)%nat /\
       exists r, In r (rows df) /\ is_fraud r = 1 /\
                 cell (columns df) "state" (cells r) = Some k) /\
    (total categories <= count (fun r => (is_fraud r =? 1)%Z) (rows df))%nat /\
    (total states <= count (fun r => (is_fraud r =? 1)%Z) (rows df))%nat /\
    (has_column "category" (columns df) = true ->
     Z.of_nat (count (fun r => (is_fraud r =? 1)%Z) (rows df)) <= n ->
     total categories = count (fun r => (is_fraud r =? 1)%Z) (rows df)) /\
    (has_column "state" (columns df) = true ->
     Z.of_nat (count (fun r => (is_fraud r =? 1)%Z) (rows df)) <= n ->
     total states = count (fun r => (is_fraud r =? 1)%Z) (rows df)).
Proof.
  intros Hdf. change (fun r : Row => is_fraud r =? 1) with fraud.
  pose proof (load_data_empty file now df Hdf) as He.
  destruct (top_column_facts df "category" n He)
    as [c [Hc [C1 [C2 [C3 C4]]]]].
  destruct (top_column_facts df "state" n He) as [s [Hs [S1 [S2 [S3 S4]]]]].
  exists c, s.
  unfold get_top_categories, get_top_states. rewrite Hdf. cbn [bind].
  unfold top_categories, top_states. rewrite Hc, Hs.
  assert (F : forall r, fraud r = true -> is_fraud r = 1)
    by (intros r; apply Z.eqb_eq).
  repeat split; try assumption.
  - now apply C2 in H.
  - destruct (C2 k c0 H) as [_ [r [Hr [Hf Hk]]]]. exists r. auto.
  - now apply S2 in H.
  - destruct (S2 k c0 H) as [_ [r [Hr [Hf Hk]]]]. exists r. auto.
Qed.

(** For [0 <= n <= m], the top [n] of each ranking are the first [n]
    entries of its top [m]; when the query raises for [m] it raises for
    [n]. *)
Theorem top_n_prefix (file : csv_file) (now n m : Z) :
  0 <= n <= m ->
  get_top_categories file now n =
  (out <- get_top_categories file now m ;;
   Ok (Pandas.head n out)) /\
  get_top_states file now n =
  (out <- get_top_states file now m ;; Ok (Pandas.head n out)) /\
  get_top_merchant_locations file now n =
  (out <- get_top_merchant_locations file now m ;;
   Ok (Pandas.head n out)).
Proof.
  intros H. destruct (load_data file now) as [df|e] eqn:Hdf.
  - split; [|split].
    + unfold get_top_categories. rewrite Hdf. cbn [bind].
      now apply top_column_prefix.
    + unfold get_top_states. rewrite Hdf. cbn [bind].
      now apply top_column_prefix.
    + rewrite !(load_data_merchants file now _ df Hdf).
      destruct (filter located (rows df)); [cbn [bind]; now rewrite head_nil|].
      destruct (index_of "merchant" (columns df)); [|reflexivity].
      cbn [bind]. now rewrite head_head.
  - unfold get_top_categories, get_top_states, get_top_merchant_locations.
    rewrite Hdf. repeat split; reflexivity.
Qed.


End GroupFacts.
(** ** Separators in [safe_float] *)

Lemma count_rev {A : Type} (p : A -> bool) (l : list A) :
  count p (rev l) = count p l.
Proof. unfold count. now rewrite filter_rev, length_rev. Qed.

Lemma count_dropwhile (p q : ascii -> bool) (l : list ascii) :
  (forall c, p c = true -> q c = false) ->
  count q (Py.dropwhile p l) = count q l.
Proof.
  intros H. induction l as [|c l IH]; [reflexivity|].
  cbn [Py.dropwhile]. destruct (p c) eqn:E; [|reflexivity].
  rewrite count_cons, (H c E), IH. reflexivity.
Qed.

Lemma count_strip_with (p q : ascii -> bool) (l : list ascii) :
  (forall c, p c = true -> q c = false) ->
  count q (Py.strip_with p l) = count q l.
Proof.
  intros H. unfold Py.strip_with.
  now rewrite count_rev, count_dropwhile, count_rev, count_dropwhile.
Qed.

Lemma isspace_not_separator (c : ascii) :
  Py.isspace c = true -> is_separator c = false.
Proof.
  intros H. unfold is_separator.
  destruct (Ascii.eqb_spec c ",") as [->|_]; [cbv in H; discriminate H|].
  destruct (Ascii.eqb_spec c ".") as [->|_]; [cbv in H; discriminate H|].
  reflexivity.
Qed.

Lemma c_isspace_not_dot (c : ascii) : Py.c_isspace c = true -> is_dot c = false.
Proof.
  intros H. unfold is_dot.
  destruct (Ascii.eqb_spec c ".") as [->|_]; [cbv in H; discriminate H|].
  reflexivity.
Qed.

Lemma isdigit_not_dot (c : ascii) : Py.isdigit c = true -> is_dot c = false.
Proof.
  intros H. unfold is_dot.
  destruct (Ascii.eqb_spec c ".") as [->|_]; [cbv in H; discriminate H|].
  reflexivity.
Qed.

Lemma drop_underscores_cases (prev : option ascii) (c : ascii)
  (l : list ascii) :
  Ascii.eqb c "_" = false ->
  Py.drop_underscores prev (c :: l) = None \/
  Py.drop_underscores prev (c :: l) =
  option_map (cons c) (Py.drop_underscores (Some c) l).
Proof.
  intros E. cbn [Py.drop_underscores]. rewrite E.
  destruct prev as [[[] [] [] [] [] [] [] []]|]; try (right; reflexivity).
  destruct (Py.isdigit c); auto.
Qed.

(** Removing the underscores keeps the dots. *)
Lemma drop_underscores_dots (l : list ascii) :
  forall prev l',
    Py.drop_underscores prev l = Some l' -> count is_dot l' = count is_dot l.
Proof.
  induction l as [|c l IH]; intros prev l' H.
  - cbn [Py.drop_underscores] in H.
    destruct prev as [[[] [] [] [] [] [] [] []]|]; try discriminate H;
      now injection H as <-.
  - destruct (Ascii.eqb c "_") eqn:E.
    + cbn [Py.drop_underscores] in H. rewrite E in H.
      destruct prev as [p|]; [|discriminate H].
      destruct (Py.isdigit p); [|discriminate H].
      apply IH in H. rewrite H, count_cons.
      apply Ascii.eqb_eq in E. subst c. reflexivity.
    + destruct (drop_underscores_cases prev c l E) as [Hn|Hs];
        [rewrite Hn in H; discriminate H|rewrite Hs in H].
      destruct (Py.drop_underscores (Some c) l) as [l''|] eqn:El;
        [|discriminate H].
      injection H as <-. now rewrite !count_cons, (IH _ _ El).
Qed.

Lemma split_sign_dots (l : list ascii) :
  count is_dot (snd (Py.split_sign l)) = count is_dot l.
Proof. destruct l as [|[[] [] [] [] [] [] [] []] l]; reflexivity. Qed.

Lemma lower_not_dot (c a : ascii) :
  Py.lower c = a -> is_dot a = false -> is_dot c = false.
Proof.
  intros H Ha. unfold is_dot in *.
  destruct (Ascii.eqb_spec c ".") as [->|_]; [|reflexivity].
  cbv in H. subst a. discriminate Ha.
Qed.

(** The exponent has no dot. *)
Lemma parse_exponent_dots (l : list ascii) :
  count is_dot (snd (Py.parse_exponent l)) = count is_dot l.
Proof.
  unfold Py.parse_exponent. destruct l as [|c l']; [reflexivity|].
  destruct (Ascii.eqb (Py.lower c) "e") eqn:E; [|reflexivity].
  pose proof (split_sign_dots l') as Hs.
  destruct (Py.split_sign l') as [eneg l'']. cbn [snd] in Hs.
  destruct (Py.takewhile Py.isdigit l''); [reflexivity|].
  cbn [snd]. rewrite count_dropwhile by apply isdigit_not_dot.
  rewrite Hs, count_cons.
  apply Ascii.eqb_eq in E. now rewrite (lower_not_dot c "e" E eq_refl).
Qed.

Lemma fraction_split (r1 : list ascii) :
  match r1 with
  | "."%char :: r => (Py.takewhile Py.isdigit r, Py.dropwhile Py.isdigit r)
  | _ => ([], r1)
  end =
  match r1 with
  | [] => ([], r1)
  | c :: r =>
      if is_dot c
      then (Py.takewhile Py.isdigit r, Py.dropwhile Py.isdigit r)
      else ([], r1)
  end.
Proof. destruct r1 as [|[[] [] [] [] [] [] [] []] r]; reflexivity. Qed.

(** A decimal has at most one dot. *)
Lemma parse_decimal_dots (l : list ascii) (m e : Z) (rest : list ascii) :
  Py.parse_decimal l = Some (m, e, rest) ->
  (count is_dot l <= 1 + count is_dot rest)%nat.
Proof.
  unfold Py.parse_decimal. rewrite fraction_split.
  rewrite <- (count_dropwhile Py.isdigit is_dot l isdigit_not_dot).
  assert (G : forall (ip fp r2 : list ascii),
             match ip ++ fp with
             | [] => None
             | ds =>
                 let '(ex, r3) := Py.parse_exponent r2 in
                 Some (Py.digits_value ds,
                       ex - Z.of_nat (List.length fp), r3)
             end = Some (m, e, rest) ->
             count is_dot rest = count is_dot r2).
  { intros ip fp r2 H. destruct (ip ++ fp); [discriminate H|].
    pose proof (parse_exponent_dots r2) as Hx.
    destruct (Py.parse_exponent r2) as [ex r3]. cbn [snd] in Hx.
    injection H as _ _ <-. exact Hx. }
  destruct (Py.dropwhile Py.isdigit l) as [|c r]; intros H.
  - apply G in H. rewrite H. lia.
  - destruct (is_dot c) eqn:E; apply G in H; rewrite H.
    + rewrite count_cons, E.
      rewrite count_dropwhile by apply isdigit_not_dot. lia.
    + lia.
Qed.

Ltac inf_or_nan_done :=
  intros [= <- <-]; split; [auto|];
  rewrite ?count_cons;
  repeat match goal with
         | H : is_dot _ = false |- _ => rewrite H; clear H
         end;
  reflexivity.

(** [inf], [infinity] and [nan]: the value is an infinity of the sign read
    or a NaN, and the text read has no dot. *)
Lemma parse_inf_or_nan_cases (neg : bool) (l : list ascii) (x : spec_float)
  (rest : list ascii) :
  Py.parse_inf_or_nan neg l = Some (x, rest) ->
  (x = S754_nan \/ x = S754_infinity neg) /\
  count is_dot l = count is_dot rest.
Proof.
  unfold Py.parse_inf_or_nan.
  destruct l as [|c1 [|c2 [|c3 l3]]]; cbn [map].
  - discriminate.
  - destruct (Py.lower c1) as [[] [] [] [] [] [] [] []]; discriminate.
  - destruct (Py.lower c1) as [[] [] [] [] [] [] [] []]; try discriminate;
      destruct (Py.lower c2) as [[] [] [] [] [] [] [] []]; discriminate.
  - destruct (Py.lower c1) as [[] [] [] [] [] [] [] []] eqn:E1;
      try discriminate;
      destruct (Py.lower c2) as [[] [] [] [] [] [] [] []] eqn:E2;
      try discriminate;
      destruct (Py.lower c3) as [[] [] [] [] [] [] [] []] eqn:E3;
      try discriminate;
      pose proof (lower_not_dot c1 _ E1 eq_refl) as N1;
      pose proof (lower_not_dot c2 _ E2 eq_refl) as N2;
      pose proof (lower_not_dot c3 _ E3 eq_refl) as N3;
      clear E1 E2 E3; cbn [skipn].
    + destruct l3 as [|c4 l4]; cbn [map]; [inf_or_nan_done|].
      destruct (Py.lower c4) as [[] [] [] [] [] [] [] []] eqn:E4;
        try inf_or_nan_done.
      pose proof (lower_not_dot c4 _ E4 eq_refl) as N4. clear E4.
      destruct l4 as [|c5 l5]; cbn [map]; [inf_or_nan_done|].
      destruct (Py.lower c5) as [[] [] [] [] [] [] [] []] eqn:E5;
        try inf_or_nan_done.
      pose proof (lower_not_dot c5 _ E5 eq_refl) as N5. clear E5.
      destruct l5 as [|c6 l6]; cbn [map]; [inf_or_nan_done|].
      destruct (Py.lower c6) as [[] [] [] [] [] [] [] []] eqn:E6;
        try inf_or_nan_done.
      pose proof (lower_not_dot c6 _ E6 eq_refl) as N6. clear E6.
      destruct l6 as [|c7 l7]; cbn [map]; [inf_or_nan_done|].
      destruct (Py.lower c7) as [[] [] [] [] [] [] [] []] eqn:E7;
        try inf_or_nan_done.
      pose proof (lower_not_dot c7 _ E7 eq_refl) as N7. clear E7.
      destruct l7 as [|c8 l8]; cbn [map]; [inf_or_nan_done|].
      destruct (Py.lower c8) as [[] [] [] [] [] [] [] []] eqn:E8;
        try inf_or_nan_done.
      pose proof (lower_not_dot c8 _ E8 eq_refl) as N8. clear E8.
      inf_or_nan_done.
    + inf_or_nan_done.
Qed.

Lemma string_to_double_dots (l : list ascii) (x : spec_float)
  (rest : list ascii) :
  Py.string_to_double l = Some (x, rest) ->
  (count is_dot l <= 1 + count is_dot rest)%nat.
Proof.
  unfold Py.string_to_double. pose proof (split_sign_dots l) as Hs.
  destruct (Py.split_sign l) as [neg body]. cbn [snd] in Hs. rewrite <- Hs.
  destruct (Py.parse_decimal body) as [[[m e] r]|] eqn:Ed.
  - intros [= _ <-]. exact (parse_decimal_dots body m e r Ed).
  - intros H. apply parse_inf_or_nan_cases in H. lia.
Qed.

(** [float] reads no text with two dots. *)
Lemma float_dots (s : string) (x : spec_float) :
  Py.float s = Ok x -> (count is_dot (Py.chars s) <= 1)%nat.
Proof.
  unfold Py.float.
  destruct (Py.drop_underscores None (Py.chars s)) as [l|] eqn:El;
    [|discriminate].
  apply drop_underscores_dots in El. rewrite <- El.
  rewrite <- (count_strip_with Py.c_isspace is_dot l c_isspace_not_dot).
  destruct (Py.string_to_double _) as [[y [|c rest]]|] eqn:Ed;
    try discriminate.
  intros _. apply string_to_double_dots in Ed.
  change (count is_dot []) with 0%nat in Ed. lia.
Qed.

(** [safe_float] reads no number with a thousands separator: a text with
    two or more separators (commas or dots) gives [None], since every comma
    becomes a dot and [float] takes one dot at most. *)
Theorem safe_float_two_separators (s : string) :
  (2 <= count is_separator (Py.chars s))%nat ->
  safe_float (Some s) = Ok None.
Proof.
  intros H. unfold safe_float, try_except. cbv zeta.
  destruct (Py.float (Py.replace "," "." (Py.strip s))) as [x|e] eqn:E;
    [|reflexivity].
  exfalso. apply float_dots in E.
  unfold Py.replace, Py.strip in E. rewrite !chars_text in E.
  unfold count at 1 in E. rewrite filter_map_length in E.
  rewrite (count_ext _ is_separator) in E.
  - rewrite count_strip_with in E by apply isspace_not_separator. lia.
  - intros c _. unfold is_dot, is_separator.
    destruct (Ascii.eqb c ","); reflexivity.
Qed.

(** ** Digits in [safe_float] *)

Lemma existsb_dropwhile (p q : ascii -> bool) (l : list ascii) :
  existsb q (Py.dropwhile p l) = true -> existsb q l = true.
Proof.
  induction l as [|c l IH]; [trivial|].
  cbn [Py.dropwhile]. destruct (p c); [|trivial].
  intros H. cbn [existsb]. rewrite (IH H). apply orb_true_r.
Qed.

Lemma existsb_rev {A : Type} (q : A -> bool) (l : list A) :
  existsb q (rev l) = existsb q l.
Proof.
  induction l as [|a l IH]; [reflexivity|].
  cbn [rev existsb]. rewrite existsb_app, IH. cbn [existsb].
  rewrite orb_false_r. apply orb_comm.
Qed.

Lemma existsb_strip_with (p q : ascii -> bool) (l : list ascii) :
  existsb q (Py.strip_with p l) = true -> existsb q l = true.
Proof.
  unfold Py.strip_with. rewrite existsb_rev. intros H.
  apply existsb_dropwhile in H. rewrite existsb_rev in H.
  now apply existsb_dropwhile in H.
Qed.

Lemma existsb_takewhile (p q : ascii -> bool) (l : list ascii) :
  existsb q (Py.takewhile p l) = true -> existsb q l = true.
Proof.
  induction l as [|c l IH]; [trivial|].
  cbn [Py.takewhile]. destruct (p c); [|discriminate].
  cbn [existsb]. destruct (q c); [trivial|]. exact IH.
Qed.

Lemma takewhile_digit (l : list ascii) :
  Py.takewhile Py.isdigit l <> [] ->
  existsb Py.isdigit (Py.takewhile Py.isdigit l) = true.
Proof.
  destruct l as [|c l]; [now intros []|]. cbn [Py.takewhile].
  destruct (Py.isdigit c) eqn:E; [|now intros []].
  intros _. cbn [existsb]. now rewrite E.
Qed.

Lemma drop_underscores_digit (l : list ascii) :
  forall prev l',
    Py.drop_underscores prev l = Some l' ->
    existsb Py.isdigit l' = true -> existsb Py.isdigit l = true.
Proof.
  induction l as [|c l IH]; intros prev l' H.
  - cbn [Py.drop_underscores] in H.
    destruct prev as [[[] [] [] [] [] [] [] []]|]; try discriminate H;
      now injection H as <-.
  - destruct (Ascii.eqb c "_") eqn:E.
    + cbn [Py.drop_underscores] in H. rewrite E in H.
      destruct prev as [p|]; [|discriminate H].
      destruct (Py.isdigit p); [|discriminate H].
      intros Hd. cbn [existsb]. rewrite (IH _ _ H Hd). apply orb_true_r.
    + destruct (drop_underscores_cases prev c l E) as [Hn|Hs];
        [rewrite Hn in H; discriminate H|rewrite Hs in H].
      destruct (Py.drop_underscores (Some c) l) as [l''|] eqn:El;
        [|discriminate H].
      injection H as <-. cbn [existsb].
      destruct (Py.isdigit c); [trivial|]. cbn [orb]. exact (IH _ _ El).
Qed.

Lemma split_sign_digit (l : list ascii) :
  existsb Py.isdigit (snd (Py.split_sign l)) = true ->
  existsb Py.isdigit l = true.
Proof.
  destruct l as [|[[] [] [] [] [] [] [] []] l]; cbn [Py.split_sign snd];
    trivial; intros H; cbn [existsb]; rewrite H; apply orb_true_r.
Qed.

(** A decimal has a digit. *)
Lemma parse_decimal_digit (l : list ascii) (m e : Z) (rest : list ascii) :
  Py.parse_decimal l = Some (m, e, rest) -> existsb Py.isdigit l = true.
Proof.
  unfold Py.parse_decimal. rewrite fraction_split.
  destruct (Py.takewhile Py.isdigit l) as [|d ds] eqn:Eip.
  - destruct (Py.dropwhile Py.isdigit l) as [|c r] eqn:Er; [discriminate|].
    destruct (is_dot c); [|discriminate].
    destruct (Py.takewhile Py.isdigit r) as [|d ds] eqn:Efp; [discriminate|].
    intros _. apply (existsb_dropwhile Py.isdigit). rewrite Er.
    cbn [existsb]. rewrite (existsb_takewhile Py.isdigit Py.isdigit r);
      [apply orb_true_r|].
    apply takewhile_digit. rewrite Efp. discriminate.
  - intros _. apply (existsb_takewhile Py.isdigit).
    apply takewhile_digit. rewrite Eip. discriminate.
Qed.

(** [float] gives a finite number only to a text with a digit. *)
Lemma float_digit (s : string) (x : spec_float) :
  Py.float s = Ok x ->
  existsb Py.isdigit (Py.chars s) = true \/
  x = S754_nan \/ exists neg, x = S754_infinity neg.
Proof.
  unfold Py.float.
  destruct (Py.drop_underscores None (Py.chars s)) as [l|] eqn:El;
    [|discriminate].
  destruct (Py.string_to_double _) as [[y [|c rest]]|] eqn:Ed;
    try discriminate.
  intros [= <-]. unfold Py.string_to_double in Ed.
  pose proof (split_sign_digit (Py.strip_with Py.c_isspace l)) as Hs.
  destruct (Py.split_sign _) as [neg body]. cbn [snd] in Hs.
  destruct (Py.parse_decimal body) as [[[m e] r]|] eqn:Ep.
  - left. apply (drop_underscores_digit _ _ _ El).
    apply (existsb_strip_with Py.c_isspace). apply Hs.
    exact (parse_decimal_digit body m e r Ep).
  - right. apply parse_inf_or_nan_cases in Ed. destruct Ed as [[->| ->] _];
      eauto.
Qed.

(** [safe_float] gives a finite number only to a text with a digit: an
    empty or blank cell, or a word, gives [None], an infinity or a NaN,
    never 0. *)
Theorem safe_float_needs_digit (s : string) (x : spec_float) :
  safe_float (Some s) = Ok (Some x) ->
  existsb Py.isdigit (Py.chars s) = true \/
  x = S754_nan \/ exists neg, x = S754_infinity neg.
Proof.
  unfold safe_float, try_except. cbv zeta.
  destruct (Py.float (Py.replace "," "." (Py.strip s))) as [y|e] eqn:E;
    [|discriminate].
  cbn [bind]. intros [= <-]. apply float_digit in E.
  destruct E as [E|E]; [left|now right].
  unfold Py.replace, Py.strip in E. rewrite !chars_text in E.
  apply (existsb_strip_with Py.isspace).
  revert E. generalize (Py.strip_with Py.isspace (Py.chars s)) as l.
  induction l as [|c l IH]; [trivial|]. cbn [map existsb].
  destruct (Ascii.eqb_spec c ",") as [->|_].
  - cbn [orb]. change (Py.isdigit "." || existsb Py.isdigit (map _ l))
      with (existsb Py.isdigit (map (fun c => if Ascii.eqb c "," then "."%char
                                              else c) l)).
    exact IH.
  - destruct (Py.isdigit c); [trivial|]. exact IH.
Qed.

(** ** The extremes of the ratio *)

Section Extremes.

Context {library : Pandas.Library}.


End Extremes.

(** ** The columns of a loaded frame *)

Lemma has_column_add (name extra : string) (cols : list string) :
  has_column name (add_column extra cols) =
  has_column name cols || String.eqb name extra.
Proof.
  unfold add_column. destruct (has_column extra cols) eqn:E.
  - destruct (String.eqb_spec name extra) as [->|_].
    + now rewrite E.
    + now rewrite orb_false_r.
  - unfold has_column. rewrite existsb_app. cbn [existsb].
    now rewrite orb_false_r.
Qed.

Lemma index_of_app (name : string) (cols more : list string) (i : nat) :
  index_of name cols = Some i -> index_of name (cols ++ more) = Some i.
Proof.
  revert i. induction cols as [|c cols IH]; intros i; [discriminate|].
  cbn [index_of app]. destruct (String.eqb name c); [trivial|].
  destruct (index_of name cols) as [j|]; [|discriminate].
  now rewrite (IH j eq_refl).
Qed.

Lemma index_of_add (name extra : string) (cols : list string) (i : nat) :
  index_of name cols = Some i -> index_of name (add_column extra cols) = Some i.
Proof.
  intros H. unfold add_column. destruct (has_column extra cols); [exact H|].
  now apply index_of_app.
Qed.

Section Columns.

Context {library : Pandas.Library}.

(** Loading a parsed file, when it returns, keeps the columns of its
    header (the expected names when the header is replaced), each at its
    position, and adds [is_fraud], [local_timestamp], [age], [merch_lat_f]
    and [merch_long_f] when they are missing: the frame has these five
    columns and no other new one. *)
Theorem loaded_columns (header : list string) (body : list (list string))
  (now : Z) (df : DataFrame) :
  load_data (Table header body) now = Ok df ->
  (forall name, In name derived_columns ->
                has_column name (columns df) = true) /\
  (forall name,
      has_column name (columns df) =
      has_column name (repair_header header)
      || has_column name derived_columns) /\
  (forall name i,
      index_of name (repair_header header) = Some i ->
      index_of name (columns df) = Some i).
Proof.
  intros Hdf.
  destruct (load_data_frame _ _ _ _ Hdf) as [flags [lat [lon [_ [_ ->]]]]].
  cbn [columns derived_columns fold_left].
  assert (Hc : forall name,
             has_column name
               (add_column "merch_long_f"
                  (add_column "merch_lat_f"
                     (add_column "age"
                        (add_column "local_timestamp"
                           (add_column "is_fraud" (repair_header header))))))
             = has_column name (repair_header header)
               || has_column name derived_columns).
  { intros name. rewrite !has_column_add. unfold has_column, derived_columns.
    cbn [existsb]. now rewrite orb_false_r, !orb_assoc. }
  split; [|split; [exact Hc|]].
  - intros name Hin. rewrite Hc.
    replace (has_column name derived_columns) with true;
      [apply orb_true_r|].
    symmetry. apply existsb_exists. exists name.
    split; [exact Hin|apply String.eqb_refl].
  - intros name i Hi. now do 5 apply index_of_add.
Qed.

(** [stats] fails as a whole in the case that makes
    [get_top_merchant_locations] raise: on a file with a [dob] column,
    without a [merchant] column and with a fraud row that has both
    coordinates, it raises [KeyError('merchant')], although the categories
    and the age groups were computed. *)
Theorem stats_raises_without_merchant (file : csv_file) (t1 t2 t3 t4 t5 : Z)
  (df : DataFrame) :
  load_data file t1 = Ok df ->
  has_column "merchant" (columns df) = false ->
  has_column "dob" (columns df) = true ->
  (exists r, In r (rows df) /\ located r = true) ->
  (exists c, get_top_categories file t1 5 = Ok c) /\
  (exists a, get_age_distribution file t2 = Ok a) /\
  stats file t1 t2 t3 t4 t5 = Raise (KeyError "merchant").
Proof.
  intros Hdf Hm Hdob [r [Hr Hloc]].
  destruct (load_data_again file t1 t2 df Hdf) as [df2 [H2 [Hc2 _]]].
  destruct (load_data_again file t1 t3 df Hdf) as [df3 [H3 [Hc3 Hr3]]].
  destruct (top_column_length df "category" 5 ltac:(lia)) as [c [Hc _]].
  rewrite Hc2 in Hdob.
  destruct (age_distribution_returns file t2 df2 H2 Hdob)
    as [a [Ha _]].
  assert (Hcat : get_top_categories file t1 5 = Ok c).
  { unfold get_top_categories. rewrite Hdf. exact Hc. }
  assert (Hage : get_age_distribution file t2 = Ok a).
  { unfold get_age_distribution. rewrite H2. exact Ha. }
  split; [eauto|]. split; [eauto|].
  unfold stats. rewrite Hcat, Hage. cbn [bind].
  rewrite (load_data_merchants file t3 5 df3 H3).
  pose proof (count_pos located (rows df) r Hr Hloc) as Hpos.
  rewrite (count_forget located (rows df) (rows df3) Hr3) in Hpos
    by reflexivity.
  unfold count in Hpos.
  destruct (filter located (rows df3)); [simpl in Hpos; lia|].
  rewrite Hc3 in Hm.
  destruct (index_of "merchant" (columns df3)) eqn:Ei; [|reflexivity].
  assert (has_column "merchant" (columns df3) = true)
    by (apply index_of_has_column; congruence).
  congruence.
Qed.

End Columns.

(** ** The rows of a loaded frame *)

Lemma mapM_nth {A B : Type} (f : A -> result B) (l : list A) (bs : list B)
  (i : nat) (a : A) (d : B) :
  mapM f l = Ok bs -> nth_error l i = Some a -> f a = Ok (nth i bs d).
Proof.
  revert bs i. induction l as [|x l IH]; intros bs i H Hi.
  - destruct i; discriminate Hi.
  - cbn [mapM] in H. destruct (f x) as [b|e] eqn:Eb; [|discriminate H].
    cbn [bind] in H. destruct (mapM f l) as [bs'|e]; [|discriminate H].
    cbn [bind] in H. injection H as <-.
    destruct i as [|i]; cbn [nth_error nth] in *.
    + now injection Hi as <-.
    + now apply IH.
Qed.

(** The entries of a float column: what [safe_float] reads in the cell. *)
Lemma float_column_cell (header : list string) (body : list (list string))
  (name : string) (l : list (option spec_float)) (i : nat)
  (raw : list string) :
  float_column header body name = Ok l ->
  nth_error body i = Some raw ->
  match cell header name raw with
  | Some s => safe_float (Some s) = Ok (nth i l None)
  | None => nth i l None = None
  end.
Proof.
  unfold float_column, column, cell. intros Hl Hraw.
  destruct (index_of name header) as [j|].
  - apply (mapM_nth _ _ _ i (nth j raw "") None Hl).
    now rewrite nth_error_map, Hraw.
  - injection Hl as <-. apply nth_map_const.
Qed.

Section Rows.

Context {library : Pandas.Library}.

(** Loading, when it returns, drops no row: the frame has one row per row
    of the parsed file, in the file's order, each with the text cells it
    was read with.  A field that does not parse gets a default and the row
    stays: a coordinate is what [safe_float] reads in its cell ([None]
    when the text is not a number and when the file lacks the column), and
    the fraud flag of a cell without a digit is 0. *)
Theorem load_data_keeps_rows (header : list string)
  (body : list (list string)) (now : Z) (df : DataFrame) :
  load_data (Table header body) now = Ok df ->
  List.length (rows df) = List.length body /\
  map cells (rows df) = body /\
  forall r, In r (rows df) ->
    match cell (repair_header header) "merch_lat" (cells r) with
    | Some s => safe_float (Some s) = Ok (merch_lat_f r)
    | None => merch_lat_f r = None
    end /\
    match cell (repair_header header) "merch_long" (cells r) with
    | Some s => safe_float (Some s) = Ok (merch_long_f r)
    | None => merch_long_f r = None
    end /\
    match cell (repair_header header) "is_fraud" (cells r) with
    | Some s =>
        forallb (fun c => negb (Py.isdigit c)) (Py.chars s) = true ->
        is_fraud r = 0
    | None => is_fraud r = 0
    end.
Proof.
  intros Hdf.
  pose proof (load_data_rows header body now df Hdf) as Hc.
  split; [rewrite <- (length_map cells); now rewrite Hc|].
  split; [exact Hc|].
  intros r Hr.
  pose proof (load_data_flag header body now df r Hdf Hr) as Hflag.
  unfold load_data in Hdf. cbn [isfile read_csv negb] in Hdf.
  destruct (fraud_column (repair_header header) body) as [flags|];
    [|discriminate Hdf].
  cbn [bind] in Hdf.
  destruct (float_column (repair_header header) body "merch_lat")
    as [lat|] eqn:Elat; [|discriminate Hdf].
  cbn [bind] in Hdf.
  destruct (float_column (repair_header header) body "merch_long")
    as [lon|] eqn:Elon; [|discriminate Hdf].
  cbn [bind] in Hdf. injection Hdf as <-. cbn [rows] in Hr.
  apply assemble_In in Hr. destruct Hr as [i [raw [Hraw ->]]].
  cbn [cells merch_lat_f merch_long_f is_fraud] in *.
  split; [exact (float_column_cell _ _ _ _ _ _ Elat Hraw)|].
  split; [exact (float_column_cell _ _ _ _ _ _ Elon Hraw)|].
  destruct (cell (repair_header header) "is_fraud" raw) as [s|];
    [|exact Hflag].
  intros Hno. rewrite Hflag by now apply short_flag_no_digit.
  now apply fraud_flag_no_digit.
Qed.


End Rows.

(** ** The samples

    The theorems above at concrete files, evaluated with the [sample]
    library. *)

#[local] Existing Instance sample.

(** C1: an absent dataset and a dataset without a fraud row give the empty
    sequence, not five entries. *)
Lemma age_distribution_empty_sequence :
  (exists out,
      get_age_distribution Missing noon = Ok out /\
      List.length out <> 5%nat) /\
  (exists out,
      get_age_distribution no_fraud_file noon = Ok out /\
      List.length out <> 5%nat).
Proof.
  split; exists []; (split; [vm_compute; reflexivity|discriminate]).
Qed.

(** C1 on fraud rows aged 20, 30, 30 and 60. *)
Lemma age_distribution_bins_sample :
  load_data ages_file noon = Ok ages_frame /\
  get_age_distribution ages_file noon =
  Ok [("<25", 1%nat); ("25-34", 2%nat); ("35-44", 0%nat); ("45-54", 0%nat);
      ("55+", 1%nat)].
Proof.
  assert (H : load_data ages_file noon = Ok ages_frame)
    by (vm_compute; reflexivity).
  split; [exact H|].
  pose proof (age_distribution_bins ages_file noon ages_frame H) as T.
  cbv zeta in T. destruct T as [_ T].
  assert (Hne : filter (fun r => is_fraud r =? 1) (rows ages_frame) <> [])
    by (vm_compute; discriminate).
  assert (Hdob : has_column "dob" (columns ages_frame) = true) by reflexivity.
  destruct (T Hne Hdob) as [T' _]. rewrite T'. vm_compute. reflexivity.
Defined.

(** C2: a fraud row with coordinates in a file without a [merchant] column
    makes [get_top_merchant_locations] raise; the sibling queries guard
    their column and return. *)
Lemma missing_merchant_raises :
  get_top_merchant_locations no_merchant_file noon 5 =
  Raise (KeyError "merchant") /\
  get_top_states no_merchant_file noon 5 = Ok [] /\
  get_top_categories no_merchant_file noon 5 = Ok [("travel", 1%nat)].
Proof. repeat split; vm_compute; reflexivity. Qed.

(** C3: the raw flag ["2"] is normalized to 2, neither 0 nor 1. *)
Lemma is_fraud_two :
  match load_data flag_two_file noon with
  | Ok df => map is_fraud (rows df)
  | Raise _ => []
  end = [2] /\ 2 <> 0 /\ 2 <> 1.
Proof. split; [vm_compute; reflexivity|split; discriminate]. Qed.

(** C3 on the flags ["1.0"], ["yes"], ["0"] and ["2"]. *)
Lemma is_fraud_first_digit_run_sample :
  load_data (Table flags_header flags_body) noon = Ok flags_frame /\
  map is_fraud (rows flags_frame) = [1; 0; 0; 2] /\
  (forall r, In r (rows flags_frame) ->
     match cell (repair_header flags_header) "is_fraud" (cells r) with
     | Some s =>
         (forallb (fun c => negb (Py.isdigit c)) (Py.chars s) = true ->
          is_fraud r = 0) /\
         (forall run,
             first_digit_run (Py.chars s) run ->
             (List.length run <= 9)%nat ->
             is_fraud r = Py.digits_value run /\ 0 <= is_fraud r) /\
         (s = "1.0" -> is_fraud r = 1) /\
         (s = "yes" -> is_fraud r = 0) /\
         (s = "0" -> is_fraud r = 0) /\
         (s = "2" -> is_fraud r = 2)
     | None => is_fraud r = 0
     end).
Proof.
  assert (H : load_data (Table flags_header flags_body) noon = Ok flags_frame)
    by (vm_compute; reflexivity).
  split; [exact H|]. split; [reflexivity|].
  exact (proj1 (is_fraud_first_digit_run flags_header flags_body noon
                  flags_frame H)).
Defined.



(** C5: a fraud row stamped after the clock is counted, though it is not in
    the window from two hours ago to now. *)
Lemma future_row_counted :
  get_fraud_count future_file noon 2 = Ok 1%nat /\
  Iso.to_datetime ["2030-01-01 00:00:00"] = [Some 1893456000000000000] /\
  noon < 1893456000000000000 /\
  count (fun t => (noon - 2 * 3600000000000 <=? t) && (t <=? noon))
        [1893456000000000000] = 0%nat.
Proof. repeat split; vm_compute; reflexivity. Qed.

(** C5 on the ten-row sample: three fraud rows in the last two hours. *)
Lemma fraud_count_since_sample :
  load_data ten_rows_file noon = Ok ten_rows_frame /\
  - 2 ^ 63 < 2 * 3600000000000 < 2 ^ 63 /\
  - 2 ^ 63 < noon - 2 * 3600000000000 < 2 ^ 63 /\
  get_fraud_count ten_rows_file noon 2 = Ok 3%nat /\
  get_fraud_count ten_rows_file noon 2 =
  Ok (count (fun r =>
               (is_fraud r =? 1) &&
               match local_timestamp r with
               | Some t => noon - 2 * 3600000000000 <=? t
               | None => false
               end) (rows ten_rows_frame)).
Proof.
  assert (H : load_data ten_rows_file noon = Ok ten_rows_frame)
    by (vm_compute; reflexivity).
  assert (Hd : - 2 ^ 63 < 2 * 3600000000000 < 2 ^ 63)
    by (split; reflexivity).
  assert (Hc : - 2 ^ 63 < noon - 2 * 3600000000000 < 2 ^ 63)
    by (split; reflexivity).
  split; [exact H|]. split; [exact Hd|]. split; [exact Hc|].
  split; [vm_compute; reflexivity|].
  exact (proj1 (fraud_count_since ten_rows_file noon 2 ten_rows_frame
                  H Hd Hc)).
Defined.

(** C6: on the absent and on the unreadable file the age distribution is
    the empty sequence, not five entries of count 0. *)
Lemma absent_age_distribution_empty :
  get_age_distribution Missing noon = Ok [] /\
  get_age_distribution Unreadable noon = Ok [] /\
  @nil (string * nat) <>
  [("<25", 0%nat); ("25-34", 0%nat); ("35-44", 0%nat); ("45-54", 0%nat);
   ("55+", 0%nat)].
Proof. repeat split; discriminate. Qed.

(** C6 on the absent file. *)
Lemma absent_dataset_sample :
  get_fraud_count Missing noon 2 = Ok 0%nat /\
  get_fraud_ratio_5min Missing noon = Ok (S754_zero false) /\
  get_top_categories Missing noon 5 = Ok [] /\
  get_age_distribution Missing noon = Ok [] /\
  get_top_merchant_locations Missing noon 5 = Ok [] /\
  get_top_states Missing noon 5 = Ok [].
Proof.
  exact (absent_dataset_zero_values Missing noon 2 5 (or_introl eq_refl)).
Defined.

(** C7: 23 fraud rows among 160 give 14.37, the binary64 product
    [23 / 160 * 100] being just below 14.375; the ratio [100 * 23 / 160] is
    14.375, which rounds to 14.38. *)
Lemma ratio_not_nearest :
  get_fraud_ratio_5min ratio_file noon = Ok (float_literal "14.37") /\
  float_literal "14.37" <> float_literal "14.38" /\
  (100 * 23 # 160 == 14375 # 1000)%Q /\
  Pandas.multiply
    (Pandas.divide (Pandas.of_count 23) (Pandas.of_count 160))
    Pandas.hundred
  = S754_finite false 8092405580431359 (-49) /\
  float_literal "14.375" = S754_finite false 8092405580431360 (-49).
Proof.
  split; [vm_compute; reflexivity|].
  split; [vm_compute; discriminate|].
  split; [reflexivity|].
  split; vm_compute; reflexivity.
Qed.

(** C7 on four rows of the last five minutes, one of them fraud: 25.0. *)
Lemma fraud_ratio_rounded_sample :
  load_data five_minutes_file noon = Ok five_minutes_frame /\
  - 2 ^ 63 < noon - 300000000000 < 2 ^ 63 /\
  get_fraud_ratio_5min five_minutes_file noon = Ok (float_literal "25.0") /\
  exists x q,
    get_fraud_ratio_5min five_minutes_file noon = Ok x /\
    Py.float_value x = Some q /\ (0 <= q)%Q /\ (q <= 100)%Q.
Proof.
  assert (H : load_data five_minutes_file noon = Ok five_minutes_frame)
    by (vm_compute; reflexivity).
  assert (Hc : - 2 ^ 63 < noon - 300000000000 < 2 ^ 63)
    by (split; reflexivity).
  split; [exact H|]. split; [exact Hc|].
  split; [vm_compute; reflexivity|].
  pose proof (fraud_ratio_rounded five_minutes_file noon five_minutes_frame
                H Hc) as T.
  cbv zeta in T. destruct T as [_ T].
  assert (Hne : List.length
                  (filter (fun r => match local_timestamp r with
                                    | Some t => noon - 300000000000 <=? t
                                    | None => false
                                    end) (rows five_minutes_frame))
                <> 0%nat) by (vm_compute; discriminate).
  destruct (T Hne) as [_ [_ T3]].
  exact (proj2 (T3 ltac:(vm_compute; reflexivity))).
Defined.

(** C8: a fraud flag of 309 digits makes [load_data] raise: no row of the
    file is loaded, the well-formed first row included, and every query
    raises with it.  A flag of [2 ^ 63] loads as [- 2 ^ 63], neither a null
    nor the default. *)
Lemma long_flag_raises :
  String.length huge_flag = 309%nat /\
  load_data huge_flag_file noon = Raise IntCastingNaNError /\
  get_fraud_count huge_flag_file noon 2 = Raise IntCastingNaNError /\
  get_top_categories huge_flag_file noon 5 = Raise IntCastingNaNError /\
  match load_data wrapped_flag_file noon with
  | Ok df => map is_fraud (rows df)
  | Raise _ => []
  end = [- 2 ^ 63].
Proof. repeat split; vm_compute; reflexivity. Qed.

(** C10 on the ten-row sample: two hours against three. *)
Lemma fraud_count_monotone_sample :
  0 <= 2 <= 3 /\
  - 2 ^ 63 < noon < 2 ^ 63 /\
  get_fraud_count ten_rows_file noon 3 = Ok 4%nat /\
  exists c1,
    get_fraud_count ten_rows_file noon 2 = Ok c1 /\ (c1 <= 4)%nat.
Proof.
  assert (H : 0 <= 2 <= 3) by (split; discriminate).
  assert (Hn : - 2 ^ 63 < noon < 2 ^ 63) by (split; reflexivity).
  assert (H3 : get_fraud_count ten_rows_file noon 3 = Ok 4%nat)
    by (vm_compute; reflexivity).
  split; [exact H|]. split; [exact Hn|]. split; [exact H3|].
  exact (fraud_count_monotone ten_rows_file noon 2 3 4 H Hn H3).
Defined.

(** The scenarios of the specification. *)
Example scenario_recent_fraud_count :
  get_fraud_count ten_rows_file noon 2 = Ok 3%nat /\
  get_fraud_count ten_rows_file noon 3 = Ok 4%nat.
Proof. split; vm_compute; reflexivity. Qed.

Example scenario_recent_fraud_ratio :
  get_fraud_ratio_5min five_minutes_file noon = Ok (float_literal "25.0").
Proof. vm_compute. reflexivity. Qed.

Example scenario_malformed_row_kept :
  map (fun r => (cells r, is_fraud r, local_timestamp r, merch_lat_f r,
                 option_map Py.float_value (merch_long_f r)))
    (rows malformed_frame) =
  [(["maybe"; "yesterday"; "north"; "12,5"], 0, None, None,
    Some (Some (inject_Z 7036874417766400 * Qpower 2 (-49))%Q))].
Proof. vm_compute. reflexivity. Qed.
(** The guarded queries on the file with every column. *)
Lemma guarded_queries_sample :
  load_data dashboard_file noon = Ok dashboard_frame /\
  (exists l, get_top_categories dashboard_file noon 5 = Ok l) /\
  (exists l, get_top_states dashboard_file noon 5 = Ok l) /\
  (exists x, get_fraud_ratio_5min dashboard_file noon = Ok x) /\
  (exists c, get_fraud_count dashboard_file noon 2 = Ok c).
Proof.
  assert (H : load_data dashboard_file noon = Ok dashboard_frame)
    by (vm_compute; reflexivity).
  split; [exact H|].
  destruct (guarded_queries_return dashboard_file noon 2 5 dashboard_frame H)
    as [T1 [T2 [T3 T4]]].
  split; [exact T1|]. split; [exact T2|].
  split; [apply T3; split; reflexivity|].
  apply T4; split; reflexivity.
Defined.

(** [get_top_categories(1)] and [get_top_states(1)] on a file with three
    categories and three states among its fraud rows. *)
Lemma top_n_at_most_n_sample :
  load_data dashboard_file noon = Ok dashboard_frame /\
  0 <= 1 /\
  get_top_categories dashboard_file noon 5 =
  Ok [("travel", 3%nat); ("food", 1%nat); ("fuel", 1%nat)] /\
  get_top_categories dashboard_file noon 1 = Ok [("travel", 3%nat)] /\
  (exists out,
      get_top_categories dashboard_file noon 1 = Ok out /\
      Z.of_nat (List.length out) <= 1) /\
  (exists out,
      get_top_states dashboard_file noon 1 = Ok out /\
      Z.of_nat (List.length out) <= 1).
Proof.
  assert (H : load_data dashboard_file noon = Ok dashboard_frame)
    by (vm_compute; reflexivity).
  assert (Hn : 0 <= 1) by discriminate.
  split; [exact H|]. split; [exact Hn|].
  split; [vm_compute; reflexivity|]. split; [vm_compute; reflexivity|].
  exact (top_n_at_most_n dashboard_file noon 1 dashboard_frame H Hn).
Defined.

(** The clock as the endpoints print it. *)
Example strftime_samples :
  Datetime.strftime noon = "2026-11-03 12:00:00" /\
  Datetime.strftime (noon + 59 * NS_PER_MINUTE + 59 * NS_PER_SECOND + 999)
  = "2026-11-03 12:59:59" /\
  Datetime.strftime 951782400000000000 = "2000-02-29 00:00:00" /\
  Datetime.strftime 0 = "1970-01-01 00:00:00".
Proof. repeat split; vm_compute; reflexivity. Qed.

(** The two endpoints on a file with every column. *)
Example dashboard_endpoints :
  alerts_count dashboard_file noon noon noon =
  Ok (mkAlertsCount 4 (float_literal "75.0") "2026-11-03 12:00:00") /\
  option_map
    (fun s => (stats_top_categories s, stats_age_distribution s,
               map (fun e => (fst (fst (fst e)), snd e))
                 (stats_top_merchant_locations s),
               stats_top_states s))
    match stats dashboard_file noon noon noon noon noon with
    | Ok s => Some s
    | Raise _ => None
    end =
  Some ([("travel", 3%nat); ("food", 1%nat); ("fuel", 1%nat)],
        [("<25", 1%nat); ("25-34", 0%nat); ("35-44", 1%nat); ("45-54", 0%nat);
         ("55+", 2%nat)],
        [("A", 2%nat); ("B", 1%nat)],
        [("CJ", 3%nat); ("B", 1%nat); ("IS", 1%nat)]).
Proof. split; vm_compute; reflexivity. Qed.

(** A file without fraud rows. *)
Lemma no_fraud_zero_values_sample :
  load_data no_fraud_file noon = Ok no_fraud_sample_frame /\
  (forall r, In r (rows no_fraud_sample_frame) -> is_fraud r <> 1) /\
  get_fraud_count no_fraud_file noon 2 = Ok 0%nat /\
  get_fraud_ratio_5min no_fraud_file noon = Ok (S754_zero false) /\
  get_top_categories no_fraud_file noon 5 = Ok [] /\
  get_age_distribution no_fraud_file noon = Ok [] /\
  get_top_merchant_locations no_fraud_file noon 5 = Ok [] /\
  get_top_states no_fraud_file noon 5 = Ok [].
Proof.
  assert (H1 : load_data no_fraud_file noon = Ok no_fraud_sample_frame)
    by (vm_compute; reflexivity).
  assert (H2 : forall r, In r (rows no_fraud_sample_frame) -> is_fraud r <> 1).
  { intros r [<-|[<-|[]]]; discriminate. }
  split; [exact H1|]. split; [exact H2|].
  destruct (no_fraud_zero_values no_fraud_file noon 2 5
              no_fraud_sample_frame H1 H2) as [T1 [T2 T3]].
  split; [apply T1; split; reflexivity|].
  split; [apply T2; split; reflexivity|exact T3].
Defined.


(** A fraud row in a file without a [local_timestamp] column. *)
Lemma missing_timestamp_column_sample :
  has_column "local_timestamp" no_stamp_header = false /\
  List.length no_stamp_header <> 27%nat /\
  load_data (Table no_stamp_header no_stamp_body) noon = Ok no_stamp_frame /\
  map is_fraud (rows no_stamp_frame) = [1] /\
  get_fraud_count (Table no_stamp_header no_stamp_body) noon 2 = Ok 0%nat /\
  get_fraud_ratio_5min (Table no_stamp_header no_stamp_body) noon
  = Ok (S754_zero false).
Proof.
  assert (H1 : has_column "local_timestamp" no_stamp_header = false)
    by reflexivity.
  assert (H2 : List.length no_stamp_header <> 27%nat) by discriminate.
  assert (H3 : load_data (Table no_stamp_header no_stamp_body) noon
               = Ok no_stamp_frame) by (vm_compute; reflexivity).
  split; [exact H1|]. split; [exact H2|]. split; [exact H3|].
  split; [reflexivity|].
  destruct (missing_timestamp_column_zero no_stamp_header no_stamp_body noon
              2 no_stamp_frame H1 H2 H3) as [T1 T2].
  split; [apply T1; split; reflexivity|apply T2; split; reflexivity].
Defined.

(** A file of 27 columns under other names: the fraud row is found by the
    position of its cells. *)
Lemma unnamed_header_sample :
  List.length unnamed_header = 27%nat /\
  has_column "local_timestamp" unnamed_header = false /\
  load_data (Table unnamed_header unnamed_body) noon = Ok unnamed_frame /\
  load_data (Table unnamed_header unnamed_body) noon =
  load_data (Table EXPECTED_COLS unnamed_body) noon /\
  get_fraud_count (Table unnamed_header unnamed_body) noon 2 = Ok 1%nat /\
  get_top_categories (Table unnamed_header unnamed_body) noon 5
  = Ok [("travel", 1%nat)] /\
  getitem unnamed_frame "merchant" =
  Ok (map (fun r => nth 22 (cells r) "") (rows unnamed_frame)).
Proof.
  assert (H1 : List.length unnamed_header = 27%nat) by reflexivity.
  assert (H2 : has_column "local_timestamp" unnamed_header = false)
    by reflexivity.
  assert (H3 : load_data (Table unnamed_header unnamed_body) noon
               = Ok unnamed_frame) by (vm_compute; reflexivity).
  split; [exact H1|]. split; [exact H2|]. split; [exact H3|].
  destruct (unnamed_header_by_position unnamed_header unnamed_body noon H1 H2)
    as [T1 T2].
  split; [exact T1|]. split; [vm_compute; reflexivity|].
  split; [vm_compute; reflexivity|].
  destruct (T2 unnamed_frame H3) as [_ [_ [_ T]]]. exact T.
Defined.


(** [stats] on a file with every column. *)
Lemma stats_returns_sample :
  load_data dashboard_file noon = Ok dashboard_frame /\
  has_column "merchant" (columns dashboard_frame) = true /\
  has_column "dob" (columns dashboard_frame) = true /\
  exists s,
    stats dashboard_file noon noon noon noon noon = Ok s /\
    stats_timestamp s = Datetime.strftime noon /\
    (List.length (stats_top_categories s) <= 5)%nat /\
    (stats_age_distribution s = [] \/
     List.length (stats_age_distribution s) = 5%nat) /\
    (List.length (stats_top_merchant_locations s) <= 5)%nat /\
    (List.length (stats_top_states s) <= 5)%nat.
Proof.
  assert (H1 : load_data dashboard_file noon = Ok dashboard_frame)
    by (vm_compute; reflexivity).
  assert (H2 : has_column "merchant" (columns dashboard_frame) = true)
    by reflexivity.
  assert (H3 : has_column "dob" (columns dashboard_frame) = true)
    by reflexivity.
  split; [exact H1|]. split; [exact H2|]. split; [exact H3|].
  exact (stats_returns dashboard_file noon noon noon noon noon
           dashboard_frame H1 H2 H3).
Defined.

(** [get_top_merchant_locations] on a file without a [merchant] column and
    with a fraud row that has both coordinates. *)
Lemma merchant_locations_raise_sample :
  load_data no_merchant_file noon = Ok no_merchant_frame /\
  has_column "merchant" (columns no_merchant_frame) = false /\
  (exists r,
      In r (rows no_merchant_frame) /\ is_fraud r = 1 /\
      Pandas.notna (merch_lat_f r) = true /\
      Pandas.notna (merch_long_f r) = true) /\
  get_top_merchant_locations no_merchant_file noon 5
  = Raise (KeyError "merchant").
Proof.
  assert (H : load_data no_merchant_file noon = Ok no_merchant_frame)
    by (vm_compute; reflexivity).
  assert (H2 : has_column "merchant" (columns no_merchant_frame) = false)
    by reflexivity.
  assert (H3 : exists r,
               In r (rows no_merchant_frame) /\ is_fraud r = 1 /\
               Pandas.notna (merch_lat_f r) = true /\
               Pandas.notna (merch_long_f r) = true).
  { eexists. split; [left; reflexivity|repeat split; reflexivity]. }
  split; [exact H|]. split; [exact H2|]. split; [exact H3|].
  apply (proj1 (merchant_locations_raise_iff no_merchant_file noon 5
                  no_merchant_frame H)).
  split; [exact H2|exact H3].
Defined.

(** The top 1 against the top 5. *)
Lemma top_n_prefix_sample :
  0 <= 1 <= 5 /\
  get_top_categories dashboard_file noon 1 =
  (out <- get_top_categories dashboard_file noon 5 ;;
   Ok (Pandas.head 1 out)) /\
  get_top_states dashboard_file noon 1 =
  (out <- get_top_states dashboard_file noon 5 ;;
   Ok (Pandas.head 1 out)) /\
  get_top_merchant_locations dashboard_file noon 1 =
  (out <- get_top_merchant_locations dashboard_file noon 5 ;;
   Ok (Pandas.head 1 out)).
Proof.
  assert (H : 0 <= 1 <= 5) by (split; discriminate).
  split; [exact H|].
  exact (top_n_prefix dashboard_file noon 1 5 H).
Defined.


(** The counts of the categories and of the states of the sample add up to
    its five fraud rows. *)
Lemma top_n_counts_sample :
  load_data dashboard_file noon = Ok dashboard_frame /\
  count (fun r => is_fraud r =? 1) (rows dashboard_frame) = 5%nat /\
  exists categories states,
    get_top_categories dashboard_file noon 5 = Ok categories /\
    get_top_states dashboard_file noon 5 = Ok states /\
    NoDup (map fst categories) /\ NoDup (map fst states) /\
    total categories = 5%nat /\ total states = 5%nat.
Proof.
  assert (H : load_data dashboard_file noon = Ok dashboard_frame)
    by (vm_compute; reflexivity).
  split; [exact H|]. split; [reflexivity|].
  destruct (top_n_counts dashboard_file noon 5 dashboard_frame H)
    as [c [s [Hc [Hs [N1 [N2 [_ [_ [_ [_ [T1 T2]]]]]]]]]]].
  exists c, s. split; [exact Hc|]. split; [exact Hs|].
  split; [exact N1|]. split; [exact N2|].
  split; [apply T1; [reflexivity|discriminate]
         |apply T2; [reflexivity|discriminate]].
Defined.

(** A number with a thousands separator. *)
Lemma safe_float_two_separators_sample :
  (2 <= count is_separator (Py.chars "1,234.5"))%nat /\
  safe_float (Some "1,234.5") = Ok None.
Proof.
  assert (H : (2 <= count is_separator (Py.chars "1,234.5"))%nat)
    by (vm_compute; apply le_n).
  split; [exact H|].
  exact (safe_float_two_separators "1,234.5" H).
Defined.

(** A number with a decimal comma has digits. *)
Lemma safe_float_needs_digit_sample :
  safe_float (Some "12,5") = Ok (Some twelve_and_a_half) /\
  (existsb Py.isdigit (Py.chars "12,5") = true \/
   twelve_and_a_half = S754_nan \/
   exists neg, twelve_and_a_half = S754_infinity neg).
Proof.
  assert (H : safe_float (Some "12,5") = Ok (Some twelve_and_a_half))
    by (vm_compute; reflexivity).
  split; [exact H|].
  exact (safe_float_needs_digit "12,5" twelve_and_a_half H).
Defined.

(** Texts without a number. *)
Example safe_float_blank :
  safe_float (Some "") = Ok None /\
  safe_float (Some "   ") = Ok None /\
  safe_float (Some "north") = Ok None /\
  safe_float (Some "1.234,5") = Ok None /\
  safe_float (Some "-inf") = Ok (Some (S754_infinity true)) /\
  safe_float (Some " NaN ") = Ok (Some S754_nan).
Proof. repeat split; vm_compute; reflexivity. Qed.


(** The columns of the sample frame. *)
Lemma loaded_columns_sample :
  load_data (Table dashboard_header dashboard_body) noon = Ok dashboard_frame /\
  columns dashboard_frame =
  dashboard_header ++ ["age"; "merch_lat_f"; "merch_long_f"] /\
  (forall name, In name derived_columns ->
                has_column name (columns dashboard_frame) = true).
Proof.
  assert (H : load_data (Table dashboard_header dashboard_body) noon
              = Ok dashboard_frame) by (vm_compute; reflexivity).
  split; [exact H|]. split; [reflexivity|].
  exact (proj1 (loaded_columns dashboard_header dashboard_body noon
                  dashboard_frame H)).
Defined.

(** A file with fraud coordinates and no [merchant] column: [/stats] fails. *)
Lemma stats_raises_sample :
  load_data no_merchant_dob_file noon = Ok no_merchant_dob_frame /\
  has_column "merchant" (columns no_merchant_dob_frame) = false /\
  has_column "dob" (columns no_merchant_dob_frame) = true /\
  (exists r, In r (rows no_merchant_dob_frame) /\ located r = true) /\
  (exists c, get_top_categories no_merchant_dob_file noon 5 = Ok c) /\
  (exists a, get_age_distribution no_merchant_dob_file noon = Ok a) /\
  stats no_merchant_dob_file noon noon noon noon noon
  = Raise (KeyError "merchant").
Proof.
  assert (H1 : load_data no_merchant_dob_file noon
               = Ok no_merchant_dob_frame) by (vm_compute; reflexivity).
  assert (H2 : has_column "merchant" (columns no_merchant_dob_frame) = false)
    by reflexivity.
  assert (H3 : has_column "dob" (columns no_merchant_dob_frame) = true)
    by reflexivity.
  assert (H4 : exists r, In r (rows no_merchant_dob_frame)
                         /\ located r = true).
  { eexists. split; [left; reflexivity|reflexivity]. }
  split; [exact H1|]. split; [exact H2|]. split; [exact H3|].
  split; [exact H4|].
  exact (stats_raises_without_merchant no_merchant_dob_file
           noon noon noon noon noon no_merchant_dob_frame H1 H2 H3 H4).
Defined.

(** The malformed row is kept, with [None] for the latitude ["north"],
    12.5 for the longitude ["12,5"] and 0 for the flag ["maybe"]. *)
Lemma load_data_keeps_rows_sample :
  load_data (Table malformed_header malformed_body) noon = Ok malformed_frame /\
  List.length (rows malformed_frame) = List.length malformed_body /\
  map cells (rows malformed_frame) = malformed_body /\
  map (fun r => (is_fraud r, merch_lat_f r, merch_long_f r))
    (rows malformed_frame) = [(0, None, Some twelve_and_a_half)].
Proof.
  assert (H : load_data (Table malformed_header malformed_body) noon
              = Ok malformed_frame) by (vm_compute; reflexivity).
  split; [exact H|].
  destruct (load_data_keeps_rows malformed_header malformed_body noon
              malformed_frame H) as [T1 [T2 _]].
  split; [exact T1|]. split; [exact T2|]. reflexivity.
Defined.


